(** * ExplainableNRS: the MIND trainer and the LSTUR constructor

    A shallow embedding of
    - [modules/trainer/mind_rs_trainer.py] ([MindRSTrainer]: [_validation],
      [_train_epoch], [_valid_epoch]) and
    - [modules/models/nrs/lstur.py] ([LSTURRSModel.__init__]).

    Python integers are [Z]; [//] and [%] are [Z.div] and [Z.modulo] (both
    round towards minus infinity, as Python does), with the division by zero
    written out.  Python floats are IEEE binary64 values, taken from the
    Standard Library's executable specification [SpecFloat].  Exceptions are
    values of [exn]; code that can raise returns a [result]; code that also
    changes the trainer (model mode, step counter, weight file) runs in the
    state-and-exception monad [M]. *)

From Stdlib Require Import ZArith List Bool String Lia.
From Stdlib Require Import Floats.SpecFloat.
Import ListNotations.
Open Scope string_scope.
Open Scope list_scope.
Open Scope Z_scope.

Set Implicit Arguments.

(* ================================================================== *)
(** ** Exceptions and results                                           *)
(* ================================================================== *)

(** The exception classes the two files can meet, with the part of Python's
    class hierarchy that an [except] clause looks at. *)
Inductive exn : Type :=
| KeyError
| IndexError
| LookupError
| RuntimeError
| NameError
| UnboundLocalError
| ZeroDivisionError
| OverflowError
| ValueError
| AssertionError
| OtherError.

Definition exn_eqb (a b : exn) : bool :=
  match a, b with
  | KeyError, KeyError | IndexError, IndexError | LookupError, LookupError
  | RuntimeError, RuntimeError | NameError, NameError
  | UnboundLocalError, UnboundLocalError
  | ZeroDivisionError, ZeroDivisionError | OverflowError, OverflowError
  | ValueError, ValueError | AssertionError, AssertionError
  | OtherError, OtherError => true
  | _, _ => false
  end.

(** [parent e] is the direct base class of [e] below [Exception]. *)
Definition parent (e : exn) : option exn :=
  match e with
  | KeyError | IndexError => Some LookupError
  | UnboundLocalError => Some NameError
  | _ => None
  end.

(** [isinstance e cls]: an exception of class [e] is caught by
    [except cls]. The hierarchy above has depth two. *)
Definition isinstance (e cls : exn) : bool :=
  exn_eqb e cls ||
  match parent e with
  | Some p => exn_eqb p cls
  | None => false
  end.

(** Python's [a or b] on two exception classes: a class object is truthy, so
    the expression evaluates to its first operand. *)
Definition class_truthy (_ : exn) : bool := true.
Definition py_or (a b : exn) : exn := if class_truthy a then a else b.

Inductive result (A : Type) : Type :=
| Ok (a : A)
| Raise (e : exn).
Arguments Ok {A} a.
Arguments Raise {A} e.

Definition rbind {A B} (r : result A) (k : A -> result B) : result B :=
  match r with
  | Ok a => k a
  | Raise e => Raise e
  end.

Declare Scope result_scope.
Delimit Scope result_scope with res.
Notation "x <- c ;; k" := (rbind c (fun x => k))
  (at level 61, c at next level, right associativity) : result_scope.

Definition is_ok {A} (r : result A) : bool :=
  match r with Ok _ => true | Raise _ => false end.

(* ================================================================== *)
(** ** Python containers                                                *)
(* ================================================================== *)

(** [x[i]] on a sequence for an index produced by [range(len(...))]. *)
Definition getitem {A} (l : list A) (i : nat) : result A :=
  match nth_error l i with
  | Some a => Ok a
  | None => Raise IndexError
  end.

(** [x[:n]]: a negative bound counts from the end. *)
Definition slice_to {A} (n : Z) (l : list A) : list A :=
  if 0 <=? n then firstn (Z.to_nat n) l
  else firstn (Z.to_nat (Z.of_nat (List.length l) + n)) l.

(** [name in s] for strings. *)
Fixpoint contains (sub s : string) : bool :=
  prefix sub s ||
  match s with
  | EmptyString => false
  | String _ s' => contains sub s'
  end.

(** A [dict] in insertion order, as an association list without repeated keys. *)
Section Dict.
Variables (K V : Type) (keqb : K -> K -> bool).

Definition dict : Type := list (K * V).

Fixpoint dict_get (k : K) (d : dict) : option V :=
  match d with
  | [] => None
  | (k', v) :: d' => if keqb k k' then Some v else dict_get k d'
  end.

(** [d[k]] of a plain dict. *)
Definition dict_getitem (k : K) (d : dict) : result V :=
  match dict_get k d with
  | Some v => Ok v
  | None => Raise KeyError
  end.

(** [d[k] = v]: an existing key keeps its place. *)
Fixpoint dict_set (k : K) (v : V) (d : dict) : dict :=
  match d with
  | [] => [(k, v)]
  | (k', v') :: d' =>
      if keqb k k' then (k', v) :: d' else (k', v') :: dict_set k v d'
  end.

Definition dict_keys (d : dict) : list K := map fst d.
End Dict.

(** [d.get(key, default)] on a mapping of options and keyword arguments;
    [None] is an absent key. *)
Definition get {A} (v : option A) (default : A) : A :=
  match v with Some a => a | None => default end.

(** [d[k].append(x)] on a [defaultdict(lambda: [])]. *)
Definition dd_append {V} (k : string) (x : V) (d : dict string (list V))
  : dict string (list V) :=
  match dict_get String.eqb k d with
  | Some l => dict_set String.eqb k (l ++ [x]) d
  | None => dict_set String.eqb k [x] d
  end.

(* ================================================================== *)
(** ** Floats                                                           *)
(* ================================================================== *)

Definition float : Type := spec_float.
Definition prec : Z := 53.
Definition emax : Z := 1024.

(** The binary64 value nearest to [m * 2^e]. *)
Definition float_lit (m e : Z) : float := binary_normalize prec emax m e false.

(** [float(n)] for a Python int; too large an int raises. *)
Definition float_of_int (n : Z) : result float :=
  match binary_normalize prec emax n 0 false with
  | S754_infinity _ => Raise OverflowError
  | f => Ok f
  end.

Definition fmul (x y : float) : float := SFmul prec emax x y.

(** [n * x] for an int [n] and a float [x]. *)
Definition int_mul_float (n : Z) (x : float) : result float :=
  (f <- float_of_int n ;; Ok (fmul f x))%res.

(** [math.ceil(x)]: exact on finite floats, raising on infinities and NaN. *)
Definition math_ceil (x : float) : result Z :=
  match x with
  | S754_zero _ => Ok 0
  | S754_infinity _ => Raise OverflowError
  | S754_nan => Raise ValueError
  | S754_finite s m e =>
      let n := if s then Z.neg m else Z.pos m in
      if 0 <=? e then Ok (n * 2 ^ e)
      else Ok (- ((- n) / 2 ^ (- e)))
  end.

(** [a % b] on ints. *)
Definition py_mod (a b : Z) : result Z :=
  if b =? 0 then Raise ZeroDivisionError else Ok (a mod b).

(* ================================================================== *)
(** ** [LSTURRSModel.__init__]  (modules/models/nrs/lstur.py)           *)
(* ================================================================== *)

Module LSTUR.

(** The keyword arguments the constructor looks up with [kwargs.get]. *)
Record kwargs : Type := {
  kw_category_num : option Z;
  kw_num_filters : option Z;
  kw_use_category : option Z;
  kw_use_subcategory : option Z;
  kw_user_embed_method : option string;
  kw_user_num : option Z;
  kw_uid_path : option string
}.

(** The attributes that [MindNRSBase.__init__] leaves on [self] and that this
    constructor reads. *)
Record base : Type := {
  window_size : Z;
  embedding_dim : Z;
  attention_hidden_dim : Z
}.

(** The layers the constructor asks torch for. *)
Inductive layer : Type :=
| Conv1d (in_channels out_channels kernel_size padding : Z)
| ReLU
| AttLayer (dim hidden : Z)
| Embedding (num_embeddings dim : Z)
| GRU (input_dim output_dim : Z).

(** Code outside this file: the base-class constructor, the torch layer
    constructors (which may reject their arguments) and [read_json]. *)
Record externals : Type := {
  (* the call of the base-class constructor, line 16 *)
  super_init : kwargs -> result base;
  (* [nn.Conv1d(...)], [AttLayer(...)], [nn.Embedding(...)], [nn.GRU(...)] *)
  nn_new : layer -> result unit;
  (* [read_json(uid_path)], line 37 *)
  read_json : string -> result (list (string * Z))
}.

(** The attributes the constructor sets on [self]. *)
Record model : Type := {
  category_num : Z;
  num_filters : Z;
  use_category : Z;
  use_sub : Z;
  user_embed_method : option string;
  user_num : Z;
  news_encode_layer : list layer;
  news_att_layer : layer;
  category_embedding : option layer;
  user_embedding : option layer;
  user_encode_layer : layer;
  user_att_layer : option layer
}.

(** Truth value of an int. *)
Definition truthy (n : Z) : bool := negb (n =? 0).

(** [method == s], where [method] may be [None]. *)
Definition method_is (method : option string) (s : string) : bool :=
  match method with
  | Some m => String.eqb m s
  | None => false
  end.

(** [assert cond]. *)
Definition py_assert (cond : bool) : result unit :=
  if cond then Ok tt else Raise AssertionError.

(** Lines 20-21: the padding of the convolution and the assertion on it. *)
Definition kernel_padding (w : Z) : result Z :=
  let padding := (w - 1) / 2 in
  (_ <- py_assert (2 * padding =? w - 1) ;;
   Ok padding)%res.

(** A torch constructor called for the layer [l]. *)
Definition new (ext : externals) (l : layer) : result layer :=
  (_ <- nn_new ext l ;; Ok l)%res.

(** Lines 33-38: the user embedding of the "init" and "cat" variants. *)
Definition build_user_embedding (ext : externals) (kw : kwargs)
    (method : option string) (output_dim : Z) : result (option layer) :=
  if method_is method "init" || method_is method "cat" then
    match kw_uid_path kw with
    | None => Raise ValueError
    | Some uid_path =>
        (uid2index <- read_json ext uid_path ;;
         e <- new ext (Embedding (Z.of_nat (List.length uid2index) + 1) output_dim) ;;
         Ok (Some e))%res
    end
  else Ok None.

(** Lines 15-40. *)
Definition __init__ (ext : externals) (kw : kwargs) : result model :=
  (b <- super_init ext kw ;;
   let category_num := get (kw_category_num kw) 300 in
   let num_filters := get (kw_num_filters kw) 300 in
   let use_category := get (kw_use_category kw) 0 in
   let use_sub := get (kw_use_subcategory kw) 0 in
   let method := kw_user_embed_method kw in
   let user_num := get (kw_user_num kw) 500001 in
   padding <- kernel_padding (window_size b) ;;
   conv <- new ext (Conv1d (embedding_dim b) num_filters (window_size b) padding) ;;
   relu <- new ext ReLU ;;
   att <- new ext (AttLayer num_filters (attention_hidden_dim b)) ;;
   cat_emb <- (if truthy use_category || truthy use_sub
               then (e <- new ext (Embedding category_num num_filters) ;; Ok (Some e))
               else Ok None) ;;
   let input_dim :=
     if truthy use_category && truthy use_sub then num_filters * 3 else num_filters in
   let output_dim :=
     if truthy use_category && truthy use_sub then num_filters * 3 else num_filters in
   user_emb <- build_user_embedding ext kw method output_dim ;;
   gru <- new ext (GRU input_dim output_dim) ;;
   Ok {| category_num := category_num;
         num_filters := num_filters;
         use_category := use_category;
         use_sub := use_sub;
         user_embed_method := method;
         user_num := user_num;
         news_encode_layer := [conv; relu];
         news_att_layer := att;
         category_embedding := cat_emb;
         user_embedding := user_emb;
         user_encode_layer := gru;
         user_att_layer := None |})%res.

(** A run of the constructor to try things on: every collaborator succeeds,
    the base class sets the given window size. *)
Definition ext_ok (w : Z) : externals :=
  {| super_init := fun _ => Ok {| window_size := w; embedding_dim := 300;
                                  attention_hidden_dim := 200 |};
     nn_new := fun _ => Ok tt;
     read_json := fun _ => Ok [("U1", 1); ("U2", 2)] |}.

Definition kw_method (method : option string) (uid_path : option string) : kwargs :=
  {| kw_category_num := None; kw_num_filters := None; kw_use_category := None;
     kw_use_subcategory := None; kw_user_embed_method := method;
     kw_user_num := None; kw_uid_path := uid_path |}.

End LSTUR.

(* ================================================================== *)
(** ** [MindRSTrainer]  (modules/trainer/mind_rs_trainer.py)            *)
(* ================================================================== *)

Module Trainer.

(** *** Data *)

(** One validation batch, as the collate function delivers it: every field
    has one row per impression, rows padded to a common length. *)
Record batch : Type := {
  label : list (list Z);
  candidate_length : list Z;
  history_length : list Z;
  impression_index : list Z;
  candidate_index : list (list Z);
  history_index : list (list Z)
}.

(** What the model returns: named tensors with one row per impression
    ("pred", attention weights, ...). *)
Definition out_dict : Type := dict string (list (list float)).

(** The cache of news embeddings built by [get_news_embeds]. *)
Definition news_embeds : Type := list (list float).

(** A metric function with its [__name__]; a metric may raise (an AUC on
    labels of one class does). *)
Record metric : Type := {
  m_name : string;
  m_call : list Z -> list float -> result float
}.

(** One row of the result table: metric name to percentage. *)
Definition row : Type := dict string float.

(** [result_dict]: impression index to row. *)
Definition result_table : Type := dict Z row.

(** What is appended to the lists of [weight_dict]. *)
Inductive saved : Type :=
| SavedIndex (i : Z)
| SavedResults (r : row)
| SavedInts (l : list Z)
| SavedFloats (l : list float).

Definition weight_dump : Type := dict string (list saved).

(** Values of the log returned by [_validation] and [_train_epoch]. *)
Inductive log_value : Type :=
| LogStep (epoch batch_idx : Z)       (* f"{epoch}/{batch_idx}" *)
| LogNum (v : float).

Definition log : Type := dict string log_value.

(** *** Configuration and trainer attributes *)

(** The options read with [config.get(key, default)]; [None] is an absent
    key. *)
Record config : Type := {
  cfg_valid_interval : option float;
  cfg_valid_method : option string;
  cfg_topic_variant : option string;
  cfg_return_weight : option bool;
  cfg_saved_weight_num : option Z;
  cfg_evaluate_topic_by_epoch : option bool;
  cfg_topic_evaluation_method : option string
}.

(** Attributes of [self] set by [NCTrainer.__init__] and by the accelerator,
    which this file only reads. *)
Record trainer : Type := {
  conf : config;
  len_epoch : Z;
  log_step : Z;
  log_kl_div : bool;
  with_entropy : bool;
  has_lr_scheduler : bool;
  is_main_process : bool
}.

(** The float 0.6. *)
Definition float_0_6 : float := SFdiv prec emax (float_lit 6 0) (float_lit 10 0).

(** The float 100.0, which [* 100] converts its int operand to. *)
Definition hundred : float := float_lit 100 0.

Definition valid_interval (self : trainer) : float :=
  get (cfg_valid_interval (conf self)) float_0_6.
Definition valid_method (self : trainer) : string :=
  get (cfg_valid_method (conf self)) "fast_evaluation".
Definition topic_variant (self : trainer) : string :=
  get (cfg_topic_variant (conf self)) "base".
Definition return_weight (self : trainer) : bool :=
  get (cfg_return_weight (conf self)) false.
Definition saved_weight_num (self : trainer) : Z :=
  get (cfg_saved_weight_num (conf self)) 250.

(** Truth value of an optional string: [None] and the empty string are
    falsy. *)
Definition str_truthy (s : option string) : bool :=
  match s with
  | Some (String _ _) => true
  | _ => false
  end.

(** Line 250: [config.get("evaluate_topic_by_epoch", False) and
    config.get("topic_evaluation_method", None)]. *)
Definition evaluate_topic (self : trainer) : bool :=
  get (cfg_evaluate_topic_by_epoch (conf self)) false
  && str_truthy (cfg_topic_evaluation_method (conf self)).

(** *** Collaborators *)

(** Code outside this file, as the trainer uses it.  A collaborator that
    can raise returns a [result]. *)
Record externals : Type := {
  (* [get_news_embeds(model, news_loader, ...)], lines 172-178 *)
  get_news_embeds : result news_embeds;
  (* the batches of [valid_loader] (lines 183-191) for a given cache *)
  valid_loader : option news_embeds -> list batch;
  (* [model(batch_dict)], line 200 *)
  forward : batch -> result out_dict;
  (* [self.metric_funcs] *)
  metric_funcs : list metric;
  (* [gather_dict(result_dict, ...)], lines 244-246 *)
  gather_dict : result_table -> result result_table;
  (* the column means rounded to 4 places, lines 247-249 *)
  average : result_table -> row;
  (* [self.topic_evaluation(model, middle_name)], line 253 *)
  topic_evaluation : result row;
  (* [self._monitor(log, epoch)], line 55 *)
  monitor : log -> Z -> result unit;
  (* the batches of [self.train_loader] *)
  train_loader : list batch;
  (* lines 77-115 for [epoch], [batch_idx] and the batch: forward pass,
     loss, optimizer step, running metrics *)
  train_step : Z -> Z -> batch -> result unit;
  (* [self.topic_evaluator.result(...)], lines 120-124 *)
  topic_results : result unit;
  (* [self.train_metrics.result()], line 138 *)
  train_metrics_result : log
}.

(** *** The trainer as a state *)

(** Calls that leave the trainer, and entries of [_validation], in the order
    they happen. *)
Inductive call : Type :=
| GetNewsEmbeds
| Validation (epoch batch_idx : Z) (do_monitor : bool)
| Monitor (epoch : Z)
| LrSchedulerStep
| TorchSave.

Record world : Type := {
  training : bool;                   (* [self.model.training] *)
  step : Z;                          (* [self.step] *)
  weight_file : option weight_dump;  (* the file at [weight_path], if any *)
  calls : list call
}.

(** State and exceptions: the state survives a raise. *)
Definition M (A : Type) : Type := world -> world * result A.

Definition ret {A} (a : A) : M A := fun w => (w, Ok a).

Definition bind {A B} (c : M A) (k : A -> M B) : M B :=
  fun w =>
    match c w with
    | (w', Ok a) => k a w'
    | (w', Raise e) => (w', Raise e)
    end.

Definition lift {A} (r : result A) : M A := fun w => (w, r).

Declare Scope m_scope.
Delimit Scope m_scope with M.
Notation "x <- c ;; k" := (bind c (fun x => k))
  (at level 61, c at next level, right associativity) : m_scope.
Notation "c ;;; k" := (bind c (fun _ => k))
  (at level 61, right associativity) : m_scope.

(** [try: body except cls: handler]. *)
Definition try_except {A} (body : M A) (cls : exn) (handler : M A) : M A :=
  fun w =>
    match body w with
    | (w', Raise e) => if isinstance e cls then handler w' else (w', Raise e)
    | done => done
    end.

(** The computation [c] leaves the part [f] of the state as it was. *)
Definition preserves {X A} (f : world -> X) (c : M A) : Prop :=
  forall w, f (fst (c w)) = f w.

Definition set_training (b : bool) : M unit :=
  fun w => ({| training := b; step := step w; weight_file := weight_file w;
               calls := calls w |}, Ok tt).

Definition set_step (s : Z) : M unit :=
  fun w => ({| training := training w; step := s; weight_file := weight_file w;
               calls := calls w |}, Ok tt).

Definition record_call (c : call) : M unit :=
  fun w => ({| training := training w; step := step w;
               weight_file := weight_file w; calls := calls w ++ [c] |}, Ok tt).

Definition load_weight_file : M (option weight_dump) :=
  fun w => (w, Ok (weight_file w)).

Definition save_weight_file (d : weight_dump) : M unit :=
  fun w => ({| training := training w; step := step w; weight_file := Some d;
               calls := calls w ++ [TorchSave] |}, Ok tt).

(** *** [_valid_epoch]: the loop over the validation batches *)

(** Lines 209-213, the dict comprehension over [self.metric_funcs] for
    impression [i]: every metric is called on the label row and the score row
    cut to [can_len[i]], and its value is multiplied by 100. *)
Fixpoint metric_row (ms : list metric) (b : batch) (pred : list (list float))
    (i : nat) (acc : row) : result row :=
  match ms with
  | [] => Ok acc
  | m :: ms' =>
      (lab <- getitem (label b) i ;;
       c <- getitem (candidate_length b) i ;;
       p <- getitem pred i ;;
       c' <- getitem (candidate_length b) i ;;
       v <- m_call m (slice_to c lab) (slice_to c' p) ;;
       metric_row ms' b pred i
         (dict_set String.eqb (m_name m) (fmul v hundred) acc))%res
  end.

(** Lines 215-230: the dict [saved_items], in the order of its keys. *)
Definition saved_items (b : batch) (pred : list (list float)) (i : nat)
    (index : Z) (results : row) : result (list (string * saved)) :=
  (lab <- getitem (label b) i ;;
   c1 <- getitem (candidate_length b) i ;;
   cand <- getitem (candidate_index b) i ;;
   c2 <- getitem (candidate_length b) i ;;
   hist <- getitem (history_index b) i ;;
   h <- getitem (history_length b) i ;;
   p <- getitem pred i ;;
   c3 <- getitem (candidate_length b) i ;;
   Ok [("impression_index", SavedIndex index);
       ("results", SavedResults results);
       ("label", SavedInts (slice_to c1 lab));
       ("candidate_index", SavedInts (slice_to c2 cand));
       ("history_index", SavedInts (slice_to h hist));
       ("pred_score", SavedFloats (slice_to c3 p))])%res.

(** Lines 231-232. *)
Definition append_items (items : list (string * saved)) (wd : weight_dump)
  : weight_dump :=
  fold_left (fun d item => dd_append (fst item) (snd item) d) items wd.

(** Lines 233-241: the outputs whose name contains "weight". *)
Fixpoint capture_weights (outs : out_dict) (b : batch) (i : nat)
    (wd : weight_dump) : result weight_dump :=
  match outs with
  | [] => Ok wd
  | (name, weight) :: rest =>
      if contains "weight" name then
        (length <- (if contains "candidate" name
                    then getitem (candidate_length b) i
                    else getitem (history_length b) i) ;;
         wi <- getitem weight i ;;
         capture_weights rest b i
           (dd_append name (SavedFloats (slice_to length wi)) wd))%res
      else capture_weights rest b i wd
  end.

(** Lines 205-241: the body of [for i in range(len(label))]. *)
Definition impression (self : trainer) (ext : externals) (b : batch)
    (out : out_dict) (pred : list (list float)) (i : nat)
    (st : result_table * weight_dump) : result (result_table * weight_dump) :=
  (index <- getitem (impression_index b) i ;;
   r <- metric_row (metric_funcs ext) b pred i [] ;;
   let rd := dict_set Z.eqb index r (fst st) in
   if return_weight self then
     (items <- saved_items b pred i index r ;;
      wd <- capture_weights out b i (append_items items (snd st)) ;;
      Ok (rd, wd))
   else Ok (rd, snd st))%res.

Fixpoint impressions (self : trainer) (ext : externals) (b : batch)
    (out : out_dict) (pred : list (list float)) (idx : list nat)
    (st : result_table * weight_dump) : result (result_table * weight_dump) :=
  match idx with
  | [] => Ok st
  | i :: rest =>
      (st' <- impression self ext b out pred i st ;;
       impressions self ext b out pred rest st')%res
  end.

(** Lines 198-241: the body of [for vi, batch_dict in bar], up to the test
    of line 242. *)
Definition valid_batch (self : trainer) (ext : externals) (b : batch)
    (st : result_table * weight_dump) : result (result_table * weight_dump) :=
  (out <- forward ext b ;;
   pred <- dict_getitem String.eqb "pred" out ;;
   impressions self ext b out pred (seq 0 (List.length (label b))) st)%res.

(** The local variables that outlive the loop. [batch_dict] is bound by the
    [for] statement, so it is unbound when the loader yields nothing. *)
Record locals : Type := {
  result_dict : result_table;
  weight_dict : weight_dump;
  batch_dict : option batch
}.

Definition locals0 : locals :=
  {| result_dict := []; weight_dict := []; batch_dict := None |}.

(** Lines 197-243. *)
Fixpoint valid_loop (self : trainer) (ext : externals) (vi : Z)
    (batches : list batch) (loc : locals) : result locals :=
  match batches with
  | [] => Ok loc
  | b :: rest =>
      (st <- valid_batch self ext b (result_dict loc, weight_dict loc) ;;
       let loc' := {| result_dict := fst st; weight_dict := snd st;
                      batch_dict := Some b |} in
       if (saved_weight_num self <=? vi) && return_weight self
       then Ok loc'
       else valid_loop self ext (vi + 1) rest loc')%res
  end.

(** Line 265: [del batch_dict]. *)
Definition del_batch_dict (loc : locals) : result unit :=
  match batch_dict loc with
  | Some _ => Ok tt
  | None => Raise UnboundLocalError
  end.

(** *** [_valid_epoch]: the cache of news embeddings *)

(** The condition of lines 165-170. *)
Definition eligible (self : trainer) : bool :=
  String.eqb (valid_method self) "fast_evaluation"
  && negb (return_weight self)
  && negb (with_entropy self)
  && negb (String.eqb (topic_variant self) "variational_topic").

(** Lines 164-182. The clause of line 181 is
    [except KeyError or RuntimeError]. *)
Definition build_news_embeds (self : trainer) (ext : externals)
  : M (option news_embeds) :=
  try_except
    (if eligible self then
       (record_call GetNewsEmbeds ;;;
        e <- lift (get_news_embeds ext) ;;
        ret (Some e))%M
     else ret None)
    (py_or KeyError RuntimeError)
    (ret None).

(** *** [_valid_epoch]: the weight dump *)

(** Lines 261-262: [weight_dict[key].extend(old_weights[key])] for every key
    of [weight_dict]; [old_weights] is a plain dict. *)
Fixpoint extend_old (keys : list string) (wd old : weight_dump)
  : result weight_dump :=
  match keys with
  | [] => Ok wd
  | key :: rest =>
      let cur := match dict_get String.eqb key wd with
                 | Some l => l
                 | None => []
                 end in
      (o <- dict_getitem String.eqb key old ;;
       extend_old rest (dict_set String.eqb key (cur ++ o) wd) old)%res
  end.

(** Lines 256-264. *)
Definition save_weights (wd : weight_dump) : M unit :=
  (old <- load_weight_file ;;
   merged <- match old with
             | Some old_weights => lift (extend_old (dict_keys wd) wd old_weights)
             | None => ret wd
             end ;;
   save_weight_file merged)%M.

(** [d.update(e)]. *)
Definition dict_update {V} (d e : dict string V) : dict string V :=
  fold_left (fun acc kv => dict_set String.eqb (fst kv) (snd kv) acc) e d.

(** *** [_valid_epoch] *)

(** Lines 158-267: what follows [model.eval()]. *)
Definition valid_epoch_body (self : trainer) (ext : externals) : M row :=
  (embeds <- build_news_embeds self ext ;;
   loc <- lift (valid_loop self ext 0 (valid_loader ext embeds) locals0) ;;
   gathered <- lift (gather_dict ext (result_dict loc)) ;;
   let eval_result := average ext gathered in
   eval_result <- (if evaluate_topic self
                   then (t <- lift (topic_evaluation ext) ;;
                         ret (dict_update eval_result t))
                   else ret eval_result) ;;
   (if return_weight self && is_main_process self
    then save_weights (weight_dict loc)
    else ret tt) ;;;
   lift (del_batch_dict loc) ;;;
   ret eval_result)%M.

(** Lines 142-267, for the call [self._valid_epoch(...)] on the trainer's own
    model and validation set. *)
Definition _valid_epoch (self : trainer) (ext : externals) : M row :=
  (set_training false ;;;
   valid_epoch_body self ext)%M.

(** *** [_validation] *)

(** Lines 43-57. The writer and wandb calls only log. *)
Definition _validation (self : trainer) (ext : externals)
    (epoch batch_idx : Z) (do_monitor : bool) : M log :=
  (record_call (Validation epoch batch_idx do_monitor) ;;;
   let log0 : log := [("epoch/step", LogStep epoch batch_idx)] in
   val_log <- _valid_epoch self ext ;;
   let log1 :=
     dict_update log0 (map (fun kv => ("val_" ++ fst kv, LogNum (snd kv))%string) val_log) in
   (if do_monitor
    then (record_call (Monitor epoch) ;;; lift (monitor ext log1 epoch))
    else ret tt) ;;;
   set_training true ;;;
   ret log1)%M.

(** *** [_train_epoch] *)

(** Line 134: [(batch_idx + 1) % math.ceil(self.len_epoch *
    self.valid_interval) == 0]. *)
Definition interval_hit (self : trainer) (batch_idx : Z) : result bool :=
  (x <- int_mul_float (len_epoch self) (valid_interval self) ;;
   k <- math_ceil x ;;
   r <- py_mod (batch_idx + 1) k ;;
   Ok (r =? 0))%res.

(** Lines 74-135: the body of [for batch_idx, batch_dict in bar]. Lines
    77-115 (forward pass, loss, optimizer step, running metrics) are
    [train_step]. *)
Definition train_batch (self : trainer) (ext : externals) (epoch batch_idx : Z)
    (b : batch) : M unit :=
  (set_step ((epoch - 1) * len_epoch self + batch_idx) ;;;
   lift (train_step ext epoch batch_idx b) ;;;
   r <- lift (py_mod batch_idx (log_step self)) ;;
   (if r =? 0 then
      if log_kl_div self then
        (set_training false ;;;
         lift (topic_results ext) ;;;
         set_training true)
      else ret tt
    else ret tt) ;;;
   hit <- lift (interval_hit self batch_idx) ;;
   if hit then (_validation self ext epoch batch_idx true ;;; ret tt)
   else ret tt)%M.

Fixpoint train_loop (self : trainer) (ext : externals) (epoch batch_idx : Z)
    (batches : list batch) : M unit :=
  match batches with
  | [] => ret tt
  | b :: rest =>
      (train_batch self ext epoch batch_idx b ;;;
       train_loop self ext epoch (batch_idx + 1) rest)%M
  end.

(** Lines 59-140. *)
Definition _train_epoch (self : trainer) (ext : externals) (epoch : Z)
  : M log :=
  (set_training true ;;;
   train_loop self ext epoch 0 (train_loader ext) ;;;
   (if has_lr_scheduler self then record_call LrSchedulerStep else ret tt) ;;;
   let log := train_metrics_result ext in
   val_log <- _validation self ext epoch (len_epoch self) false ;;
   ret (dict_update log val_log))%M.

(** *** The result row as the specification words it *)

(** "Compute each configured metric function over (labels, scores) per
    impression, scale to percentage": the row for given labels and scores,
    one entry per metric in the order of [metric_funcs]. *)
Fixpoint percent_row (ms : list metric) (labels : list Z) (scores : list float)
  : result row :=
  match ms with
  | [] => Ok []
  | m :: ms' =>
      (v <- m_call m labels scores ;;
       rest <- percent_row ms' labels scores ;;
       Ok ((m_name m, fmul v hundred) :: rest))%res
  end.

(** The entries captured for a field of the weight dump. *)
Definition entries (k : string) (wd : weight_dump) : list saved :=
  match dict_get String.eqb k wd with
  | Some l => l
  | None => []
  end.

(** The number of impressions of a list of batches ([len(label)] each). *)
Definition impressions_in (bs : list batch) : nat :=
  list_sum (map (fun b => List.length (label b)) bs).

(** The fields of [saved_items]. *)
Definition saved_fields : list string :=
  ["impression_index"; "results"; "label"; "candidate_index"; "history_index";
   "pred_score"].

(** The outputs of the model that [capture_weights] keeps. *)
Definition weight_names (outs : out_dict) : list string :=
  filter (contains "weight") (dict_keys outs).

End Trainer.

(* ================================================================== *)
(** ** Concrete runs                                                    *)
(* ================================================================== *)

Module Runs.
Import Trainer.

Definition float_0_5 : float := float_lit 1 (-1).

(** A dyadic literal [m / 2^k]. *)
Definition dy (m k : Z) : float := float_lit m (- k).

(** An accuracy metric: a score of at least 0.5 predicts a click. *)
Definition predicted (s : float) : Z :=
  if SFleb float_0_5 s then 1 else 0.

Definition hits (labels : list Z) (scores : list float) : Z :=
  Z.of_nat (List.length
    (filter (fun ls => fst ls =? predicted (snd ls)) (combine labels scores))).

Definition accuracy_call (labels : list Z) (scores : list float) : result float :=
  if Z.of_nat (List.length labels) =? 0 then Raise ZeroDivisionError
  else Ok (SFdiv prec emax (float_lit (hits labels scores) 0)
                 (float_lit (Z.of_nat (List.length labels)) 0)).

Definition accuracy : metric :=
  {| m_name := "accuracy"; m_call := accuracy_call |}.

(** Two impressions, rows padded to length 4; [pad] fills the padding of the
    label rows. *)
Definition batch2 (pad : Z) (i1 i2 : Z) : batch :=
  {| label := [[1; 0; 1; pad]; [0; 1; pad; pad]];
     candidate_length := [3; 2];
     history_length := [2; 1];
     impression_index := [i1; i2];
     candidate_index := [[101; 102; 103; 0]; [201; 202; 0; 0]];
     history_index := [[7; 8; 0]; [9; 0; 0]] |}.

(** The scores of [batch2], with [fill] in the padding, and the model's
    output with two attention tensors. *)
Definition pred2 (fill : float) : list (list float) :=
  [[dy 7 3; dy 1 2; dy 3 3; fill]; [dy 1 3; dy 3 2; fill; fill]].

Definition out2 (fill : float) : out_dict :=
  [("pred", pred2 fill);
   ("candidate_weight", [[dy 1 1; dy 1 2; dy 1 2; fill]; [dy 1 1; dy 1 1; fill; fill]]);
   ("history_weight", [[dy 3 2; dy 1 2; fill]; [dy 1 0; fill; fill]])].

Definition no_config : config :=
  {| cfg_valid_interval := None; cfg_valid_method := None;
     cfg_topic_variant := None; cfg_return_weight := None;
     cfg_saved_weight_num := None; cfg_evaluate_topic_by_epoch := None;
     cfg_topic_evaluation_method := None |}.

(** Weight capture switched on, with the given cap. *)
Definition capture_config (cap : Z) : config :=
  {| cfg_valid_interval := None; cfg_valid_method := None;
     cfg_topic_variant := None; cfg_return_weight := Some true;
     cfg_saved_weight_num := Some cap; cfg_evaluate_topic_by_epoch := None;
     cfg_topic_evaluation_method := None |}.

(** [valid_interval = 0.5], everything else absent. *)
Definition half_config : config :=
  {| cfg_valid_interval := Some float_0_5; cfg_valid_method := None;
     cfg_topic_variant := None; cfg_return_weight := None;
     cfg_saved_weight_num := None; cfg_evaluate_topic_by_epoch := None;
     cfg_topic_evaluation_method := None |}.

Definition trainer_of (c : config) (n : Z) : trainer :=
  {| conf := c; len_epoch := n; log_step := 4; log_kl_div := false;
     with_entropy := false; has_lr_scheduler := true; is_main_process := true |}.

(** [nv] validation batches of two impressions each, with the impression
    indices [2k] and [2k+1] in batch [k]. *)
Definition valid_batches (pad : Z) (nv : nat) : list batch :=
  map (fun k => batch2 pad (2 * Z.of_nat k) (2 * Z.of_nat k + 1)) (seq 0 nv).

(** Collaborators that all succeed, with [nv] validation batches and [nt]
    training batches; the first row of the table stands for the mean. *)
Definition ext_ok (pad : Z) (fill : float) (nv nt : nat) : externals :=
  {| get_news_embeds := Ok [[dy 1 1]];
     valid_loader := fun _ => valid_batches pad nv;
     forward := fun _ => Ok (out2 fill);
     metric_funcs := [accuracy];
     gather_dict := fun t => Ok t;
     average := fun t => match t with [] => [] | (_, r) :: _ => r end;
     topic_evaluation := Ok [];
     monitor := fun _ _ => Ok tt;
     train_loader := repeat (batch2 0 0 1) nt;
     train_step := fun _ _ _ => Ok tt;
     topic_results := Ok tt;
     train_metrics_result := [] |}.

(** As [ext_ok] with one validation batch, but the cache build raises [e]. *)
Definition ext_cache_raises (e : exn) : externals :=
  {| get_news_embeds := Raise e;
     valid_loader := fun _ => valid_batches 0 1;
     forward := fun _ => Ok (out2 (dy 0 0));
     metric_funcs := [accuracy];
     gather_dict := fun t => Ok t;
     average := fun t => match t with [] => [] | (_, r) :: _ => r end;
     topic_evaluation := Ok [];
     monitor := fun _ _ => Ok tt;
     train_loader := [];
     train_step := fun _ _ _ => Ok tt;
     topic_results := Ok tt;
     train_metrics_result := [] |}.

(** As [ext_ok] with one validation batch, but the model raises [e] on it. *)
Definition ext_forward_raises (e : exn) : externals :=
  {| get_news_embeds := Ok [[dy 1 1]];
     valid_loader := fun _ => valid_batches 0 1;
     forward := fun _ => Raise e;
     metric_funcs := [accuracy];
     gather_dict := fun t => Ok t;
     average := fun t => match t with [] => [] | (_, r) :: _ => r end;
     topic_evaluation := Ok [];
     monitor := fun _ _ => Ok tt;
     train_loader := [];
     train_step := fun _ _ _ => Ok tt;
     topic_results := Ok tt;
     train_metrics_result := [] |}.

Definition world0 : world :=
  {| training := true; step := 0; weight_file := None; calls := [] |}.

(** The entries of [_validation] among the calls. *)
Definition validations (cs : list call) : list (Z * Z * bool) :=
  flat_map (fun c => match c with
                     | Validation e b m => [(e, b, m)]
                     | _ => []
                     end) cs.

(** Two validation passes with weight capture: the first, over one batch,
    writes the dump that the second, over two batches, finds on disk. *)
Definition capturing : trainer := trainer_of (capture_config 250) 10.

Definition after_first_pass : world :=
  fst (_valid_epoch capturing (ext_ok 0 (dy 0 0) 1 0) world0).

Definition prior_dump : weight_dump :=
  match weight_file after_first_pass with
  | Some d => d
  | None => []
  end.

Definition second_pass : world * result row :=
  _valid_epoch capturing (ext_ok 0 (dy 0 0) 2 0) after_first_pass.

(** The entries of [_validation] recorded in a state. *)
Definition vals (w : world) : list (Z * Z * bool) := validations (calls w).

End Runs.

(* ================================================================== *)
(** ** [MindRSTrainer.evaluate]                                         *)
(* ================================================================== *)

Module Evaluate.
Import Trainer Runs.

(** Line 276, the dict comprehension
    [{f"{prefix}_{k}": v for k, v in log.items()}]. *)
Definition with_prefix (prefix : string) (log : row) : row :=
  fold_left
    (fun acc kv =>
       dict_set String.eqb (prefix ++ "_" ++ fst kv)%string (snd kv) acc)
    log [].

(** Lines 269-277, for a call on the model whose mode the state records;
    [prefix] may be [None] or empty, and is then left out. *)
Definition evaluate (self : trainer) (ext : externals) (prefix : option string)
  : M row :=
  (set_training false ;;;
   log <- _valid_epoch self ext ;;
   ret (if str_truthy prefix then with_prefix (get prefix "") log else log))%M.

(** Lines 183-267 of [_valid_epoch]: what follows the [try] statement, for
    the value [embeds] that it has left in [news_embeds]. *)
Definition after_build (self : trainer) (ext : externals)
    (embeds : option news_embeds) : M row :=
  (loc <- lift (valid_loop self ext 0 (valid_loader ext embeds) locals0) ;;
   gathered <- lift (gather_dict ext (result_dict loc)) ;;
   let eval_result := average ext gathered in
   eval_result <- (if evaluate_topic self
                   then (t <- lift (topic_evaluation ext) ;;
                         ret (dict_update eval_result t))
                   else ret eval_result) ;;
   (if return_weight self && is_main_process self
    then save_weights (weight_dict loc)
    else ret tt) ;;;
   lift (del_batch_dict loc) ;;;
   ret eval_result)%M.

(** The batches the loop of lines 197-243 goes through from batch index [vi]
    on: all of them, or with weight capture those up to the batch whose index
    reaches [saved_weight_num]. *)
Definition reached (self : trainer) (vi : Z) (batches : list batch) : list batch :=
  if return_weight self
  then firstn (Z.to_nat (saved_weight_num self - vi) + 1) batches
  else batches.

(** The impression indices of the impressions of a batch. *)
Definition indices_of (b : batch) : list Z :=
  firstn (List.length (label b)) (impression_index b).

(** The keys of a dict after [d[k].append(x)] on a [defaultdict]: a new key
    goes last. *)
Definition add_key (keys : list string) (k : string) : list string :=
  if in_dec string_dec k keys then keys else keys ++ [k].

(** [valid_interval = 0.0], everything else absent. *)
Definition zero_interval_config : config :=
  {| cfg_valid_interval := Some (S754_zero false); cfg_valid_method := None;
     cfg_topic_variant := None; cfg_return_weight := None;
     cfg_saved_weight_num := None; cfg_evaluate_topic_by_epoch := None;
     cfg_topic_evaluation_method := None |}.

(** A state with the dump [d] on disk. *)
Definition world_with (d : weight_dump) : world :=
  {| training := true; step := 0; weight_file := Some d; calls := [] |}.

(** Lines 244-253 pass for the locals [loc]: the gathering and, when it is
    configured, the topic evaluation return. *)
Definition gathers (self : trainer) (ext : externals) (loc : locals) : Prop :=
  is_ok (gather_dict ext (result_dict loc)) = true /\
  (evaluate_topic self = true -> is_ok (topic_evaluation ext) = true).

(** The locals after the loop of a capturing pass over [nv] batches. *)
Definition captured_locals (nv : nat) : locals :=
  match valid_loop capturing (ext_ok 0 (dy 0 0) nv 0) 0 (valid_batches 0 nv) locals0 with
  | Ok loc => loc
  | Raise _ => locals0
  end.

(** A dump with the single field "label". *)
Definition label_only : weight_dump := [("label", [SavedInts [1; 0]])].

(** As [ext_ok] with one validation batch, but the model's output lacks
    "pred". *)
Definition ext_no_pred : externals :=
  {| get_news_embeds := Raise KeyError;
     valid_loader := fun _ => valid_batches 0 1;
     forward := fun _ => Ok [("candidate_weight", [[dy 1 1]; [dy 1 1]])];
     metric_funcs := [accuracy];
     gather_dict := fun t => Ok t;
     average := fun t => match t with [] => [] | (_, r) :: _ => r end;
     topic_evaluation := Ok [];
     monitor := fun _ _ => Ok tt;
     train_loader := [];
     train_step := fun _ _ _ => Ok tt;
     topic_results := Ok tt;
     train_metrics_result := [] |}.

End Evaluate.

(* ================================================================== *)
(** ** Further exception classes                                        *)
(* ================================================================== *)

From Stdlib Require DecimalString.

(** [news_recommendation/utils/mind_untils.py] and
    [news_recommendation/models/general/embedding.py] meet exception classes
    that [exn] does not list; [error] adds them to those of [exn].  In
    Python 3 [IOError] is another name of [OSError]. *)
Inductive error : Type :=
| Builtin (e : exn)
| TypeError
| AttributeError
| OSError
| FileNotFoundError
| FileExistsError
| IsADirectoryError
| LibraryError (name : string).

Inductive outcome (A : Type) : Type :=
| Done (a : A)
| Fail (e : error).
Arguments Done {A} a.
Arguments Fail {A} e.

Definition obind {A B} (r : outcome A) (k : A -> outcome B) : outcome B :=
  match r with
  | Done a => k a
  | Fail e => Fail e
  end.

Declare Scope outcome_scope.
Delimit Scope outcome_scope with out.
Notation "x <- c ;; k" := (obind c (fun x => k))
  (at level 61, c at next level, right associativity) : outcome_scope.

Definition of_result {A} (r : result A) : outcome A :=
  match r with
  | Ok a => Done a
  | Raise e => Fail (Builtin e)
  end.

Definition is_done {A} (r : outcome A) : bool :=
  match r with Done _ => true | Fail _ => false end.

(** A list comprehension whose element expression can raise: the elements
    are computed from left to right, up to the first exception. *)
Fixpoint comprehension {A B} (f : A -> outcome B) (l : list A) : outcome (list B) :=
  match l with
  | [] => Done []
  | a :: l' =>
      (b <- f a ;;
       bs <- comprehension f l' ;;
       Done (b :: bs))%out
  end.

(** [del d[k]] on an association list. *)
Definition dict_del {K V} (keqb : K -> K -> bool) (k : K) (d : dict K V) : dict K V :=
  filter (fun kv => negb (keqb k (fst kv))) d.

(** [str(n)] for an int. *)
Definition str_of_int (n : Z) : string :=
  DecimalString.NilZero.string_of_int (Z.to_int n).

(* ================================================================== *)
(** ** [news_recommendation/utils/mind_untils.py]                       *)
(* ================================================================== *)

Module MindUtils.
Import Ascii.

(** Bytes: the contents of a file, a block of a download. *)
Abbreviation bytes := (list Byte.byte).

(** *** Strings and paths (POSIX) *)

(** [s.split(sep)] for a one-character separator. *)
Fixpoint split (sep : Ascii.ascii) (s : string) : list string :=
  match s with
  | EmptyString => [EmptyString]
  | String c s' =>
      if Ascii.eqb c sep then EmptyString :: split sep s'
      else match split sep s' with
           | h :: t => String c h :: t
           | [] => [String c EmptyString]
           end
  end.

Definition starts_with_sep (s : string) : bool :=
  match s with
  | String c _ => Ascii.eqb c "/"%char
  | EmptyString => false
  end.

Fixpoint ends_with_sep (s : string) : bool :=
  match s with
  | EmptyString => false
  | String c EmptyString => Ascii.eqb c "/"%char
  | String _ s' => ends_with_sep s'
  end.

(** [os.path.join(a, b)]. *)
Definition os_path_join (a b : string) : string :=
  if starts_with_sep b then b
  else if String.eqb a "" || ends_with_sep a then a ++ b
  else a ++ "/" ++ b.

(** A [pathlib.Path]: the root ("", "/" or "//") and the components. *)
Record Path : Type := { root : string; parts : list string }.

Definition Path_eqb (p q : Path) : bool :=
  String.eqb (root p) (root q) &&
  (if list_eq_dec string_dec (parts p) (parts q) then true else false).

Fixpoint leading_seps (s : string) : nat :=
  match s with
  | String c s' => if Ascii.eqb c "/"%char then S (leading_seps s') else O
  | EmptyString => O
  end.

(** The root of a path string: exactly two leading slashes are kept. *)
Definition path_root (s : string) : string :=
  match leading_seps s with
  | O => ""
  | S (S O) => "//"
  | _ => "/"
  end.

(** The components of a path string: empty components and "." are dropped. *)
Definition path_parts (s : string) : list string :=
  filter (fun c => negb (String.eqb c "") && negb (String.eqb c "."))
         (split "/"%char s).

(** [Path(s)] for a string. *)
Definition Path_of (s : string) : Path :=
  {| root := path_root s; parts := path_parts s |}.

(** [Path(x)] where [x] may be [None]. *)
Definition Path_new (x : option string) : outcome Path :=
  match x with
  | Some s => Done (Path_of s)
  | None => Fail TypeError
  end.

(** [p / s] for a string [s]: an absolute [s] replaces [p]. *)
Definition truediv (p : Path) (s : string) : Path :=
  if starts_with_sep s then Path_of s
  else {| root := root p; parts := parts p ++ path_parts s |}.

(** [p / x] where [x] may be [None]. *)
Definition truediv_opt (p : Path) (x : option string) : outcome Path :=
  match x with
  | Some s => Done (truediv p s)
  | None => Fail TypeError
  end.

(** [p.parent]. *)
Definition parent (p : Path) : Path :=
  {| root := root p; parts := removelast (parts p) |}.

(** [str(p)], which is also what [os.fspath(p)] gives. *)
Definition fspath (p : Path) : string :=
  match root p, parts p with
  | EmptyString, [] => "."
  | r, ps => r ++ String.concat "/" ps
  end.

(** *** The file system and the network *)

(** The regular files with their contents, the directories created so far
    and the URLs requested so far.  A path exists when it is a file, a
    directory created, or lies above one of them; components ".." and
    symbolic links are outside the model. *)
Record state : Type := {
  files : dict Path bytes;
  dirs : list Path;
  requested : list string
}.

Fixpoint list_prefix (l1 l2 : list string) : bool :=
  match l1, l2 with
  | [], _ => true
  | a :: l1', b :: l2' => String.eqb a b && list_prefix l1' l2'
  | _ :: _, [] => false
  end.

(** [p] is [q] or lies above it. *)
Definition above (p q : Path) : bool :=
  String.eqb (root p) (root q) && list_prefix (parts p) (parts q).

(** [os.path.exists(p)], [p.exists()]. *)
Definition path_exists (p : Path) (st : state) : bool :=
  match parts p with
  | [] => true
  | _ => existsb (above p) (dict_keys (files st) ++ dirs st)
  end.

(** What [requests.get(url, stream=True)] returns, as far as
    [maybe_download] looks at it. *)
Record response : Type := {
  (* [int(r.headers.get("content-length", 0))] *)
  content_length : outcome Z;
  (* the blocks that [r.iter_content(block_size)] yields *)
  chunks : list bytes;
  (* the exception that ends the iteration early, if any *)
  broken : option error
}.

(** A member of a zip archive: its name, and its contents unless it is a
    directory entry. *)
Definition member : Type := (string * option bytes)%type.

(** A numpy array, as far as [save_tonpy] looks at it. *)
Record ndarray : Type := {
  (* [len(a)], which raises for an array without dimensions *)
  nd_len : outcome Z;
  (* the bytes that [np.save] writes for it *)
  nd_dump : bytes
}.

(** Code outside this file. *)
Record externals : Type := {
  (* failures of [os.makedirs(d, exist_ok=True)] other than a file at [d] *)
  makedirs_check : string -> outcome unit;
  (* [requests.get(url, stream=True)] *)
  requests_get : string -> outcome response;
  (* failures of opening a path for writing other than a directory there *)
  open_check : Path -> outcome unit;
  (* the size that [os.stat] reports for a directory *)
  dir_size : Path -> Z;
  (* the members that [zipfile.ZipFile] finds in the bytes of a file *)
  zip_members : bytes -> outcome (list member);
  (* [pickle.load] on the bytes of a file, for a pickled word dictionary *)
  pickle_load : bytes -> outcome (dict string Z);
  (* [np.load] on the bytes of a file *)
  np_load : bytes -> outcome ndarray;
  (* the bytes that [write_json] (news_recommendation.utils) writes for an
     object, taken to write just that file *)
  json_dumps : dict string Z -> bytes;
  (* [get_project_root()] *)
  project_root : string
}.

(** *** State and exceptions *)

Definition IO (A : Type) : Type := state -> state * outcome A.

Definition ret {A} (a : A) : IO A := fun st => (st, Done a).

Definition bind {A B} (c : IO A) (k : A -> IO B) : IO B :=
  fun st =>
    match c st with
    | (st', Done a) => k a st'
    | (st', Fail e) => (st', Fail e)
    end.

Definition lift {A} (r : outcome A) : IO A := fun st => (st, r).

Definition raise {A} (e : error) : IO A := fun st => (st, Fail e).

Declare Scope io_scope.
Delimit Scope io_scope with io.
Notation "x <- c ;; k" := (bind c (fun x => k))
  (at level 61, c at next level, right associativity) : io_scope.
Notation "c ;;; k" := (bind c (fun _ => k))
  (at level 61, right associativity) : io_scope.

Definition set_files (f : dict Path bytes) (st : state) : state :=
  {| files := f; dirs := dirs st; requested := requested st |}.

(** [os.path.exists(p)] as a step. *)
Definition exists_ (p : Path) : IO bool := fun st => (st, Done (path_exists p st)).

(** [os.makedirs(d, exist_ok=True)]. *)
Definition makedirs (ext : externals) (d : string) : IO unit :=
  fun st =>
    match dict_get Path_eqb (Path_of d) (files st) with
    | Some _ => (st, Fail FileExistsError)
    | None =>
        match makedirs_check ext d with
        | Done _ =>
            ({| files := files st; dirs := dirs st ++ [Path_of d];
                requested := requested st |}, Done tt)
        | Fail e => (st, Fail e)
        end
    end.

(** [requests.get(url, stream=True)]. *)
Definition request (ext : externals) (url : string) : IO response :=
  fun st =>
    ({| files := files st; dirs := dirs st; requested := requested st ++ [url] |},
     requests_get ext url).

(** Opening [p] for reading, giving the bytes that a read to the end
    returns. *)
Definition read_file (p : Path) : IO bytes :=
  fun st =>
    match dict_get Path_eqb p (files st) with
    | Some b => (st, Done b)
    | None =>
        (st, Fail (if path_exists p st then IsADirectoryError else FileNotFoundError))
    end.

(** [open(p, "wb")]: the file is created, or emptied. *)
Definition open_wb (ext : externals) (p : Path) : IO unit :=
  fun st =>
    match dict_get Path_eqb p (files st) with
    | None =>
        if path_exists p st then (st, Fail IsADirectoryError)
        else match open_check ext p with
             | Done _ => (set_files (dict_set Path_eqb p [] (files st)) st, Done tt)
             | Fail e => (st, Fail e)
             end
    | Some _ =>
        match open_check ext p with
        | Done _ => (set_files (dict_set Path_eqb p [] (files st)) st, Done tt)
        | Fail e => (st, Fail e)
        end
    end.

(** [file.write(data)] on a file opened at [p]. *)
Definition file_write (p : Path) (data : bytes) : IO unit :=
  fun st =>
    (set_files (dict_set Path_eqb p
                  (get (dict_get Path_eqb p (files st)) [] ++ data) (files st)) st,
     Done tt).

(** Writing a whole file: [open], one [write], [close]. *)
Definition write_file (ext : externals) (p : Path) (data : bytes) : IO unit :=
  (open_wb ext p ;;; file_write p data)%io.

(** [os.stat(p).st_size]. *)
Definition stat_size (ext : externals) (p : Path) : IO Z :=
  fun st =>
    match dict_get Path_eqb p (files st) with
    | Some b => (st, Done (Z.of_nat (List.length b)))
    | None =>
        (st, if path_exists p st then Done (dir_size ext p) else Fail FileNotFoundError)
    end.

(** [os.remove(p)]. *)
Definition remove (p : Path) : IO unit :=
  fun st =>
    match dict_get Path_eqb p (files st) with
    | Some _ => (set_files (dict_del Path_eqb p (files st)) st, Done tt)
    | None =>
        (st, Fail (if path_exists p st then IsADirectoryError else FileNotFoundError))
    end.

(** *** [load_entity] *)

(** A value that [json.loads] returns; an object is a dict, in which a
    repeated key has kept its last value. *)
Unset Elimination Schemes.
Inductive json : Type :=
| JNull
| JBool (b : bool)
| JNumber (n : Z)
| JString (s : string)
| JArray (l : list json)
| JObject (d : list (string * json)).
Set Elimination Schemes.

(** The characters of a string, each a string of length one. *)
Fixpoint chars (s : string) : list string :=
  match s with
  | EmptyString => []
  | String c s' => String c EmptyString :: chars s'
  end.

(** [iter(v)]: the elements of a list, the keys of a dict, the characters of
    a string. *)
Definition iter (v : json) : outcome (list json) :=
  match v with
  | JArray l => Done l
  | JObject d => Done (map (fun kv => JString (fst kv)) d)
  | JString s => Done (map JString (chars s))
  | _ => Fail TypeError
  end.

(** [e[key]] for a string [key]. *)
Definition subscript (e : json) (key : string) : outcome json :=
  match e with
  | JObject d => of_result (dict_getitem String.eqb key d)
  | _ => Fail TypeError
  end.

Definition as_str (v : json) : outcome string :=
  match v with
  | JString s => Done s
  | _ => Fail TypeError
  end.

(** [sep.join(x)]. *)
Definition str_join (sep : string) (x : json) : outcome string :=
  (items <- iter x ;;
   strs <- comprehension as_str items ;;
   Done (String.concat sep strs))%out.

(** Lines 14-20, with [json.loads] as a parameter. *)
Definition load_entity (json_loads : string -> outcome json) (entity : string)
  : outcome string :=
  (v <- json_loads entity ;;
   es <- iter v ;;
   forms <- comprehension
              (fun e => (sf <- subscript e "SurfaceForms" ;; str_join " " sf)%out) es ;;
   Done (String.concat " " forms))%out.

(** *** [get_mind_data_set] *)

(** Lines 124-157.  The function ends without a [return] when none of the
    three tests holds; its result is then [None]. *)
Definition get_mind_data_set (dataset_type : string)
  : outcome (option (string * string * string * string)) :=
  if existsb (String.eqb dataset_type) ["large"; "small"; "demo"] then
    if String.eqb dataset_type "large" then
      Done (Some ("https://mind201910small.blob.core.windows.net/release/",
                  "MINDlarge_train.zip", "MINDlarge_dev.zip", "MINDlarge_utils.zip"))
    else if String.eqb dataset_type "small" then
      Done (Some ("https://mind201910small.blob.core.windows.net/release/",
                  "MINDsmall_train.zip", "MINDsmall_dev.zip", "MINDsma_utils.zip"))
    else if String.eqb dataset_type "demo" then
      Done (Some ("https://recodatasets.blob.core.windows.net/newsrec/",
                  "MINDdemo_train.zip", "MINDdemo_dev.zip", "MINDdemo_utils.zip"))
    else Done None
  else Fail (Builtin AssertionError).

(** *** [maybe_download] *)

(** [total_size / block_size] for [block_size = 1024]: the binary64 value
    nearest to [total_size * 2^-10]; too large a quotient raises. *)
Definition block_size : Z := 1024.

Definition truediv_block_size (total_size : Z) : outcome float :=
  match binary_normalize prec emax total_size (-10) false with
  | S754_infinity _ => Fail (Builtin OverflowError)
  | f => Done f
  end.

(** Lines 88-95: the blocks are written one by one. *)
Fixpoint write_blocks (p : Path) (blocks : list bytes) : IO unit :=
  match blocks with
  | [] => ret tt
  | data :: rest => (file_write p data ;;; write_blocks p rest)%io
  end.

(** Lines 65-104. *)
Definition maybe_download (ext : externals) (url : string) (filename : option string)
    (work_directory : string) (expected_bytes : option Z) : IO string :=
  let filename :=
    match filename with
    | None => last (split "/"%char url) ""
    | Some f => f
    end in
  (makedirs ext work_directory ;;;
   let filepath := os_path_join work_directory filename in
   found <- exists_ (Path_of filepath) ;;
   (if negb found then
      (r <- request ext url ;;
       total_size <- lift (content_length r) ;;
       num_iterables <- lift (q <- truediv_block_size total_size ;;
                              of_result (math_ceil q))%out ;;
       open_wb ext (Path_of filepath) ;;;
       write_blocks (Path_of filepath) (chunks r) ;;;
       match broken r with
       | Some e => raise e
       | None => ret tt
       end)
    else ret tt) ;;;
   match expected_bytes with
   | Some n =>
       (size <- stat_size ext (Path_of filepath) ;;
        if negb (size =? n)
        then (remove (Path_of filepath) ;;; raise OSError)
        else ret tt)
   | None => ret tt
   end ;;;
   ret filepath)%io.

(** *** [download_resources] *)

(** The place of a member below the target directory: [zipfile] drops the
    empty components, "." and ".." of its name. *)
Definition member_path (target : Path) (name : string) : Path :=
  {| root := root target;
     parts := parts target
              ++ filter (fun c => negb (String.eqb c "..")) (path_parts name) |}.

Definition add_dir (p : Path) : IO unit :=
  fun st =>
    ({| files := files st; dirs := dirs st ++ [p]; requested := requested st |},
     Done tt).

(** [zip_ref.extractall(data_path)]. *)
Fixpoint extractall (ext : externals) (target : Path) (ms : list member) : IO unit :=
  match ms with
  | [] => ret tt
  | (name, Some data) :: rest =>
      (write_file ext (member_path target name) data ;;;
       extractall ext target rest)%io
  | (name, None) :: rest =>
      (add_dir (member_path target name) ;;;
       extractall ext target rest)%io
  end.

(** Lines 107-121. *)
Definition download_resources (ext : externals)
    (download_url data_path remote_resource_name : string) : IO unit :=
  (makedirs ext data_path ;;;
   let remote_path := (download_url ++ remote_resource_name)%string in
   maybe_download ext remote_path (Some remote_resource_name) data_path None ;;;
   let archive := Path_of (os_path_join data_path remote_resource_name) in
   content <- read_file archive ;;
   zip_ref <- lift (zip_members ext content) ;;
   extractall ext (Path_of data_path) zip_ref ;;;
   remove archive)%io.

(** *** [save_tojson], [save_tonpy], [rename_utils] *)

(** Lines 44-49. *)
Definition save_tojson (ext : externals) (path util_path : Path) : IO unit :=
  (f <- read_file path ;;
   load_obj <- lift (pickle_load ext f) ;;
   let load_obj := dict_set String.eqb "[UNK]" 0 load_obj in
   write_file ext
     (truediv util_path
        ("word_dict/MIND_" ++ str_of_int (Z.of_nat (List.length load_obj)) ++ ".json"))
     (json_dumps ext load_obj))%io.

(** Lines 52-54. *)
Definition save_tonpy (ext : externals) (path util_path : Path) : IO unit :=
  (f <- read_file path ;;
   load_obj <- lift (np_load ext f) ;;
   n <- lift (nd_len load_obj) ;;
   write_file ext
     (truediv util_path ("embed_dict/MIND_" ++ str_of_int n ++ ".npy"))
     (nd_dump load_obj))%io.

(** Lines 61-62: the loop over [zip(paths, funcs)]. *)
Fixpoint for_each_util (util_path : Path)
    (jobs : list (Path * (Path -> Path -> IO unit))) : IO unit :=
  match jobs with
  | [] => ret tt
  | (path, func) :: rest => (func path util_path ;;; for_each_util util_path rest)%io
  end.

(** Lines 57-62. *)
Definition rename_utils (ext : externals) (util_path : Path) : IO unit :=
  let paths := [truediv util_path "word_dict.pkl"; truediv util_path "word_dict_all.pkl";
                truediv util_path "embedding.npy"; truediv util_path "embedding_all.npy"] in
  let funcs := [save_tojson ext; save_tojson ext; save_tonpy ext; save_tonpy ext] in
  for_each_util util_path (combine paths funcs).

(** *** [get_mind_root_path] *)

(** The keyword arguments that the function looks up; [None] is an absent
    key. *)
Record kwargs : Type := {
  kw_data_path : option string;
  kw_mind_type : option string;
  kw_phase : option string
}.

(** Lines 23-41.  After line 24 [data_path] holds a [Path]; the test of line
    25 asks whether it holds [None]. *)
Definition get_mind_root_path (ext : externals) (kw : kwargs) : IO Path :=
  (p <- lift (Path_new (kw_data_path kw)) ;;
   let data_path : option Path := Some p in
   let data_path : Path :=
     match data_path with
     | None => truediv (Path_of (project_root ext)) "dataset/MIND"
     | Some p => p
     end in
   let mind_type := get (kw_mind_type kw) "demo" in
   let phase := kw_phase kw in
   mind_root <- lift (truediv_opt (truediv data_path mind_type) phase) ;;
   let util_path := truediv data_path "utils" in
   found <- exists_ mind_root ;;
   (if negb found then
      (names <- lift (get_mind_data_set mind_type) ;;
       match names with
       | Some (mind_url, mind_train_dataset, mind_dev_dataset, mind_utils) =>
           (download_resources ext mind_url (fspath (truediv data_path "train"))
              mind_train_dataset ;;;
            download_resources ext mind_url (fspath (truediv data_path "valid"))
              mind_dev_dataset ;;;
            has_utils <- exists_ util_path ;;
            if negb has_utils then
              download_resources ext
                "https://recodatasets.z20.web.core.windows.net/newsrec/"
                (fspath util_path) mind_utils
            else ret tt)
       | None => raise TypeError
       end)
    else ret tt) ;;;
   renamed <- exists_ (truediv (parent data_path) "utils/word_dict/MIND_41059.json") ;;
   (if negb renamed then rename_utils ext util_path else ret tt) ;;;
   extracted <- exists_ (truediv (parent data_path) "data/MIND15.csv") ;;
   (if negb extracted then ret tt else ret tt) ;;;
   ret mind_root)%io.

(** *** Names for the statements *)

(** The file name that [maybe_download] uses (lines 77-78) and the path of
    the file (line 80). *)
Definition file_name (url : string) (filename : option string) : string :=
  match filename with
  | None => last (split "/"%char url) ""
  | Some f => f
  end.

Definition file_path (url : string) (filename : option string)
    (work_directory : string) : Path :=
  Path_of (os_path_join work_directory (file_name url filename)).

(** The state once [os.makedirs(d, exist_ok=True)] has returned. *)
Definition with_dir (d : string) (st : state) : state :=
  {| files := files st; dirs := dirs st ++ [Path_of d]; requested := requested st |}.

(** [os.makedirs(d, exist_ok=True)] returns in the state [st]. *)
Definition can_makedirs (ext : externals) (d : string) (st : state) : Prop :=
  dict_get Path_eqb (Path_of d) (files st) = None /\ makedirs_check ext d = Done tt.

(** The state once the file at [p] has been downloaded from [url] with the
    blocks [blocks], the work directory being [d]. *)
Definition downloaded (d url : string) (p : Path) (blocks : list bytes) (st : state)
  : state :=
  {| files := dict_set Path_eqb p (List.concat blocks) (files st);
     dirs := dirs st ++ [Path_of d];
     requested := requested st ++ [url] |}.

(** The response to [url] is one from which lines 84-88 pass: the length
    header is a number whose quotient by the block size is a float, and the
    file can be opened at [p]. *)
Definition starts_download (ext : externals) (url : string) (p : Path) (resp : response)
  : Prop :=
  requests_get ext url = Done resp /\
  (exists total_size,
     content_length resp = Done total_size /\
     is_done (q <- truediv_block_size total_size ;; of_result (math_ceil q))%out = true) /\
  open_check ext p = Done tt.

(** From [st] to [st'] no file has been removed, no directory made and
    nothing requested, and the path [check] has not come into existence. *)
Definition only_adds_files (check : Path) (st st' : state) : Prop :=
  (path_exists check st = false -> path_exists check st' = false) /\
  requested st' = requested st /\
  dirs st' = dirs st /\
  (forall p, dict_get Path_eqb p (files st) <> None ->
             dict_get Path_eqb p (files st') <> None).

(** From [st] to [st'] no file has been removed, no directory made and
    nothing requested. *)
Definition keeps_files (st st' : state) : Prop :=
  requested st' = requested st /\
  dirs st' = dirs st /\
  (forall p, dict_get Path_eqb p (files st) <> None ->
             dict_get Path_eqb p (files st') <> None).

(** The path that line 37 of [get_mind_root_path] looks for. *)
Definition renamed_mark (data_path : Path) : Path :=
  truediv (parent data_path) "utils/word_dict/MIND_41059.json".

(** *** Inputs and states to try things on *)

(** The entity [e] is an object whose "SurfaceForms" are the strings [fs]. *)
Definition has_forms (e : json) (fs : list string) : Prop :=
  exists d, e = JObject d /\
            dict_get String.eqb "SurfaceForms" d = Some (JArray (map JString fs)).

(** An entity of the MIND news file, with its surface forms. *)
Definition entity_of (label : string) (fs : list string) : json :=
  JObject [("Label", JString label); ("Type", JString "O");
           ("SurfaceForms", JArray (map JString fs))].

Definition state0 : state := {| files := []; dirs := []; requested := [] |}.

(** A state with one file. *)
Definition state_with (p : string) (content : bytes) : state :=
  {| files := [(Path_of p, content)]; dirs := []; requested := [] |}.

Definition b0 : Byte.byte := Byte.x00.

(** The network answers every request with the two blocks [blocks], and the
    iteration ends with [err] if there is one; archives hold the single
    member [members]; every system call is allowed. *)
Definition ext_net (err : option error) (zip : outcome (list member)) : externals :=
  {| makedirs_check := fun _ => Done tt;
     requests_get := fun _ =>
       Done {| content_length := Done 3; chunks := [[b0; b0]; [b0]]; broken := err |};
     open_check := fun _ => Done tt;
     dir_size := fun _ => 4096;
     zip_members := fun _ => zip;
     pickle_load := fun _ => Done [("the", 1); ("news", 2)];
     np_load := fun _ => Done {| nd_len := Done 3; nd_dump := [b0] |};
     json_dumps := fun d => repeat b0 (List.length d);
     project_root := "/project" |}.

(** The utilities unpacked below "dataset/MIND/utils", and the directory of
    the demo training set. *)
Definition state_utils : state :=
  {| files := [(Path_of "dataset/MIND/utils/word_dict.pkl", [b0]);
               (Path_of "dataset/MIND/utils/word_dict_all.pkl", [b0]);
               (Path_of "dataset/MIND/utils/embedding.npy", [b0]);
               (Path_of "dataset/MIND/utils/embedding_all.npy", [b0])];
     dirs := [Path_of "dataset/MIND/demo/train"];
     requested := [] |}.

Definition kw_of (data_path mind_type phase : option string) : kwargs :=
  {| kw_data_path := data_path; kw_mind_type := mind_type; kw_phase := phase |}.

End MindUtils.

(* ================================================================== *)
(** ** [news_recommendation/models/general/embedding.py]                *)
(* ================================================================== *)

Module NewsEmbedding.

(** The values that attributes and keyword arguments hold here. *)
Inductive value : Type :=
| VNone
| VBool (b : bool)
| VInt (n : Z)
| VStr (s : string)
| VList (l : list Z).

(** A configuration object of [transformers], as its attributes. *)
Definition config : Type := dict string value.

(** [hasattr(c, name)]. *)
Definition hasattr (c : config) (name : string) : bool :=
  match dict_get String.eqb name c with
  | Some _ => true
  | None => false
  end.

(** [c.name]. *)
Definition getattr (c : config) (name : string) : outcome value :=
  match dict_get String.eqb name c with
  | Some v => Done v
  | None => Fail AttributeError
  end.

(** [v[:n]]. *)
Definition slice_value (v : value) (n : Z) : outcome value :=
  match v with
  | VList l => Done (VList (slice_to n l))
  | VStr s => Done (VStr (string_of_list_ascii (slice_to n (list_ascii_of_string s))))
  | _ => Fail TypeError
  end.

(** The matrix that [load_embeddings] returns. *)
Record matrix : Type := { rows : Z; width : Z }.

(** The modules that the constructor can put in [self.embedding]. *)
Inductive module : Type :=
| FromPretrained (embeds : matrix)
| Table (num_embeddings dim : Z)
| AutoModel (name : string) (c : config)
| Given (c : config).

(** The keyword arguments that the constructor looks up; [None] is an absent
    key.  "bert", when present, is a callable; its name stands for it. *)
Record kwargs : Type := {
  kw_embedding_type : option string;
  kw_embed_dim : option Z;
  kw_output_hidden_states : option bool;
  kw_output_attentions : option bool;
  kw_n_layers : option Z;
  kw_add_weight : option bool;
  kw_bert : option string
}.

(** The attributes that a subclass gives the object before this constructor
    runs; the class itself sets neither. *)
Record attributes : Type := {
  attr_word_dict : option (dict string Z);
  attr_num_classes : option Z
}.

(** Code outside this file. *)
Record externals : Type := {
  (* [load_embeddings(kwargs)] *)
  load_embeddings : kwargs -> outcome matrix;
  (* the constructors of torch and transformers, and the callable "bert" *)
  new_module : module -> outcome unit;
  (* [from transformers import AutoConfig, AutoModel] *)
  import_transformers : outcome unit;
  (* [AutoConfig.from_pretrained(name, num_labels=.., output_hidden_states=..,
     output_attentions=..)] *)
  auto_config : string -> Z -> bool -> bool -> outcome config;
  (* [LAYER_MAPPING] of [news_recommendation.config] *)
  LAYER_MAPPING : dict string string
}.

(** The attributes the constructor sets on [self]. *)
Record model : Type := {
  embedding_type : string;
  embed_dim : value;
  embeds : option matrix;
  embedding : module;
  output_hidden_states : option bool;
  return_attention : option bool;
  n_layers : option Z;
  embed_config : option config
}.

Definition new (ext : externals) (m : module) : outcome module :=
  (_ <- new_module ext m ;; Done m)%out.

(** [self.name] for an attribute that only a subclass can have set. *)
Definition self_attr {A} (a : option A) : outcome A :=
  match a with
  | Some x => Done x
  | None => Fail AttributeError
  end.

(** Lines 9-39. *)
Definition __init__ (ext : externals) (self : attributes) (kw : kwargs)
  : outcome model :=
  let embedding_type := get (kw_embedding_type kw) "glove" in
  let embed_dim := get (kw_embed_dim kw) 300 in
  if String.eqb embedding_type "glove" then
    (embeds <- load_embeddings ext kw ;;
     embedding <- new ext (FromPretrained embeds) ;;
     Done {| embedding_type := embedding_type; embed_dim := VInt embed_dim;
             embeds := Some embeds; embedding := embedding;
             output_hidden_states := None; return_attention := None;
             n_layers := None; embed_config := None |})%out
  else if String.eqb embedding_type "init" then
    (word_dict <- self_attr (attr_word_dict self) ;;
     embedding <- new ext (Table (Z.of_nat (List.length word_dict)) embed_dim) ;;
     Done {| embedding_type := embedding_type; embed_dim := VInt embed_dim;
             embeds := None; embedding := embedding;
             output_hidden_states := None; return_attention := None;
             n_layers := None; embed_config := None |})%out
  else
    (_ <- import_transformers ext ;;
     let output_hidden_states := get (kw_output_hidden_states kw) true in
     let return_attention := get (kw_output_attentions kw) true in
     let n_layers := get (kw_n_layers kw) 1 in
     num_classes <- self_attr (attr_num_classes self) ;;
     embed_config <- auto_config ext embedding_type num_classes
                       output_hidden_states return_attention ;;
     let add_weight := get (kw_add_weight kw) false in
     let layer_name := get (dict_get String.eqb embedding_type (LAYER_MAPPING ext))
                           "n_layers" in
     let embed_config :=
       dict_set String.eqb layer_name (VInt n_layers)
         (dict_set String.eqb "add_weight" (VBool add_weight) embed_config) in
     embed_config <-
       (if String.eqb embedding_type "allenai/longformer-base-4096" then
          (window <- getattr embed_config "attention_window" ;;
           window <- slice_value window n_layers ;;
           Done (dict_set String.eqb "attention_window" window embed_config))
        else Done embed_config) ;;
     embedding <- new ext (AutoModel embedding_type embed_config) ;;
     embedding <- match kw_bert kw with
                  | Some _ => new ext (Given embed_config)
                  | None => Done embedding
                  end ;;
     embed_dim <-
       (if hasattr embed_config "dim" then getattr embed_config "dim"
        else if hasattr embed_config "hidden_size" then getattr embed_config "hidden_size"
        else Fail (Builtin ValueError)) ;;
     Done {| embedding_type := embedding_type; embed_dim := embed_dim;
             embeds := None; embedding := embedding;
             output_hidden_states := Some output_hidden_states;
             return_attention := Some return_attention;
             n_layers := Some n_layers; embed_config := Some embed_config |})%out.

(** *** [forward] *)

Section Forward.

(** Tensors, and the calls of the module in [self.embedding]: with the
    indices alone, and with indices, mask and [inputs_embeds], which gives a
    sequence of outputs. *)
Variable tensor : Type.
Variable call_table : module -> option tensor -> outcome tensor.
Variable call_model :
  module -> option tensor -> option tensor -> option tensor -> outcome (list tensor).

(** The caller's dict; a value can be [None]. *)
Definition features : Type := dict string (option tensor).

Definition feature (input_feat : features) (key : string) : outcome (option tensor) :=
  of_result (dict_getitem String.eqb key input_feat).

(** Lines 41-48: the dict as the call leaves it, and the result. *)
Definition forward (self : model) (input_feat : features)
  : features * outcome tensor :=
  if existsb (String.eqb (embedding_type self)) ["glove"; "init"] then
    (input_feat,
     (news <- feature input_feat "news" ;;
      call_table (embedding self) news)%out)
  else
    let e := match dict_get String.eqb "embedding" input_feat with
             | Some v => v
             | None => None
             end in
    let input_feat := dict_set String.eqb "embedding" e input_feat in
    (input_feat,
     (news <- feature input_feat "news" ;;
      news_mask <- feature input_feat "news_mask" ;;
      inputs_embeds <- feature input_feat "embedding" ;;
      output <- call_model (embedding self) news news_mask inputs_embeds ;;
      of_result (getitem output 0))%out).

End Forward.

(** *** Inputs to try things on *)

Definition no_attributes : attributes :=
  {| attr_word_dict := None; attr_num_classes := None |}.

Definition kw_type (ty : option string) (dim : option Z) : kwargs :=
  {| kw_embedding_type := ty; kw_embed_dim := dim; kw_output_hidden_states := None;
     kw_output_attentions := None; kw_n_layers := None; kw_add_weight := None;
     kw_bert := None |}.

(** Every collaborator succeeds; the configuration loaded has the attributes
    [c]. *)
Definition ext_with (c : config) : externals :=
  {| load_embeddings := fun _ => Done {| rows := 41059; width := 100 |};
     new_module := fun _ => Done tt;
     import_transformers := Done tt;
     auto_config := fun _ _ _ _ => Done c;
     LAYER_MAPPING := [("distilbert-base-uncased", "n_layers");
                       ("bert-base-uncased", "num_hidden_layers")] |}.

Definition bert_model : model :=
  {| embedding_type := "bert-base-uncased"; embed_dim := VInt 768; embeds := None;
     embedding := AutoModel "bert-base-uncased" [("hidden_size", VInt 768)];
     output_hidden_states := Some true; return_attention := Some true;
     n_layers := Some 1; embed_config := Some [("hidden_size", VInt 768)] |}.

End NewsEmbedding.

(* ================================================================== *)
(** * Properties                                                        *)
(* ================================================================== *)

Unset Implicit Arguments.

(** ** Results *)

Lemma rbind_ok_inv {A B} (r : result A) (k : A -> result B) (b : B) :
  rbind r k = Ok b -> exists a, r = Ok a /\ k a = Ok b.
Proof. destruct r as [a|e]; simpl; intros H; [eauto | discriminate]. Qed.

(** [rbind_inv H as x Hx] opens one step of a computation that returned. *)
Tactic Notation "rbind_inv" hyp(H) "as" simple_intropattern(x)
    simple_intropattern(Hx) :=
  apply rbind_ok_inv in H; destruct H as [x [Hx H]].

(** ** The Python primitives on small inputs *)

Example slice_to_negative : slice_to (-1) [1; 2; 3] = [1; 2].
Proof. reflexivity. Qed.

Example slice_to_beyond : slice_to 5 [1; 2; 3] = [1; 2; 3].
Proof. reflexivity. Qed.

Example contains_weight :
  contains "weight" "candidate_weight" = true /\ contains "weight" "pred" = false.
Proof. split; reflexivity. Qed.

Example except_clause_class : py_or KeyError RuntimeError = KeyError.
Proof. reflexivity. Qed.

Example unbound_local_is_name_error :
  isinstance UnboundLocalError NameError = true /\
  isinstance RuntimeError KeyError = false.
Proof. split; reflexivity. Qed.

Example ceil_of_two_and_a_half :
  math_ceil (float_lit 5 (-1)) = Ok 3 /\
  math_ceil (SFopp (float_lit 5 (-1))) = Ok (-2).
Proof. split; reflexivity. Qed.

(** The default [valid_interval] is the double nearest to 0.6, and
    [ceil(10 * 0.6)] is 6. *)
Example default_interval :
  Trainer.float_0_6 = S754_finite false 5404319552844595 (-53) /\
  rbind (int_mul_float 10 Trainer.float_0_6) math_ceil = Ok 6.
Proof. split; reflexivity. Qed.

Example mod_by_zero : py_mod 5 0 = Raise ZeroDivisionError.
Proof. reflexivity. Qed.

(* ================================================================== *)
(** ** Properties of the LSTUR constructor                              *)
(* ================================================================== *)

Module LSTURFacts.
Import LSTUR.

Example init_default_ok : is_ok (__init__ (ext_ok 3) (kw_method None None)) = true.
Proof. reflexivity. Qed.

Example init_cat_with_path_ok :
  is_ok (__init__ (ext_ok 3) (kw_method (Some "cat") (Some "uid.json"))) = true.
Proof. reflexivity. Qed.

Lemma kernel_padding_odd (w : Z) :
  Z.odd w = true -> kernel_padding w = Ok ((w - 1) / 2).
Proof.
  intros Hodd. apply Z.odd_spec in Hodd. destruct Hodd as [k ->].
  unfold kernel_padding.
  replace (2 * k + 1 - 1) with (k * 2) by lia.
  rewrite Z.div_mul by lia.
  replace (2 * k =? k * 2) with true by (symmetry; apply Z.eqb_eq; lia).
  reflexivity.
Qed.

Lemma kernel_padding_even (w : Z) :
  Z.even w = true -> kernel_padding w = Raise AssertionError.
Proof.
  intros Heven. apply Z.even_spec in Heven. destruct Heven as [k ->].
  unfold kernel_padding.
  replace (2 * ((2 * k - 1) / 2) =? 2 * k - 1) with false; [reflexivity|].
  symmetry. apply Z.eqb_neq. lia.
Qed.


Lemma method_is_init_or_cat (method : option string) :
  method = Some "init" \/ method = Some "cat" ->
  method_is method "init" || method_is method "cat" = true.
Proof. intros [-> | ->]; reflexivity. Qed.

Lemma build_user_embedding_no_path ext kw output_dim :
  kw_user_embed_method kw = Some "init" \/ kw_user_embed_method kw = Some "cat" ->
  kw_uid_path kw = None ->
  build_user_embedding ext kw (kw_user_embed_method kw) output_dim = Raise ValueError.
Proof.
  intros Hm Hp. unfold build_user_embedding.
  rewrite method_is_init_or_cat, Hp by assumption. reflexivity.
Qed.

(** C9: the constructor computes [padding = (window_size - 1) // 2] and
    asserts [2 * padding == window_size - 1]; the assertion passes exactly
    when [window_size] is odd, and with an even [window_size] the constructor
    fails with an [AssertionError] (the base-class constructor having set
    [window_size]). *)
Theorem C9_kernel_size_must_be_odd (ext : externals) (kw : kwargs) (b : base) :
  super_init ext kw = Ok b ->
  (kernel_padding (window_size b) = Ok ((window_size b - 1) / 2)
     <-> Z.odd (window_size b) = true) /\
  (is_ok (kernel_padding (window_size b)) = Z.odd (window_size b)) /\
  (Z.even (window_size b) = true -> __init__ ext kw = Raise AssertionError).
Proof.
  intros Hsuper. set (w := window_size b).
  assert (Hcases : Z.odd w = true \/ Z.even w = true).
  { rewrite <- Z.negb_even. destruct (Z.even w); auto. }
  repeat split.
  - intros Hpad. destruct Hcases as [Ho | He]; [exact Ho|].
    rewrite (kernel_padding_even _ He) in Hpad. discriminate.
  - apply kernel_padding_odd.
  - destruct Hcases as [Ho | He].
    + now rewrite (kernel_padding_odd _ Ho), Ho.
    + rewrite (kernel_padding_even _ He). rewrite <- Z.negb_even, He. reflexivity.
  - intros He. unfold __init__. rewrite Hsuper. simpl.
    fold w. rewrite (kernel_padding_even _ He). reflexivity.
Qed.

Lemma C9_kernel_size_must_be_odd_witness :
  __init__ (ext_ok 4) (kw_method None None) = Raise AssertionError.
Proof.
  apply (proj2 (proj2 (@C9_kernel_size_must_be_odd (ext_ok 4) (kw_method None None)
           {| window_size := 4; embedding_dim := 300; attention_hidden_dim := 200 |}
           eq_refl))).
  reflexivity.
Defined.

(** C8: with [user_embed_method] equal to "init" or "cat" and no [uid_path],
    the constructor never returns a model; once the steps before the
    user-embedding block have passed (base constructor, odd kernel size,
    torch layers), what it raises is the [ValueError] of line 36. *)
Theorem C8_missing_uid_path_is_fatal (ext : externals) (kw : kwargs) :
  kw_user_embed_method kw = Some "init" \/ kw_user_embed_method kw = Some "cat" ->
  kw_uid_path kw = None ->
  (forall m, __init__ ext kw <> Ok m) /\
  (forall b, super_init ext kw = Ok b ->
             Z.odd (window_size b) = true ->
             (forall l, nn_new ext l = Ok tt) ->
             __init__ ext kw = Raise ValueError).
Proof.
  intros Hm Hp. split.
  - intros m H. unfold __init__ in H.
    repeat (cbv zeta in H; apply rbind_ok_inv in H; destruct H as [? [? H]]).
    match goal with
    | Hb : build_user_embedding _ _ _ _ = Ok _ |- _ =>
        rewrite build_user_embedding_no_path in Hb by assumption; discriminate Hb
    end.
  - intros b Hsuper Hodd Hnn. unfold __init__. rewrite Hsuper. simpl.
    rewrite (kernel_padding_odd _ Hodd). simpl.
    unfold new. rewrite !Hnn. simpl.
    destruct (truthy _ || truthy _); simpl;
      rewrite ?Hnn; simpl;
      now rewrite build_user_embedding_no_path by assumption.
Qed.

Lemma C8_missing_uid_path_is_fatal_witness :
  __init__ (ext_ok 3) (kw_method (Some "init") None) = Raise ValueError.
Proof.
  apply (proj2 (@C8_missing_uid_path_is_fatal (ext_ok 3) (kw_method (Some "init") None)
                  (or_introl eq_refl) eq_refl)
           {| window_size := 3; embedding_dim := 300; attention_hidden_dim := 200 |}
           eq_refl eq_refl (fun _ => eq_refl)).
Defined.

End LSTURFacts.

(* ================================================================== *)
(** ** Properties of the trainer                                        *)
(* ================================================================== *)

Module TrainerFacts.
Import Trainer Runs.

(** ** The monad *)

Lemma bind_ok_inv {A B} (c : M A) (k : A -> M B) (w w' : world) (b : B) :
  bind c k w = (w', Ok b) ->
  exists w1 a, c w = (w1, Ok a) /\ k a w1 = (w', Ok b).
Proof.
  unfold bind. destruct (c w) as [w1 [a|e]]; intros H.
  - exists w1, a. split; [reflexivity | exact H].
  - discriminate H.
Qed.

(** ** Steps that leave a part of the state alone *)

Section Frame.
Context {X : Type} (f : world -> X).

Lemma preserves_ret {A} (a : A) : preserves f (ret a).
Proof. intros w. reflexivity. Qed.

Lemma preserves_lift {A} (r : result A) : preserves f (lift r).
Proof. intros w. reflexivity. Qed.

Lemma preserves_bind {A B} (c : M A) (k : A -> M B) :
  preserves f c -> (forall a, preserves f (k a)) -> preserves f (bind c k).
Proof.
  intros Hc Hk w. unfold bind. specialize (Hc w).
  destruct (c w) as [w1 [a|e]]; simpl in *.
  - now rewrite Hk.
  - exact Hc.
Qed.

Lemma preserves_try_except {A} (body handler : M A) (cls : exn) :
  preserves f body -> preserves f handler -> preserves f (try_except body cls handler).
Proof.
  intros Hb Hh w. unfold try_except. specialize (Hb w).
  destruct (body w) as [w1 [a|e]]; simpl in *; [exact Hb|].
  destruct (isinstance e cls); simpl; [now rewrite Hh | exact Hb].
Qed.

Lemma preserves_if {A} (b : bool) (c1 c2 : M A) :
  preserves f c1 -> preserves f c2 -> preserves f (if b then c1 else c2).
Proof. now destruct b. Qed.

Lemma preserves_load : preserves f load_weight_file.
Proof. intros w. reflexivity. Qed.
End Frame.

Create HintDb frame.

#[local] Hint Resolve preserves_ret preserves_lift preserves_bind
  preserves_try_except preserves_if preserves_load : frame.

(** The model mode is touched by [set_training] only. *)
Lemma training_record_call c : preserves training (record_call c).
Proof. intros w. reflexivity. Qed.

Lemma training_set_step s : preserves training (set_step s).
Proof. intros w. reflexivity. Qed.

Lemma training_save_weight_file d : preserves training (save_weight_file d).
Proof. intros w. reflexivity. Qed.

#[local] Hint Resolve training_record_call training_set_step
  training_save_weight_file : frame.

Lemma training_build_news_embeds self ext :
  preserves training (build_news_embeds self ext).
Proof. unfold build_news_embeds. auto 10 with frame. Qed.

Lemma training_save_weights wd : preserves training (save_weights wd).
Proof.
  unfold save_weights. apply preserves_bind; auto with frame.
  intros [old|]; auto with frame.
Qed.

#[local] Hint Resolve training_build_news_embeds training_save_weights : frame.

Lemma training_valid_epoch_body self ext :
  preserves training (valid_epoch_body self ext).
Proof. unfold valid_epoch_body. auto 20 with frame. Qed.

(** [_valid_epoch] leaves the model in evaluation mode, however it ends. *)
Lemma valid_epoch_leaves_eval_mode self ext w :
  training (fst (_valid_epoch self ext w)) = false.
Proof.
  unfold _valid_epoch, bind, set_training.
  match goal with
  | |- context [valid_epoch_body self ext ?w1] =>
      pose proof (training_valid_epoch_body self ext w1) as H;
      destruct (valid_epoch_body self ext w1) as [w2 [v|e]]; exact H
  end.
Qed.

(** ** The cache of news embeddings (lines 164-182) *)

Lemma eligible_spec (self : trainer) :
  eligible self = true <->
  valid_method self = "fast_evaluation" /\
  return_weight self = false /\
  with_entropy self = false /\
  topic_variant self <> "variational_topic".
Proof.
  unfold eligible. rewrite !andb_true_iff, !negb_true_iff.
  rewrite String.eqb_eq, String.eqb_neq. tauto.
Qed.

Lemma eligible_false_spec (self : trainer) :
  eligible self = false <->
  ~ (valid_method self = "fast_evaluation" /\
     return_weight self = false /\
     with_entropy self = false /\
     topic_variant self <> "variational_topic").
Proof.
  rewrite <- eligible_spec. destruct (eligible self); split; congruence.
Qed.

Lemma app_one_neq {A} (l : list A) (a : A) : l ++ [a] <> l.
Proof.
  intros H. apply (f_equal (@List.length A)) in H.
  rewrite length_app in H. simpl in H. lia.
Qed.

(** The [try] statement of lines 164-182 on its own: [get_news_embeds] is
    called exactly under the four conditions, [news_embeds] is a cache
    exactly when moreover the call returned it, and otherwise nothing is
    called and [news_embeds] is [None]. *)
Lemma build_news_embeds_spec (self : trainer) (ext : externals)
    (w : world) :
  let cond := valid_method self = "fast_evaluation" /\
              return_weight self = false /\
              with_entropy self = false /\
              topic_variant self <> "variational_topic" in
  let r := build_news_embeds self ext w in
  (cond <-> calls (fst r) = calls w ++ [GetNewsEmbeds]) /\
  (forall e, snd r = Ok (Some e) <-> cond /\ get_news_embeds ext = Ok e) /\
  (~ cond -> r = (w, Ok None)).
Proof.
  intros cond r. subst r. unfold build_news_embeds, try_except.
  destruct (eligible self) eqn:He.
  - assert (Hc : cond) by (now apply eligible_spec).
    unfold bind, record_call, lift, ret.
    destruct (get_news_embeds ext) as [e|x]; simpl.
    + split; [tauto | split; [|tauto]].
      intros e'. split.
      * intros H. injection H as ->. tauto.
      * intros [_ H]. now injection H as ->.
    + destruct (isinstance x (py_or KeyError RuntimeError)); simpl;
        (split; [tauto | split; [|tauto]]); intros e';
        (split; [intros H; discriminate H | intros [_ H]; discriminate H]).
  - assert (Hc : ~ cond) by (now apply eligible_false_spec).
    simpl. split; [|split; [|reflexivity]].
    + split; [tauto|].
      intros H. symmetry in H. now apply app_one_neq in H.
    + intros e. split; [intros H; discriminate H | tauto].
Qed.

(** C2: what the [except] clause of line 181 does.  [KeyError or
    RuntimeError] is the class [KeyError]: a [KeyError] from the cache build
    gives [news_embeds = None], a [RuntimeError] leaves the cache-build step
    and ends [_valid_epoch]. *)
Theorem C2_except_clause_catches_key_error_only (self : trainer)
    (ext : externals) (w : world) :
  eligible self = true ->
  py_or KeyError RuntimeError = KeyError /\
  (get_news_embeds ext = Raise KeyError ->
     snd (build_news_embeds self ext w) = Ok None) /\
  (get_news_embeds ext = Raise RuntimeError ->
     snd (build_news_embeds self ext w) = Raise RuntimeError /\
     snd (_valid_epoch self ext w) = Raise RuntimeError).
Proof.
  intros He. split; [reflexivity|].
  unfold _valid_epoch, valid_epoch_body, build_news_embeds, try_except, bind,
    record_call, set_training, lift, ret.
  rewrite He. split; intros ->; simpl; auto.
Qed.

Lemma C2_except_clause_catches_key_error_only_witness :
  snd (_valid_epoch (trainer_of no_config 10) (ext_cache_raises RuntimeError) world0)
  = Raise RuntimeError.
Proof.
  apply (proj2 (proj2 (proj2 (C2_except_clause_catches_key_error_only
           (trainer_of no_config 10) (ext_cache_raises RuntimeError) world0
           eq_refl)) eq_refl)).
Defined.

(** ** An empty validation loader *)

Lemma valid_epoch_body_empty_loader self ext w :
  (forall embeds, valid_loader ext embeds = []) ->
  let r := valid_epoch_body self ext w in
  (forall v, snd r <> Ok v) /\
  (is_ok (snd (build_news_embeds self ext w)) = true ->
   is_ok (gather_dict ext []) = true ->
   (evaluate_topic self = true -> is_ok (topic_evaluation ext) = true) ->
   snd r = Raise UnboundLocalError).
Proof.
  intros Hempty r. subst r.
  unfold valid_epoch_body, bind, lift, ret.
  destruct (build_news_embeds self ext w) as [w1 [embeds|e]]; simpl;
    [|split; discriminate].
  rewrite Hempty. simpl.
  destruct (gather_dict ext []) as [gathered|e]; simpl; [|split; discriminate].
  assert (Hsave : forall w2, exists w3,
    (if return_weight self && is_main_process self
     then save_weights [] else (fun w => (w, Ok tt))) w2 = (w3, Ok tt)).
  { intros w2. destruct (return_weight self && is_main_process self).
    - unfold save_weights, bind, load_weight_file, save_weight_file, lift, ret.
      destruct (weight_file w2); simpl; eauto.
    - eauto. }
  destruct (evaluate_topic self).
  - destruct (topic_evaluation ext) as [t|e]; simpl.
    + destruct (Hsave w1) as [w3 ->]. simpl. split; [discriminate | reflexivity].
    + split; [discriminate|]. intros _ _ H. specialize (H eq_refl). discriminate H.
  - destruct (Hsave w1) as [w3 ->]. simpl. split; [discriminate | reflexivity].
Qed.

(** C10: when the validation loader yields no batch, [_valid_epoch] never
    returns a result; once the steps before line 265 have passed (cache
    build, gathering, topic evaluation) it is [del batch_dict] that raises,
    with an [UnboundLocalError], which is a [NameError]. *)
Theorem C10_empty_loader_raises_name_error (self : trainer) (ext : externals)
    (w : world) :
  (forall embeds, valid_loader ext embeds = []) ->
  (forall v, snd (_valid_epoch self ext w) <> Ok v) /\
  (is_ok (snd (build_news_embeds self ext w)) = true ->
   is_ok (gather_dict ext []) = true ->
   (evaluate_topic self = true -> is_ok (topic_evaluation ext) = true) ->
   snd (_valid_epoch self ext w) = Raise UnboundLocalError) /\
  isinstance UnboundLocalError NameError = true.
Proof.
  intros Hempty.
  pose (w1 := {| training := false; step := step w;
                 weight_file := weight_file w; calls := calls w |}).
  assert (Hrun : _valid_epoch self ext w = valid_epoch_body self ext w1)
    by reflexivity.
  assert (Hbuild : snd (build_news_embeds self ext w)
                   = snd (build_news_embeds self ext w1)).
  { unfold build_news_embeds, try_except, bind, record_call, lift, ret.
    destruct (eligible self); [|reflexivity].
    destruct (get_news_embeds ext) as [e|x]; simpl; [reflexivity|].
    now destruct (isinstance x (py_or KeyError RuntimeError)). }
  rewrite Hrun, Hbuild.
  destruct (valid_epoch_body_empty_loader self ext w1 Hempty) as [Hnever Hname].
  repeat split; auto.
Qed.

Lemma C10_empty_loader_raises_name_error_witness :
  snd (_valid_epoch (trainer_of no_config 10) (ext_ok 0 (dy 0 0) 0 10) world0)
  = Raise UnboundLocalError.
Proof.
  apply (proj1 (proj2 (C10_empty_loader_raises_name_error
           (trainer_of no_config 10) (ext_ok 0 (dy 0 0) 0 10) world0
           (fun _ => eq_refl)))).
  - reflexivity.
  - reflexivity.
  - intros _. reflexivity.
Defined.

(** ** [_validation] and the model mode *)

Lemma validation_mode self ext epoch batch_idx do_monitor w w' r :
  _validation self ext epoch batch_idx do_monitor w = (w', r) ->
  training w' = is_ok r.
Proof.
  unfold _validation, bind at 1, record_call.
  match goal with
  | |- context [bind (_valid_epoch self ext) ?k ?w1] =>
      pose proof (valid_epoch_leaves_eval_mode self ext w1) as Hmode;
      unfold bind at 1;
      destruct (_valid_epoch self ext w1) as [w2 [val_log|e]]
  end; simpl in Hmode.
  - destruct do_monitor.
    + unfold bind, record_call, lift, set_training, ret. simpl.
      destruct (monitor ext _ epoch) as [[]|e]; simpl; intros [= <- <-];
        [reflexivity | exact Hmode].
    + unfold bind, set_training, ret. simpl. intros [= <- <-]. reflexivity.
  - intros [= <- <-]. exact Hmode.
Qed.

(** C7: [_validation] has put the model back in training mode whenever it
    returns; when it is left by an exception (of the validation pass or of
    monitoring), line 56 is not reached and the model is still in the
    evaluation mode set by [_valid_epoch]. *)
Theorem C7_training_mode_restored_on_return (self : trainer) (ext : externals)
    (epoch batch_idx : Z) (do_monitor : bool) (w w' : world) (r : result log) :
  _validation self ext epoch batch_idx do_monitor w = (w', r) ->
  (forall lg, r = Ok lg -> training w' = true) /\
  (forall e, r = Raise e -> training w' = false).
Proof.
  intros H. apply validation_mode in H. rewrite H.
  split; intros ? ->; reflexivity.
Qed.

Lemma C7_training_mode_restored_on_return_witness :
  training (fst (_validation (trainer_of no_config 10) (ext_ok 0 (dy 0 0) 1 10)
                   1 4 true world0)) = true.
Proof.
  eapply (proj1 (@C7_training_mode_restored_on_return
            (trainer_of no_config 10) (ext_ok 0 (dy 0 0) 1 10) 1 4 true world0
            _ _ (surjective_pairing _))).
  vm_compute. reflexivity.
Defined.

(** C7, as the claim states it, fails: the model raises during the
    validation pass and [_validation] is left in evaluation mode. *)
Lemma C7_counterexample :
  let run := _validation (trainer_of no_config 10)
               (ext_forward_raises RuntimeError) 1 4 true world0 in
  training world0 = true /\
  snd run = Raise RuntimeError /\
  training (fst run) = false.
Proof. vm_compute. auto. Qed.

(** ** Dicts *)

Section DictFacts.
Variables (K V : Type) (keqb : K -> K -> bool).
Hypothesis keqb_eq : forall a b, keqb a b = true <-> a = b.

Lemma keqb_refl (a : K) : keqb a a = true.
Proof. now apply keqb_eq. Qed.

Lemma keqb_sym (a b : K) : keqb a b = keqb b a.
Proof.
  destruct (keqb a b) eqn:Hab, (keqb b a) eqn:Hba; try reflexivity.
  - apply keqb_eq in Hab. subst. now rewrite keqb_refl in Hba.
  - apply keqb_eq in Hba. subst. now rewrite keqb_refl in Hab.
Qed.

Lemma dict_get_set (k k' : K) (v : V) (d : dict K V) :
  dict_get keqb k (dict_set keqb k' v d)
  = if keqb k k' then Some v else dict_get keqb k d.
Proof.
  induction d as [|[k0 v0] d IH]; simpl.
  - reflexivity.
  - destruct (keqb k' k0) eqn:H0; simpl.
    + apply keqb_eq in H0. subst k0. now destruct (keqb k k').
    + rewrite IH. destruct (keqb k k0) eqn:Hk0; [|reflexivity].
      apply keqb_eq in Hk0. subst k0.
      now rewrite keqb_sym, H0.
Qed.

Lemma dict_get_set_same (k : K) (v : V) (d : dict K V) :
  dict_get keqb k (dict_set keqb k v d) = Some v.
Proof. now rewrite dict_get_set, keqb_refl. Qed.

Lemma dict_get_none_notin (k : K) (d : dict K V) :
  dict_get keqb k d = None <-> ~ In k (dict_keys d).
Proof.
  induction d as [|[k0 v0] d IH]; simpl.
  - tauto.
  - destruct (keqb k k0) eqn:Hk.
    + apply keqb_eq in Hk. subst. split; [discriminate | tauto].
    + rewrite IH. split.
      * intros Hn [Heq | Hin]; [|tauto].
        subst. now rewrite keqb_refl in Hk.
      * tauto.
Qed.

Lemma dict_keys_set (k : K) (v : V) (d : dict K V) :
  dict_keys (dict_set keqb k v d)
  = match dict_get keqb k d with
    | Some _ => dict_keys d
    | None => dict_keys d ++ [k]
    end.
Proof.
  induction d as [|[k0 v0] d IH]; simpl.
  - reflexivity.
  - destruct (keqb k k0) eqn:Hk; simpl.
    + reflexivity.
    + change (map fst (dict_set keqb k v d))
        with (dict_keys (dict_set keqb k v d)).
      rewrite IH. now destruct (dict_get keqb k d).
Qed.
End DictFacts.

Lemma dict_set_fresh {V} (k : string) (v : V) (d : dict string V) :
  ~ In k (dict_keys d) -> dict_set String.eqb k v d = d ++ [(k, v)].
Proof.
  induction d as [|[k0 v0] d IH]; simpl; intros Hn.
  - reflexivity.
  - destruct (String.eqb k k0) eqn:Hk.
    + apply String.eqb_eq in Hk. subst. tauto.
    + rewrite IH by tauto. reflexivity.
Qed.

Lemma dict_update_fresh {V} (l d : dict string V) :
  NoDup (dict_keys d ++ dict_keys l) -> dict_update d l = d ++ l.
Proof.
  revert d. induction l as [|[k v] l IH]; intros d Hnd.
  - simpl. now rewrite app_nil_r.
  - unfold dict_update. simpl. fold (dict_update (dict_set String.eqb k v d) l).
    assert (Hk : ~ In k (dict_keys d)).
    { simpl in Hnd. apply NoDup_remove_2 in Hnd. rewrite in_app_iff in Hnd. tauto. }
    rewrite dict_set_fresh by exact Hk.
    rewrite IH.
    + now rewrite <- app_assoc.
    + unfold dict_keys in *. rewrite map_app. simpl.
      rewrite <- app_assoc. exact Hnd.
Qed.

(** ** The result row (lines 209-213) *)

Section Row.
Variables (b : batch) (pred : list (list float)) (i : nat).
Variables (lab : list Z) (p : list float) (c : Z).
Hypothesis Hlab : getitem (label b) i = Ok lab.
Hypothesis Hpred : getitem pred i = Ok p.
Hypothesis Hlen : getitem (candidate_length b) i = Ok c.

Lemma metric_row_percent_row (ms : list metric) (acc : row) :
  metric_row ms b pred i acc
  = rbind (percent_row ms (slice_to c lab) (slice_to c p))
      (fun l => Ok (dict_update acc l)).
Proof.
  revert acc. induction ms as [|m ms IH]; intros acc; simpl.
  - reflexivity.
  - rewrite Hlab, Hlen, Hpred. simpl.
    destruct (m_call m (slice_to c lab) (slice_to c p)) as [v|e]; simpl;
      [|reflexivity].
    rewrite IH.
    now destruct (percent_row ms (slice_to c lab) (slice_to c p)).
Qed.

Lemma percent_row_keys (ms : list metric) (labels : list Z)
    (scores : list float) (r : row) :
  percent_row ms labels scores = Ok r -> dict_keys r = map m_name ms.
Proof.
  revert r. induction ms as [|m ms IH]; simpl; intros r H.
  - now injection H as <-.
  - destruct (m_call m labels scores) as [v|e]; simpl in H; [|discriminate].
    destruct (percent_row ms labels scores) as [rest|e]; simpl in H;
      [|discriminate].
    injection H as <-. simpl. now rewrite (IH rest).
Qed.

Lemma metric_row_is_percent_row (ms : list metric) :
  NoDup (map m_name ms) ->
  metric_row ms b pred i [] = percent_row ms (slice_to c lab) (slice_to c p).
Proof.
  intros Hnd. rewrite metric_row_percent_row.
  destruct (percent_row ms (slice_to c lab) (slice_to c p)) as [r|e] eqn:Hr;
    simpl; [|reflexivity].
  rewrite dict_update_fresh; [reflexivity|].
  simpl. erewrite percent_row_keys by eassumption. exact Hnd.
Qed.
End Row.

Lemma slice_to_firstn {A} (c : Z) (l : list A) :
  0 <= c -> slice_to c l = firstn (Z.to_nat c) l.
Proof.
  intros Hc. unfold slice_to.
  now replace (0 <=? c) with true by (symmetry; apply Z.leb_le; exact Hc).
Qed.

(** The body of the loop over the impressions, for one impression [i]: the
    row is that of the configured metrics on the first [candidate_length[i]]
    labels and scores, each value times 100, stored under
    [impression_index[i]]; what lies beyond that length has no influence. *)
Lemma impression_row_on_prefixes (self : trainer) (ext : externals)
    (b : batch) (out : out_dict) (pred : list (list float)) (i : nat)
    (st : result_table * weight_dump)
    (lab : list Z) (p : list float) (c index : Z) :
  getitem (label b) i = Ok lab ->
  getitem pred i = Ok p ->
  getitem (candidate_length b) i = Ok c ->
  getitem (impression_index b) i = Ok index ->
  0 <= c ->
  NoDup (map m_name (metric_funcs ext)) ->
  let labels := firstn (Z.to_nat c) lab in
  let scores := firstn (Z.to_nat c) p in
  metric_row (metric_funcs ext) b pred i []
    = percent_row (metric_funcs ext) labels scores /\
  (forall st', impression self ext b out pred i st = Ok st' ->
     exists r, percent_row (metric_funcs ext) labels scores = Ok r /\
               fst st' = dict_set Z.eqb index r (fst st) /\
               dict_get Z.eqb index (fst st') = Some r) /\
  (return_weight self = false ->
   forall r, percent_row (metric_funcs ext) labels scores = Ok r ->
     impression self ext b out pred i st
     = Ok (dict_set Z.eqb index r (fst st), snd st)) /\
  (forall b' pred' lab' p',
     getitem (label b') i = Ok lab' ->
     getitem pred' i = Ok p' ->
     getitem (candidate_length b') i = Ok c ->
     firstn (Z.to_nat c) lab' = labels ->
     firstn (Z.to_nat c) p' = scores ->
     metric_row (metric_funcs ext) b' pred' i []
     = metric_row (metric_funcs ext) b pred i []).
Proof.
  intros Hlab Hpred Hlen Hidx Hc Hnd labels scores.
  assert (Hrow : metric_row (metric_funcs ext) b pred i []
                 = percent_row (metric_funcs ext) labels scores).
  { erewrite metric_row_is_percent_row by eassumption.
    subst labels scores. now rewrite !slice_to_firstn by exact Hc. }
  split; [exact Hrow|]. split; [|split].
  - intros st' Hst. unfold impression in Hst. rewrite Hidx, Hrow in Hst.
    simpl in Hst.
    destruct (percent_row (metric_funcs ext) labels scores) as [r|e];
      simpl in Hst; [|discriminate].
    exists r. split; [reflexivity|].
    assert (Hfst : fst st' = dict_set Z.eqb index r (fst st)).
    { destruct (return_weight self).
      - destruct (saved_items b pred i index r) as [items|e]; simpl in Hst;
          [|discriminate].
        destruct (capture_weights out b i _) as [wd|e]; simpl in Hst;
          [|discriminate].
        now injection Hst as <-.
      - now injection Hst as <-. }
    split; [exact Hfst|].
    rewrite Hfst. apply dict_get_set_same. exact Z.eqb_eq.
  - intros Hrw r Hr. unfold impression. rewrite Hidx, Hrow, Hr. simpl.
    now rewrite Hrw.
  - intros b' pred' lab' p' Hlab' Hpred' Hlen' Hl Hs.
    rewrite Hrow.
    erewrite metric_row_is_percent_row by eassumption.
    rewrite !slice_to_firstn by exact Hc. now rewrite Hl, Hs.
Qed.

(** The scenario of the claim: two impressions with candidate lengths 3 and
    2; whatever fills the padding of the label and score rows, the accuracy
    is that of the first 3 and the first 2 entries (2/3 and 2/2, in per
    cent), in two rows under the two impression indices. *)
Example two_impressions_scenario (pad : Z) (fill : float) :
  valid_batch (trainer_of no_config 10) (ext_ok pad fill 1 0) (batch2 pad 11 12)
    ([], [])
  = Ok ([(11, [("accuracy", fmul (SFdiv prec emax (dy 2 0) (dy 3 0)) hundred)]);
         (12, [("accuracy", hundred)])], []).
Proof. reflexivity. Qed.

(** ** The weight dump (lines 255-264) *)

Lemma entries_set (k k' : string) (l : list saved) (wd : weight_dump) :
  entries k (dict_set String.eqb k' l wd)
  = if String.eqb k k' then l else entries k wd.
Proof.
  unfold entries. rewrite dict_get_set by exact String.eqb_eq.
  now destruct (String.eqb k k').
Qed.

Lemma in_keys_get {V} (k : string) (d : dict string V) :
  In k (dict_keys d) -> exists v, dict_get String.eqb k d = Some v.
Proof.
  intros Hin. destruct (dict_get String.eqb k d) as [v|] eqn:Hg; [eauto|].
  apply dict_get_none_notin in Hg; [tauto | exact String.eqb_eq].
Qed.

Lemma dict_keys_set_present {V} (k : string) (v : V) (d : dict string V) :
  In k (dict_keys d) -> dict_keys (dict_set String.eqb k v d) = dict_keys d.
Proof.
  intros Hin. rewrite dict_keys_set by exact String.eqb_eq.
  destruct (in_keys_get _ _ Hin) as [v0 ->]. reflexivity.
Qed.

Lemma extend_old_spec (keys : list string) (old : weight_dump) :
  forall wd : weight_dump,
  NoDup keys ->
  (forall k, In k keys -> In k (dict_keys wd)) ->
  (forall k, In k keys -> In k (dict_keys old)) ->
  exists merged,
    extend_old keys wd old = Ok merged /\
    dict_keys merged = dict_keys wd /\
    (forall k, In k keys -> entries k merged = entries k wd ++ entries k old) /\
    (forall k, ~ In k keys -> entries k merged = entries k wd).
Proof.
  induction keys as [|key rest IH]; intros wd Hnd Hwd Hold; simpl.
  - exists wd. repeat split; auto. intros k [].
  - destruct (in_keys_get key old (Hold key (or_introl eq_refl))) as [o Ho].
    unfold dict_getitem. rewrite Ho. simpl.
    fold (entries key wd).
    set (wd1 := dict_set String.eqb key (entries key wd ++ o) wd).
    assert (Hkeys1 : dict_keys wd1 = dict_keys wd).
    { apply dict_keys_set_present. apply Hwd. now left. }
    inversion Hnd as [|? ? Hnotin Hnd']; subst.
    destruct (IH wd1 Hnd') as [merged [Hm [Hkeys [Hin Hout]]]].
    + intros k Hk. rewrite Hkeys1. apply Hwd. now right.
    + intros k Hk. apply Hold. now right.
    + exists merged. split; [exact Hm|]. split; [congruence|]. split.
      * intros k [<- | Hk].
        -- rewrite (Hout key Hnotin). unfold wd1. rewrite entries_set.
           rewrite String.eqb_refl. unfold entries at 3. now rewrite Ho.
        -- rewrite (Hin k Hk). unfold wd1. rewrite entries_set.
           destruct (String.eqb k key) eqn:Heq; [|reflexivity].
           apply String.eqb_eq in Heq. subst. tauto.
      * intros k Hk. rewrite Hout by tauto. unfold wd1. rewrite entries_set.
        destruct (String.eqb k key) eqn:Heq; [|reflexivity].
        apply String.eqb_eq in Heq. subst. simpl in Hk. tauto.
Qed.

Lemma extend_old_ok_keys (keys : list string) (old : weight_dump) :
  forall wd merged : weight_dump,
  extend_old keys wd old = Ok merged ->
  forall k, In k keys -> In k (dict_keys old).
Proof.
  induction keys as [|key rest IH]; intros wd merged H k Hin; simpl in *.
  - contradiction.
  - unfold dict_getitem in H.
    destruct (dict_get String.eqb key old) as [o|] eqn:Ho; simpl in H;
      [|discriminate].
    destruct Hin as [<- | Hin].
    + destruct (in_dec string_dec key (dict_keys old)) as [Hyes | Hno];
        [exact Hyes|].
      apply (dict_get_none_notin _ _ _ String.eqb_eq) in Hno. congruence.
    + eapply IH; eassumption.
Qed.

(** Lines 259-263 on a captured dict and a prior dump with the same fields. *)
Lemma save_weights_merge (captured prior : weight_dump) (w : world) :
  NoDup (dict_keys captured) ->
  weight_file w = Some prior ->
  (forall k, In k (dict_keys captured) -> In k (dict_keys prior)) ->
  exists merged,
    save_weights captured w
    = ({| training := training w; step := step w; weight_file := Some merged;
          calls := calls w ++ [TorchSave] |}, Ok tt) /\
    dict_keys merged = dict_keys captured /\
    (forall k, In k (dict_keys captured) ->
       entries k merged = entries k captured ++ entries k prior).
Proof.
  intros Hnd Hfile Hprior.
  destruct (extend_old_spec (dict_keys captured) prior captured Hnd (fun k H => H) Hprior)
    as [merged [Hm [Hk [Hin _]]]].
  exists merged. split; [|split; assumption].
  unfold save_weights, bind, load_weight_file, lift, save_weight_file.
  rewrite Hfile, Hm. reflexivity.
Qed.

(** ** The capture of weights (lines 214-243) *)

Lemma entries_dd_append (k k' : string) (x : saved) (wd : weight_dump) :
  entries k (dd_append k' x wd)
  = if String.eqb k k' then entries k wd ++ [x] else entries k wd.
Proof.
  unfold dd_append.
  replace (match dict_get String.eqb k' wd with
           | Some l => dict_set String.eqb k' (l ++ [x]) wd
           | None => dict_set String.eqb k' [x] wd
           end)
    with (dict_set String.eqb k' (entries k' wd ++ [x]) wd)
    by (unfold entries; now destruct (dict_get String.eqb k' wd)).
  rewrite entries_set. destruct (String.eqb k k') eqn:Hk; [|reflexivity].
  apply String.eqb_eq in Hk. now subst.
Qed.

Lemma count_occ_eqb (k name : string) (l : list string) :
  count_occ string_dec (name :: l) k
  = ((if String.eqb k name then 1 else 0) + count_occ string_dec l k)%nat.
Proof.
  simpl. destruct (string_dec name k) as [->|Hne].
  - now rewrite String.eqb_refl.
  - destruct (String.eqb k name) eqn:Hk; [|reflexivity].
    apply String.eqb_eq in Hk. congruence.
Qed.

Lemma length_entries_dd_append (k k' : string) (x : saved) (wd : weight_dump) :
  List.length (entries k (dd_append k' x wd))
  = ((if String.eqb k k' then 1 else 0) + List.length (entries k wd))%nat.
Proof.
  rewrite entries_dd_append. destruct (String.eqb k k'); [|reflexivity].
  rewrite length_app. simpl. lia.
Qed.

Lemma length_entries_append_items (k : string) (items : list (string * saved)) :
  forall wd : weight_dump,
  List.length (entries k (append_items items wd))
  = (List.length (entries k wd) + count_occ string_dec (map fst items) k)%nat.
Proof.
  induction items as [|[name x] items IH]; intros wd.
  - simpl. lia.
  - unfold append_items. simpl fold_left.
    fold (append_items items (dd_append name x wd)).
    rewrite IH, length_entries_dd_append.
    change (map fst ((name, x) :: items)) with (name :: map fst items).
    rewrite count_occ_eqb. lia.
Qed.

Lemma saved_items_fields b pred i index r items :
  saved_items b pred i index r = Ok items -> map fst items = saved_fields.
Proof.
  unfold saved_items. intros H.
  repeat (apply rbind_ok_inv in H; destruct H as [? [_ H]]).
  now injection H as <-.
Qed.

Lemma length_entries_capture_weights (k : string) (b : batch) (i : nat)
    (outs : out_dict) :
  forall wd wd' : weight_dump,
  capture_weights outs b i wd = Ok wd' ->
  List.length (entries k wd')
  = (List.length (entries k wd) + count_occ string_dec (weight_names outs) k)%nat.
Proof.
  induction outs as [|[name weight] outs IH]; intros wd wd' H.
  - simpl in H. injection H as <-. simpl. lia.
  - simpl in H. unfold weight_names. simpl.
    fold (weight_names outs).
    destruct (contains "weight" name) eqn:Hw.
    + rbind_inv H as len _.
      rbind_inv H as wi _.
      rewrite (IH _ _ H), length_entries_dd_append, count_occ_eqb. lia.
    + now apply IH.
Qed.

Lemma contains_weight_not_saved (k : string) :
  contains "weight" k = true -> count_occ string_dec saved_fields k = 0%nat.
Proof.
  intros Hw. unfold saved_fields.
  repeat (rewrite count_occ_eqb;
          match goal with
          | |- context [String.eqb k ?name] =>
              destruct (String.eqb k name) eqn:Heq;
              [apply String.eqb_eq in Heq; subst k; discriminate Hw | clear Heq]
          end).
  reflexivity.
Qed.

Lemma not_weight_not_captured (k : string) (outs : out_dict) :
  contains "weight" k = false -> count_occ string_dec (weight_names outs) k = 0%nat.
Proof.
  intros Hw. apply count_occ_not_In. unfold weight_names.
  rewrite filter_In. intros [_ H]. congruence.
Qed.

Lemma saved_fields_nodup : NoDup saved_fields.
Proof.
  unfold saved_fields. repeat constructor; simpl; intuition discriminate.
Qed.

(** One impression adds at most one entry to a field, and exactly one to
    "impression_index". *)
Lemma impression_adds_one self ext b out pred i st st' (k : string) :
  return_weight self = true ->
  NoDup (dict_keys out) ->
  impression self ext b out pred i st = Ok st' ->
  (List.length (entries k (snd st')) <= List.length (entries k (snd st)) + 1)%nat /\
  List.length (entries "impression_index" (snd st'))
  = (List.length (entries "impression_index" (snd st)) + 1)%nat.
Proof.
  intros Hrw Hnd H. unfold impression in H. rewrite Hrw in H.
  rbind_inv H as index _.
  rbind_inv H as r _.
  cbv zeta in H.
  rbind_inv H as items Hitems.
  rbind_inv H as wd Hwd.
  injection H as <-. simpl.
  pose proof (saved_items_fields _ _ _ _ _ _ Hitems) as Hfields.
  split.
  - rewrite (length_entries_capture_weights k _ _ _ _ _ Hwd).
    rewrite length_entries_append_items, Hfields.
    destruct (contains "weight" k) eqn:Hw.
    + rewrite (contains_weight_not_saved _ Hw).
      assert (count_occ string_dec (weight_names out) k <= 1)%nat.
      { apply NoDup_count_occ. unfold weight_names. now apply NoDup_filter. }
      lia.
    + rewrite (not_weight_not_captured _ out Hw).
      assert (count_occ string_dec saved_fields k <= 1)%nat.
      { apply NoDup_count_occ. exact saved_fields_nodup. }
      lia.
  - rewrite (length_entries_capture_weights "impression_index" _ _ _ _ _ Hwd).
    rewrite length_entries_append_items, Hfields.
    rewrite (not_weight_not_captured "impression_index" out eq_refl).
    change (count_occ string_dec saved_fields "impression_index") with 1%nat.
    lia.
Qed.

Lemma impressions_add self ext b out pred (k : string) (idx : list nat) :
  return_weight self = true ->
  NoDup (dict_keys out) ->
  forall st st',
  impressions self ext b out pred idx st = Ok st' ->
  (List.length (entries k (snd st'))
   <= List.length (entries k (snd st)) + List.length idx)%nat /\
  List.length (entries "impression_index" (snd st'))
  = (List.length (entries "impression_index" (snd st)) + List.length idx)%nat.
Proof.
  intros Hrw Hnd. induction idx as [|i idx IH]; intros st st' H; simpl in H.
  - injection H as <-. simpl. lia.
  - rbind_inv H as st1 H1.
    destruct (impression_adds_one _ _ _ _ _ _ _ _ k Hrw Hnd H1) as [Hle Heq].
    destruct (IH _ _ H) as [Hle' Heq'].
    simpl. lia.
Qed.

Lemma valid_batch_adds self ext b (k : string) st st' :
  return_weight self = true ->
  (forall b out, forward ext b = Ok out -> NoDup (dict_keys out)) ->
  valid_batch self ext b st = Ok st' ->
  (List.length (entries k (snd st'))
   <= List.length (entries k (snd st)) + List.length (label b))%nat /\
  List.length (entries "impression_index" (snd st'))
  = (List.length (entries "impression_index" (snd st)) + List.length (label b))%nat.
Proof.
  intros Hrw Hout H. unfold valid_batch in H.
  rbind_inv H as out Hf.
  rbind_inv H as pred _.
  pose proof (impressions_add _ _ _ _ _ k _ Hrw (Hout _ _ Hf) _ _ H) as Hadd.
  now rewrite length_seq in Hadd.
Qed.

(** The batches that the loop reaches from batch index [vi] on. *)
Lemma valid_loop_stops self ext :
  return_weight self = true ->
  forall batches vi loc,
  valid_loop self ext vi batches loc
  = valid_loop self ext vi
      (firstn (Z.to_nat (saved_weight_num self - vi) + 1) batches) loc.
Proof.
  intros Hrw. induction batches as [|b rest IH]; intros vi loc.
  - now rewrite firstn_nil.
  - rewrite Nat.add_1_r. simpl.
    destruct (valid_batch self ext b _) as [st|e]; simpl; [|reflexivity].
    rewrite Hrw, andb_true_r.
    destruct (saved_weight_num self <=? vi) eqn:Hcap; [reflexivity|].
    apply Z.leb_gt in Hcap.
    rewrite IH.
    replace (Z.to_nat (saved_weight_num self - vi))
      with (Z.to_nat (saved_weight_num self - (vi + 1)) + 1)%nat by lia.
    reflexivity.
Qed.

Lemma valid_loop_count self ext (k : string) :
  return_weight self = true ->
  (forall b out, forward ext b = Ok out -> NoDup (dict_keys out)) ->
  forall batches vi loc loc',
  valid_loop self ext vi batches loc = Ok loc' ->
  let reached := firstn (Z.to_nat (saved_weight_num self - vi) + 1) batches in
  (List.length (entries k (weight_dict loc'))
   <= List.length (entries k (weight_dict loc)) + impressions_in reached)%nat /\
  List.length (entries "impression_index" (weight_dict loc'))
  = (List.length (entries "impression_index" (weight_dict loc))
     + impressions_in reached)%nat.
Proof.
  intros Hrw Hout.
  induction batches as [|b rest IH]; intros vi loc loc' H reached;
    subst reached.
  - simpl in H. injection H as <-. rewrite firstn_nil.
    unfold impressions_in. simpl. lia.
  - rewrite Nat.add_1_r. simpl in H.
    rbind_inv H as st Hb.
    destruct (valid_batch_adds _ _ _ k _ _ Hrw Hout Hb) as [Hle Heq].
    simpl in Hle, Heq.
    rewrite Hrw, andb_true_r in H.
    rewrite firstn_cons.
    change (impressions_in (b :: ?l))
      with (List.length (label b) + impressions_in l)%nat.
    destruct (saved_weight_num self <=? vi) eqn:Hcap.
    + apply Z.leb_le in Hcap. injection H as <-. simpl.
      replace (Z.to_nat (saved_weight_num self - vi)) with 0%nat by lia.
      unfold impressions_in. simpl. lia.
    + apply Z.leb_gt in Hcap. apply IH in H. simpl in H.
      replace (Z.to_nat (saved_weight_num self - vi))
        with (Z.to_nat (saved_weight_num self - (vi + 1)) + 1)%nat by lia.
      lia.
Qed.

(** C4: with weight capture on, the loop ends after the batch whose index
    reaches [saved_weight_num]: the batches after the first
    [saved_weight_num + 1] are never touched, every field of the capture
    holds at most one entry per impression of those batches, and the field
    "impression_index" holds exactly that many. *)
Theorem C4_capture_stops_after_cap_batches (self : trainer) (ext : externals)
    (batches : list batch) (k : string) :
  return_weight self = true ->
  (forall b out, forward ext b = Ok out -> NoDup (dict_keys out)) ->
  let reached := firstn (Z.to_nat (saved_weight_num self) + 1) batches in
  valid_loop self ext 0 batches locals0 = valid_loop self ext 0 reached locals0 /\
  (forall loc, valid_loop self ext 0 batches locals0 = Ok loc ->
     (List.length (entries k (weight_dict loc)) <= impressions_in reached)%nat /\
     List.length (entries "impression_index" (weight_dict loc))
     = impressions_in reached).
Proof.
  intros Hrw Hout reached. subst reached.
  replace (saved_weight_num self) with (saved_weight_num self - 0) by lia.
  split.
  - now apply valid_loop_stops.
  - intros loc H.
    destruct (valid_loop_count _ _ k Hrw Hout _ _ _ _ H) as [Hle Heq].
    simpl in Hle, Heq. split; [exact Hle | exact Heq].
Qed.

Lemma out2_keys_nodup (fill : float) : NoDup (dict_keys (out2 fill)).
Proof. repeat constructor; simpl; intuition discriminate. Qed.

Lemma C4_capture_stops_after_cap_batches_witness :
  let self := trainer_of (capture_config 1) 10 in
  let ext := ext_ok 0 (dy 0 0) 3 0 in
  let reached := firstn (Z.to_nat (saved_weight_num self) + 1) (valid_batches 0 3) in
  reached = valid_batches 0 2 /\
  impressions_in reached = 4%nat /\
  (valid_loop self ext 0 (valid_batches 0 3) locals0
   = valid_loop self ext 0 reached locals0 /\
   (forall loc, valid_loop self ext 0 (valid_batches 0 3) locals0 = Ok loc ->
      (List.length (entries "label" (weight_dict loc)) <= impressions_in reached)%nat /\
      List.length (entries "impression_index" (weight_dict loc))
      = impressions_in reached)).
Proof.
  split; [reflexivity|]. split; [reflexivity|].
  apply (@C4_capture_stops_after_cap_batches
           (trainer_of (capture_config 1) 10) (ext_ok 0 (dy 0 0) 3 0)
           (valid_batches 0 3) "label" eq_refl).
  intros b out H. injection H as <-. apply out2_keys_nodup.
Defined.

(** C4, as the claim states it, fails: with the cap [saved_weight_num = 1]
    and three batches of two impressions, the dump that [_valid_epoch]
    writes holds four entries in every field. *)
Lemma C4_counterexample :
  let self := trainer_of (capture_config 1) 10 in
  let run := _valid_epoch self (ext_ok 0 (dy 0 0) 3 0) world0 in
  return_weight self = true /\
  saved_weight_num self = 1 /\
  is_ok (snd run) = true /\
  exists dump, weight_file (fst run) = Some dump /\
    map (fun kv => List.length (snd kv)) dump = [4; 4; 4; 4; 4; 4; 4; 4]%nat /\
    (Z.of_nat (List.length (entries "impression_index" dump)) > saved_weight_num self).
Proof.
  vm_compute. repeat split. eexists. repeat split.
Qed.

(** ** The validations of a training epoch (lines 134-139) *)

Lemma vals_record_call c w :
  vals (fst (record_call c w)) = vals w ++ validations [c].
Proof. unfold vals, validations. simpl calls. now rewrite flat_map_app. Qed.

Lemma vals_record_get_news : preserves vals (record_call GetNewsEmbeds).
Proof. intros w. rewrite vals_record_call. simpl. now rewrite app_nil_r. Qed.

Lemma vals_record_monitor e : preserves vals (record_call (Monitor e)).
Proof. intros w. rewrite vals_record_call. simpl. now rewrite app_nil_r. Qed.

Lemma vals_record_lr : preserves vals (record_call LrSchedulerStep).
Proof. intros w. rewrite vals_record_call. simpl. now rewrite app_nil_r. Qed.

Lemma vals_save_weight_file d : preserves vals (save_weight_file d).
Proof.
  intros w. unfold vals, validations. simpl calls.
  rewrite flat_map_app. simpl. now rewrite app_nil_r.
Qed.

Lemma vals_set_training m : preserves vals (set_training m).
Proof. intros w. reflexivity. Qed.

Lemma vals_set_step s : preserves vals (set_step s).
Proof. intros w. reflexivity. Qed.

#[local] Hint Resolve vals_record_get_news vals_record_monitor vals_record_lr
  vals_save_weight_file vals_set_training vals_set_step : frame.

Lemma vals_save_weights wd : preserves vals (save_weights wd).
Proof.
  unfold save_weights. apply preserves_bind; auto with frame.
  intros [old|]; auto with frame.
Qed.

#[local] Hint Resolve vals_save_weights : frame.

Lemma vals_valid_epoch self ext : preserves vals (_valid_epoch self ext).
Proof.
  unfold _valid_epoch, valid_epoch_body, build_news_embeds.
  auto 30 with frame.
Qed.

(** Every call of [_validation] is recorded once, whatever its outcome. *)
Lemma vals_validation self ext epoch batch_idx do_monitor w :
  vals (fst (_validation self ext epoch batch_idx do_monitor w))
  = vals w ++ [(epoch, batch_idx, do_monitor)].
Proof.
  unfold _validation.
  change (bind (record_call ?c) ?k w) with (k tt (fst (record_call c w))).
  cbv beta.
  assert (Hrec : vals (fst (record_call (Validation epoch batch_idx do_monitor) w))
                 = vals w ++ [(epoch, batch_idx, do_monitor)])
    by (rewrite vals_record_call; reflexivity).
  rewrite <- Hrec.
  generalize (fst (record_call (Validation epoch batch_idx do_monitor) w)).
  apply preserves_bind; [apply vals_valid_epoch|].
  intros val_log. destruct do_monitor; auto 10 with frame.
Qed.

Lemma preserves_eq {X A} (f : world -> X) (c : M A) (w w1 : world) (r : result A) :
  preserves f c -> c w = (w1, r) -> f w1 = f w.
Proof. intros Hp Hc. specialize (Hp w). now rewrite Hc in Hp. Qed.

Lemma lift_ok_inv {A} (r : result A) (w w1 : world) (a : A) :
  lift r w = (w1, Ok a) -> w1 = w /\ r = Ok a.
Proof. unfold lift. intros H. injection H as <- ->. auto. Qed.

Lemma vals_train_batch self ext epoch batch_idx b w w' :
  train_batch self ext epoch batch_idx b w = (w', Ok tt) ->
  exists hit,
    interval_hit self batch_idx = Ok hit /\
    vals w' = vals w ++ (if hit then [(epoch, batch_idx, true)] else []).
Proof.
  unfold train_batch. intros H.
  apply bind_ok_inv in H. destruct H as [w1 [[] [H1 H]]].
  apply (preserves_eq vals) in H1; [|apply vals_set_step].
  apply bind_ok_inv in H. destruct H as [w2 [[] [H2 H]]].
  apply lift_ok_inv in H2. destruct H2 as [-> _].
  apply bind_ok_inv in H. destruct H as [w3 [r [H3 H]]].
  apply lift_ok_inv in H3. destruct H3 as [-> _].
  apply bind_ok_inv in H. destruct H as [w4 [[] [H4 H]]].
  apply (preserves_eq vals) in H4;
    [|destruct (r =? 0), (log_kl_div self); auto 10 with frame].
  apply bind_ok_inv in H. destruct H as [w5 [hit [H5 H]]].
  apply lift_ok_inv in H5. destruct H5 as [-> Hhit].
  exists hit. split; [exact Hhit|].
  destruct hit.
  - apply bind_ok_inv in H. destruct H as [w6 [lg [H6 H]]].
    injection H as <-.
    pose proof (vals_validation self ext epoch batch_idx true w4) as Hv.
    rewrite H6 in Hv. simpl in Hv. congruence.
  - injection H as <-. rewrite app_nil_r. congruence.
Qed.

(** Line 134 once the divisor is known. *)
Lemma interval_hit_spec self k batch_idx :
  rbind (int_mul_float (len_epoch self) (valid_interval self)) math_ceil = Ok k ->
  interval_hit self batch_idx
  = if k =? 0 then Raise ZeroDivisionError
    else Ok ((batch_idx + 1) mod k =? 0).
Proof.
  unfold interval_hit. intros Hk.
  destruct (int_mul_float (len_epoch self) (valid_interval self)) as [x|e];
    simpl in *; [|discriminate].
  rewrite Hk. simpl. unfold py_mod. now destruct (k =? 0).
Qed.

Lemma vals_train_loop self ext epoch k (batches : list batch) :
  rbind (int_mul_float (len_epoch self) (valid_interval self)) math_ceil = Ok k ->
  forall (s : nat) (w w' : world),
  train_loop self ext epoch (Z.of_nat s) batches w = (w', Ok tt) ->
  vals w' = vals w ++
    map (fun b => (epoch, b, true))
      (filter (fun b => (b + 1) mod k =? 0)
         (map Z.of_nat (seq s (List.length batches)))).
Proof.
  intros Hk. induction batches as [|b rest IH]; intros s w w' H; simpl in H.
  - injection H as <-. simpl. now rewrite app_nil_r.
  - apply bind_ok_inv in H. destruct H as [w1 [[] [H1 H]]].
    apply vals_train_batch in H1. destruct H1 as [hit [Hhit Hv1]].
    rewrite (interval_hit_spec _ _ _ Hk) in Hhit.
    destruct (k =? 0); [discriminate|]. injection Hhit as <-.
    replace (Z.of_nat s + 1) with (Z.of_nat (S s)) in H by lia.
    apply IH in H. rewrite H, Hv1. simpl.
    destruct ((Z.of_nat s + 1) mod k =? 0); simpl.
    + now rewrite <- app_assoc.
    + now rewrite app_nil_r.
Qed.

Lemma vals_train_epoch self ext epoch k w w' lg :
  rbind (int_mul_float (len_epoch self) (valid_interval self)) math_ceil = Ok k ->
  _train_epoch self ext epoch w = (w', Ok lg) ->
  vals w' = vals w ++
    map (fun b => (epoch, b, true))
      (filter (fun b => (b + 1) mod k =? 0)
         (map Z.of_nat (seq 0 (List.length (train_loader ext)))))
    ++ [(epoch, len_epoch self, false)].
Proof.
  intros Hk H. unfold _train_epoch in H.
  apply bind_ok_inv in H. destruct H as [w1 [[] [H1 H]]].
  apply (preserves_eq vals) in H1; [|apply vals_set_training].
  apply bind_ok_inv in H. destruct H as [w2 [[] [H2 H]]].
  apply (vals_train_loop _ _ _ _ _ Hk 0%nat) in H2.
  apply bind_ok_inv in H. destruct H as [w3 [[] [H3 H]]].
  apply (preserves_eq vals) in H3;
    [|destruct (has_lr_scheduler self); auto with frame].
  cbv zeta in H.
  apply bind_ok_inv in H. destruct H as [w4 [val_log [H4 H]]].
  injection H as <- _.
  pose proof (vals_validation self ext epoch (len_epoch self) false w3) as Hv.
  rewrite H4 in Hv. simpl in Hv.
  rewrite Hv, H3, H2, H1. now rewrite <- app_assoc.
Qed.

(** C1: an interleaved validation is triggered at batch [batch_idx] exactly
    when [(batch_idx + 1) % ceil(len_epoch * valid_interval) == 0]; an epoch
    that completes has run one validation at each such batch of the loader
    and a final one (without monitoring) at the end, and nothing else.  With
    [valid_interval = 0.5], [len_epoch = 10] and a loader of 10 batches these
    are the interleaved validations at batch indices 4 and 9 and the final
    one. *)
Theorem C1_interleaved_validations (self : trainer) (ext : externals)
    (epoch k : Z) (w w' : world) (lg : log) :
  rbind (int_mul_float (len_epoch self) (valid_interval self)) math_ceil = Ok k ->
  _train_epoch self ext epoch w = (w', Ok lg) ->
  (forall batch_idx,
     interval_hit self batch_idx = Ok true <-> k <> 0 /\ (batch_idx + 1) mod k = 0) /\
  vals w' = vals w ++
    map (fun b => (epoch, b, true))
      (filter (fun b => (b + 1) mod k =? 0)
         (map Z.of_nat (seq 0 (List.length (train_loader ext)))))
    ++ [(epoch, len_epoch self, false)] /\
  (valid_interval self = float_0_5 ->
   len_epoch self = 10 ->
   List.length (train_loader ext) = 10%nat ->
   vals w' = vals w ++ [(epoch, 4, true); (epoch, 9, true); (epoch, 10, false)]).
Proof.
  intros Hk H. split; [|split].
  - intros batch_idx. rewrite (interval_hit_spec _ _ _ Hk).
    destruct (k =? 0) eqn:Hz.
    + apply Z.eqb_eq in Hz. split; [discriminate | tauto].
    + apply Z.eqb_neq in Hz. split.
      * intros [= Hm]. apply Z.eqb_eq in Hm. tauto.
      * intros [_ Hm]. apply Z.eqb_eq in Hm. now rewrite Hm.
  - eapply vals_train_epoch; eassumption.
  - intros Hhalf Hlen Hn.
    rewrite (vals_train_epoch _ _ _ _ _ _ _ Hk H).
    rewrite Hhalf, Hlen in Hk. vm_compute in Hk. injection Hk as <-.
    rewrite Hn, Hlen. reflexivity.
Qed.

Lemma C1_interleaved_validations_witness :
  let run := _train_epoch (trainer_of half_config 10) (ext_ok 0 (dy 0 0) 1 10) 1 world0 in
  is_ok (snd run) = true /\
  vals (fst run) = [(1, 4, true); (1, 9, true); (1, 10, false)].
Proof.
  split; [reflexivity|].
  eapply (proj2 (proj2 (@C1_interleaved_validations
            (trainer_of half_config 10) (ext_ok 0 (dy 0 0) 1 10) 1 5 world0 _ _
            eq_refl (surjective_pairing _)))); reflexivity.
Defined.

(** C1, as the claim states it, fails: with [valid_interval = 0.5],
    [len_epoch = 10] and the 10 batches of the epoch, the interleaved
    validations are two (batch indices 4 and 9), not the single one at batch
    index 4. *)
Lemma C1_counterexample :
  let self := trainer_of half_config 10 in
  let run := _train_epoch self (ext_ok 0 (dy 0 0) 1 10) 1 world0 in
  valid_interval self = float_0_5 /\
  len_epoch self = 10 /\
  is_ok (snd run) = true /\
  filter (fun v => snd v) (vals (fst run)) = [(1, 4, true); (1, 9, true)] /\
  vals (fst run) <> [(1, 4, true); (1, 10, false)].
Proof. vm_compute. repeat split. discriminate. Qed.

(** ** The captured dict is a dict *)

Lemma dd_append_nodup (k : string) (x : saved) (wd : weight_dump) :
  NoDup (dict_keys wd) -> NoDup (dict_keys (dd_append k x wd)).
Proof.
  intros Hnd. unfold dd_append.
  destruct (dict_get String.eqb k wd) as [l|] eqn:Hg;
    rewrite dict_keys_set by exact String.eqb_eq; rewrite Hg.
  - exact Hnd.
  - apply dict_get_none_notin in Hg; [|exact String.eqb_eq].
    apply NoDup_app; [exact Hnd | repeat constructor; simpl; tauto |].
    intros a Ha [<- | []]. contradiction.
Qed.

Lemma append_items_nodup (items : list (string * saved)) :
  forall wd, NoDup (dict_keys wd) -> NoDup (dict_keys (append_items items wd)).
Proof.
  induction items as [|[name x] items IH]; intros wd Hnd.
  - exact Hnd.
  - unfold append_items. simpl. apply IH. now apply dd_append_nodup.
Qed.

Lemma capture_weights_nodup (outs : out_dict) (b : batch) (i : nat) :
  forall wd wd', NoDup (dict_keys wd) ->
  capture_weights outs b i wd = Ok wd' -> NoDup (dict_keys wd').
Proof.
  induction outs as [|[name weight] outs IH]; intros wd wd' Hnd H; simpl in H.
  - now injection H as <-.
  - destruct (contains "weight" name).
    + rbind_inv H as len _. rbind_inv H as wi _.
      eapply IH; [|exact H]. now apply dd_append_nodup.
    + eapply IH; eassumption.
Qed.

Lemma impression_nodup self ext b out pred i st st' :
  NoDup (dict_keys (snd st)) ->
  impression self ext b out pred i st = Ok st' ->
  NoDup (dict_keys (snd st')).
Proof.
  intros Hnd H. unfold impression in H.
  rbind_inv H as index _. rbind_inv H as r _. cbv zeta in H.
  destruct (return_weight self).
  - rbind_inv H as items _. rbind_inv H as wd Hwd. injection H as <-. simpl.
    eapply capture_weights_nodup; [|exact Hwd]. now apply append_items_nodup.
  - now injection H as <-.
Qed.

Lemma impressions_nodup self ext b out pred (idx : list nat) :
  forall st st',
  NoDup (dict_keys (snd st)) ->
  impressions self ext b out pred idx st = Ok st' ->
  NoDup (dict_keys (snd st')).
Proof.
  induction idx as [|i idx IH]; intros st st' Hnd H; simpl in H.
  - now injection H as <-.
  - rbind_inv H as st1 H1. eapply IH; [|exact H].
    eapply impression_nodup; eassumption.
Qed.

Lemma valid_loop_nodup self ext (batches : list batch) :
  forall vi loc loc',
  NoDup (dict_keys (weight_dict loc)) ->
  valid_loop self ext vi batches loc = Ok loc' ->
  NoDup (dict_keys (weight_dict loc')).
Proof.
  induction batches as [|b rest IH]; intros vi loc loc' Hnd H; simpl in H.
  - now injection H as <-.
  - rbind_inv H as st Hb.
    assert (Hst : NoDup (dict_keys (snd st))).
    { unfold valid_batch in Hb. rbind_inv Hb as out _. rbind_inv Hb as pred _.
      eapply impressions_nodup; [|exact Hb]. exact Hnd. }
    destruct ((saved_weight_num self <=? vi) && return_weight self).
    + now injection H as <-.
    + eapply IH; [|exact H]. exact Hst.
Qed.

(** ** The merge with the prior dump, end to end *)

Lemma return_weight_not_eligible self :
  return_weight self = true -> eligible self = false.
Proof.
  intros Hrw. unfold eligible. rewrite Hrw. simpl.
  now rewrite andb_false_r.
Qed.

(** C5: when [_valid_epoch] captures weights and finds a prior dump on
    disk, the file it writes has exactly the captured fields, and each field
    holds the newly captured entries followed by the prior dump's entries of
    that field, nothing cut. *)
Theorem C5_merge_appends_prior_dump (self : trainer) (ext : externals)
    (w w' : world) (prior : weight_dump) (v : row) :
  return_weight self = true ->
  is_main_process self = true ->
  weight_file w = Some prior ->
  _valid_epoch self ext w = (w', Ok v) ->
  exists loc merged,
    valid_loop self ext 0 (valid_loader ext None) locals0 = Ok loc /\
    weight_file w' = Some merged /\
    dict_keys merged = dict_keys (weight_dict loc) /\
    (forall k, In k (dict_keys (weight_dict loc)) ->
       entries k merged = entries k (weight_dict loc) ++ entries k prior).
Proof.
  intros Hrw Hmain Hfile H. unfold _valid_epoch in H.
  apply bind_ok_inv in H. destruct H as [w1 [[] [H1 H]]].
  unfold set_training in H1. injection H1 as <-.
  unfold valid_epoch_body in H.
  apply bind_ok_inv in H. destruct H as [w2 [embeds [H2 H]]].
  unfold build_news_embeds, try_except in H2.
  rewrite (return_weight_not_eligible _ Hrw) in H2.
  unfold ret in H2. injection H2 as <- <-.
  apply bind_ok_inv in H. destruct H as [w3 [loc [H3 H]]].
  apply lift_ok_inv in H3. destruct H3 as [-> Hloop].
  apply bind_ok_inv in H. destruct H as [w4 [gathered [H4 H]]].
  apply lift_ok_inv in H4. destruct H4 as [-> _].
  cbv zeta in H.
  apply bind_ok_inv in H. destruct H as [w5 [eval_result [H5 H]]].
  assert (Hw5 : weight_file w5 = Some prior).
  { destruct (evaluate_topic self).
    - apply bind_ok_inv in H5. destruct H5 as [w6 [t [H6 H5]]].
      apply lift_ok_inv in H6. destruct H6 as [-> _].
      unfold ret in H5. now injection H5 as <- _.
    - unfold ret in H5. now injection H5 as <- _. }
  clear H5.
  apply bind_ok_inv in H. destruct H as [w6 [[] [H6 H]]].
  rewrite Hrw, Hmain in H6. simpl in H6.
  apply bind_ok_inv in H. destruct H as [w7 [[] [H7 H]]].
  apply lift_ok_inv in H7. destruct H7 as [-> _].
  unfold ret in H. injection H as <- _.
  pose proof (valid_loop_nodup self ext _ 0 locals0 loc (NoDup_nil _) Hloop) as Hnd.
  unfold save_weights, bind, load_weight_file in H6. rewrite Hw5 in H6.
  unfold lift in H6.
  destruct (extend_old (dict_keys (weight_dict loc)) (weight_dict loc) prior)
    as [merged|e] eqn:Hext; [|discriminate].
  pose proof (extend_old_ok_keys _ _ _ _ Hext) as Hkeys.
  destruct (save_weights_merge _ _ w5 Hnd Hw5 Hkeys) as [merged' [Hs [Hk Hin]]].
  unfold save_weights, bind, load_weight_file, lift in Hs.
  rewrite Hw5, Hext in Hs.
  unfold save_weight_file in H6, Hs.
  injection H6 as <-. injection Hs as <-.
  exists loc, merged. simpl. auto.
Qed.

Lemma C5_merge_appends_prior_dump_witness :
  entries "impression_index" prior_dump = [SavedIndex 0; SavedIndex 1] /\
  exists loc merged,
    valid_loop capturing (ext_ok 0 (dy 0 0) 2 0) 0 (valid_batches 0 2) locals0
    = Ok loc /\
    weight_file (fst second_pass) = Some merged /\
    dict_keys merged = dict_keys (weight_dict loc) /\
    (forall k, In k (dict_keys (weight_dict loc)) ->
       entries k merged = entries k (weight_dict loc) ++ entries k prior_dump).
Proof.
  split; [reflexivity|].
  apply (C5_merge_appends_prior_dump capturing (ext_ok 0 (dy 0 0) 2 0)
           after_first_pass (fst second_pass) prior_dump
           [("accuracy", fmul (SFdiv prec emax (dy 2 0) (dy 3 0)) hundred)]).
  - reflexivity.
  - reflexivity.
  - reflexivity.
  - reflexivity.
Defined.

(** C5, as the claim states it, fails: the prior dump holds the impressions
    0 and 1, the second pass captures the impressions 0 to 3, and the field
    "impression_index" of the file written is the new entries followed by
    the prior ones, not the prior ones followed by the new ones. *)
Lemma C5_counterexample :
  let persisted :=
    match weight_file (fst second_pass) with
    | Some d => entries "impression_index" d
    | None => []
    end in
  let prior := [SavedIndex 0; SavedIndex 1] in
  let new := [SavedIndex 0; SavedIndex 1; SavedIndex 2; SavedIndex 3] in
  entries "impression_index" prior_dump = prior /\
  is_ok (snd second_pass) = true /\
  persisted = new ++ prior /\
  persisted <> prior ++ new.
Proof. vm_compute. repeat split. discriminate. Qed.

End TrainerFacts.

(* ================================================================== *)
(** ** Properties of the news embedding                                 *)
(* ================================================================== *)

Module NewsEmbeddingFacts.
Import NewsEmbedding.

Lemma obind_inv {A B} (r : outcome A) (k : A -> outcome B) (b : B) :
  obind r k = Done b -> exists a, r = Done a /\ k a = Done b.
Proof. destruct r as [a|e]; simpl; intros H; [eauto | discriminate]. Qed.

Lemma new_done ext l l' : new ext l = Done l' -> l' = l.
Proof.
  unfold new. destruct (new_module ext l); simpl; [|discriminate].
  intros H. now injection H as <-.
Qed.

(** X29: the attributes [word_dict] and [num_classes] are read but never
    set by the constructor: on an object that has neither, it fails with
    [AttributeError] for the type "init", and for every type other than
    "glove" and "init" once [transformers] is imported.  In a model that it
    returns, [embed_dim] is the keyword argument (300 by default) for
    "glove" and "init", whatever the width of the matrix loaded; for the
    other types the keyword argument is not used: [embed_dim] is the [dim]
    of the configuration, its [hidden_size] when it has no [dim], and the
    configuration has one of the two. *)
Theorem X29_embed_dim_and_missing_attributes (ext : externals) (self : attributes)
    (kw : kwargs) :
  let embedding_type := get (kw_embedding_type kw) "glove" in
  (attr_word_dict self = None -> embedding_type = "init" ->
   __init__ ext self kw = Fail AttributeError) /\
  (attr_num_classes self = None ->
   embedding_type <> "glove" -> embedding_type <> "init" ->
   import_transformers ext = Done tt ->
   __init__ ext self kw = Fail AttributeError) /\
  (forall m, __init__ ext self kw = Done m ->
     if String.eqb embedding_type "glove" || String.eqb embedding_type "init"
     then embed_dim m = VInt (get (kw_embed_dim kw) 300) /\ embed_config m = None
     else exists c,
            embed_config m = Some c /\
            (hasattr c "dim" || hasattr c "hidden_size" = true) /\
            getattr c (if hasattr c "dim" then "dim" else "hidden_size")
            = Done (embed_dim m)).
Proof.
  intros embedding_type. unfold __init__. fold embedding_type.
  split; [|split].
  - intros Hattr ->. cbn [String.eqb Ascii.eqb Bool.eqb]. now rewrite Hattr.
  - intros Hattr Hg Hi Himport.
    apply String.eqb_neq in Hg, Hi. rewrite Hg, Hi, Himport, Hattr. reflexivity.
  - intros m H.
    destruct (String.eqb embedding_type "glove") eqn:Hg; cbn [orb].
    { apply obind_inv in H. destruct H as [e [_ H]].
      apply obind_inv in H. destruct H as [emb [_ H]].
      injection H as <-. split; reflexivity. }
    destruct (String.eqb embedding_type "init") eqn:Hi.
    { apply obind_inv in H. destruct H as [wd [_ H]].
      apply obind_inv in H. destruct H as [emb [_ H]].
      injection H as <-. split; reflexivity. }
    apply obind_inv in H. destruct H as [[] [_ H]]. cbv zeta in H.
    apply obind_inv in H. destruct H as [nc [_ H]].
    apply obind_inv in H. destruct H as [c0 [_ H]].
    apply obind_inv in H. destruct H as [c [_ H]].
    apply obind_inv in H. destruct H as [emb [_ H]].
    apply obind_inv in H. destruct H as [emb' [_ H]].
    apply obind_inv in H. destruct H as [d [Hd H]].
    injection H as <-. cbn [embed_config embed_dim].
    exists c. split; [reflexivity|].
    destruct (hasattr c "dim"); cbn [orb]; [split; [reflexivity | exact Hd]|].
    destruct (hasattr c "hidden_size"); [split; [reflexivity | exact Hd] | discriminate].
Qed.

Lemma X29_embed_dim_and_missing_attributes_witness :
  __init__ (ext_with [("hidden_size", VInt 768)]) no_attributes
    (kw_type (Some "bert-base-uncased") None)
  = Fail AttributeError.
Proof.
  apply (proj1 (proj2 (X29_embed_dim_and_missing_attributes
                         (ext_with [("hidden_size", VInt 768)]) no_attributes
                         (kw_type (Some "bert-base-uncased") None)))).
  - reflexivity.
  - discriminate.
  - discriminate.
  - reflexivity.
Defined.

(** X30: [forward] changes the caller's dict for the types other than
    "glove" and "init": afterwards the dict has the key "embedding", with
    the value it had or [None], the other entries being as they were, also
    when the call then fails for a missing "news" or "news_mask".  For
    "glove" and "init" the dict is left alone and only "news" is read. *)
Theorem X30_forward_adds_the_embedding_key (tensor : Type)
    (call_table : module -> option tensor -> outcome tensor)
    (call_model : module -> option tensor -> option tensor -> option tensor
                  -> outcome (list tensor))
    (self : model) (input_feat : features tensor) :
  let run := forward call_table call_model self input_feat in
  if existsb (String.eqb (embedding_type self)) ["glove"; "init"]
  then fst run = input_feat /\
       (dict_get String.eqb "news" input_feat = None ->
        snd run = Fail (Builtin KeyError)) /\
       (forall news, dict_get String.eqb "news" input_feat = Some news ->
                     snd run = call_table (embedding self) news)
  else dict_get String.eqb "embedding" (fst run)
       = Some (match dict_get String.eqb "embedding" input_feat with
               | Some v => v
               | None => None
               end) /\
       (forall k, k <> "embedding" ->
                  dict_get String.eqb k (fst run) = dict_get String.eqb k input_feat) /\
       (dict_get String.eqb "news" input_feat = None \/
        dict_get String.eqb "news_mask" input_feat = None ->
        snd run = Fail (Builtin KeyError)).
Proof.
  intros run. unfold run, forward.
  destruct (existsb _ _); cbn [fst snd].
  - split; [reflexivity|]. split.
    + intros Hn. unfold feature, dict_getitem. now rewrite Hn.
    + intros news Hn. unfold feature, dict_getitem. now rewrite Hn.
  - split; [apply (TrainerFacts.dict_get_set_same _ _ _ String.eqb_eq)|].
    assert (Hother : forall k, k <> "embedding" ->
              dict_get String.eqb k
                (dict_set String.eqb "embedding"
                   match dict_get String.eqb "embedding" input_feat with
                   | Some v => v
                   | None => None
                   end input_feat)
              = dict_get String.eqb k input_feat).
    { intros k Hk. rewrite (TrainerFacts.dict_get_set _ _ _ String.eqb_eq).
      apply String.eqb_neq in Hk. now rewrite Hk. }
    split; [exact Hother|].
    intros [Hn | Hm]; unfold feature, dict_getitem.
    + rewrite (Hother "news") by discriminate. now rewrite Hn.
    + rewrite (Hother "news") by discriminate.
      rewrite (Hother "news_mask") by discriminate. rewrite Hm.
      now destruct (dict_get String.eqb "news" input_feat).
Qed.

Lemma X30_forward_adds_the_embedding_key_witness :
  let run := forward (fun _ (_ : option unit) => Done tt)
               (fun _ _ _ _ => Done [tt]) bert_model [("news", Some tt)] in
  dict_get String.eqb "embedding" (fst run) = Some None /\
  snd run = Fail (Builtin KeyError).
Proof.
  destruct (X30_forward_adds_the_embedding_key unit (fun _ _ => Done tt)
              (fun _ _ _ _ => Done [tt]) bert_model [("news", Some tt)])
    as [Hkey [_ Hfail]].
  split; [exact Hkey|]. apply Hfail. right. reflexivity.
Defined.

End NewsEmbeddingFacts.

(* ================================================================== *)
(** ** The model that the LSTUR constructor returns                     *)
(* ================================================================== *)

Module LSTURModelFacts.
Import LSTUR LSTURFacts.

Lemma kernel_padding_ok_inv (w p : Z) :
  kernel_padding w = Ok p -> 2 * p + 1 = w /\ Z.odd w = true.
Proof.
  unfold kernel_padding, py_assert.
  set (q := (w - 1) / 2).
  destruct (2 * q =? w - 1) eqn:He; cbn [rbind]; [|discriminate].
  intros H. injection H as <-. apply Z.eqb_eq in He. split; [lia|].
  apply Z.odd_spec. exists q. lia.
Qed.

Lemma new_ok_inv ext l l' : new ext l = Ok l' -> l' = l.
Proof.
  unfold new. destruct (nn_new ext l); simpl; [|discriminate].
  intros H. now injection H as <-.
Qed.

Lemma not_odd_even (w : Z) : Z.odd w = false -> Z.even w = true.
Proof. rewrite <- Z.negb_even. now destruct (Z.even w). Qed.

(** The steps of a constructor call that returned. *)
Ltac open_init H :=
  unfold __init__ in H;
  let b := fresh "b" in let Hsuper := fresh "Hsuper" in
  let p := fresh "p" in let Hpad := fresh "Hpad" in
  let conv := fresh "conv" in let Hconv := fresh "Hconv" in
  let relu := fresh "relu" in let Hrelu := fresh "Hrelu" in
  let att := fresh "att" in let Hatt := fresh "Hatt" in
  let cat := fresh "cat" in let Hcat := fresh "Hcat" in
  let ue := fresh "ue" in let Hue := fresh "Hue" in
  let gru := fresh "gru" in let Hgru := fresh "Hgru" in
  rbind_inv H as b Hsuper; cbv zeta in H;
  rbind_inv H as p Hpad;
  rbind_inv H as conv Hconv; apply new_ok_inv in Hconv;
  rbind_inv H as relu Hrelu; apply new_ok_inv in Hrelu;
  rbind_inv H as att Hatt; apply new_ok_inv in Hatt;
  rbind_inv H as cat Hcat;
  rbind_inv H as ue Hue;
  rbind_inv H as gru Hgru; apply new_ok_inv in Hgru;
  injection H as H; subst.

(** X13: in a model that the constructor returned, the convolution keeps the
    sequence length ([2 * padding + 1] is its kernel size, the odd
    [window_size]), the attention layer reads the convolution's channels, the
    GRU is square (input and hidden size are both [num_filters], tripled when
    category and subcategory are both used), and a user embedding, when
    there is one, has the GRU's hidden size. *)
Theorem X13_constructed_layers_agree (ext : externals) (kw : kwargs) (m : model) :
  __init__ ext kw = Ok m ->
  exists b p,
    super_init ext kw = Ok b /\
    2 * p + 1 = window_size b /\
    news_encode_layer m = [Conv1d (embedding_dim b) (num_filters m) (window_size b) p; ReLU] /\
    news_att_layer m = AttLayer (num_filters m) (attention_hidden_dim b) /\
    (let d := if truthy (use_category m) && truthy (use_sub m)
              then num_filters m * 3 else num_filters m in
     user_encode_layer m = GRU d d /\
     forall l, user_embedding m = Some l -> exists n, l = Embedding n d) /\
    user_att_layer m = None.
Proof.
  intros H. open_init H. exists b, p.
  apply kernel_padding_ok_inv in Hpad. destruct Hpad as [Hp _].
  cbn [news_encode_layer news_att_layer user_encode_layer user_embedding
       user_att_layer num_filters use_category use_sub].
  repeat split; try assumption.
  intros l ->. unfold build_user_embedding in Hue.
  destruct (method_is _ "init" || method_is _ "cat"); [|discriminate].
  destruct (kw_uid_path kw) as [path|]; [|discriminate].
  rbind_inv Hue as u Hu. rbind_inv Hue as e He. apply new_ok_inv in He.
  injection Hue as <-. subst e. eauto.
Qed.

Lemma X13_constructed_layers_agree_witness :
  exists m, __init__ (ext_ok 3) (kw_method (Some "init") (Some "uid.json")) = Ok m /\
            news_encode_layer m = [Conv1d 300 300 3 1; ReLU] /\
            user_encode_layer m = GRU 300 300.
Proof.
  eexists. split; [reflexivity|].
  destruct (X13_constructed_layers_agree (ext_ok 3)
              (kw_method (Some "init") (Some "uid.json")) _ eq_refl)
    as [b [p [Hb [Hp [Hconv [_ [[Hgru _] _]]]]]]].
  injection Hb as <-. cbn [window_size embedding_dim] in Hp, Hconv.
  assert (p = 1) by lia. subst p. split; [exact Hconv | exact Hgru].
Defined.

(** X14: the optional attributes of a constructed model.  It has a
    [category_embedding] exactly when [use_category] or [use_subcategory] is
    set, of size [category_num] x [num_filters]; it has a [user_embedding]
    exactly when [user_embed_method] is "init" or "cat", with one row more
    than the dictionary read from [uid_path] has entries; [user_num] does not
    enter its size. *)
Theorem X14_optional_embeddings (ext : externals) (kw : kwargs) (m : model) :
  __init__ ext kw = Ok m ->
  category_embedding m =
    (if truthy (use_category m) || truthy (use_sub m)
     then Some (Embedding (category_num m) (num_filters m)) else None) /\
  (if method_is (user_embed_method m) "init" || method_is (user_embed_method m) "cat"
   then exists path uid2index d,
          kw_uid_path kw = Some path /\
          read_json ext path = Ok uid2index /\
          user_embedding m = Some (Embedding (Z.of_nat (List.length uid2index) + 1) d)
   else user_embedding m = None).
Proof.
  intros H. open_init H.
  cbn [category_embedding user_embedding user_embed_method category_num
       num_filters use_category use_sub].
  split.
  - destruct (truthy _ || truthy _).
    + rbind_inv Hcat as e He. apply new_ok_inv in He. injection Hcat as <-.
      now subst e.
    + now injection Hcat as <-.
  - unfold build_user_embedding in Hue.
    destruct (method_is _ "init" || method_is _ "cat").
    + destruct (kw_uid_path kw) as [path|]; [|discriminate].
      rbind_inv Hue as u Hu. rbind_inv Hue as e He. apply new_ok_inv in He.
      injection Hue as <-. subst e.
      exists path, u. eexists. repeat split. exact Hu.
    + now injection Hue as <-.
Qed.

Lemma X14_optional_embeddings_witness :
  exists m, __init__ (ext_ok 3) (kw_method (Some "cat") (Some "uid.json")) = Ok m /\
            category_embedding m = None /\
            user_embedding m = Some (Embedding 3 300).
Proof.
  eexists. split; [reflexivity|].
  destruct (X14_optional_embeddings (ext_ok 3)
              (kw_method (Some "cat") (Some "uid.json")) _ eq_refl) as [Hcat _].
  split; [exact Hcat | reflexivity].
Defined.

(** X15: when torch accepts every layer, the constructor returns a model
    exactly when the base constructor returns, the [window_size] it sets is
    odd and, for the methods "init" and "cat", a [uid_path] is given that
    [read_json] can read: there is no other cause of failure. *)
Theorem X15_constructor_succeeds_iff (ext : externals) (kw : kwargs) :
  (forall l, nn_new ext l = Ok tt) ->
  is_ok (__init__ ext kw) = true <->
  exists b,
    super_init ext kw = Ok b /\
    Z.odd (window_size b) = true /\
    (method_is (kw_user_embed_method kw) "init" || method_is (kw_user_embed_method kw) "cat" = true ->
     exists path uid2index,
       kw_uid_path kw = Some path /\ read_json ext path = Ok uid2index).
Proof.
  intros Hnn. split.
  - destruct (__init__ ext kw) as [m|e] eqn:H; [intros _ | discriminate].
    pose proof H as H0. open_init H0. exists b.
    apply kernel_padding_ok_inv in Hpad. destruct Hpad as [_ Hodd].
    repeat split; try assumption.
    intros Hm. unfold build_user_embedding in Hue. rewrite Hm in Hue.
    destruct (kw_uid_path kw) as [path|]; [|discriminate].
    rbind_inv Hue as u Hu. eauto.
  - intros [b [Hsuper [Hodd Hpath]]].
    unfold __init__. rewrite Hsuper. cbn [rbind].
    rewrite (kernel_padding_odd _ Hodd). cbn [rbind].
    unfold new. rewrite !Hnn. cbn [rbind].
    destruct (truthy _ || truthy _); cbn [rbind]; rewrite ?Hnn; cbn [rbind];
      unfold build_user_embedding;
      (destruct (method_is _ "init" || method_is _ "cat");
       [ destruct (Hpath eq_refl) as [path [u [-> ->]]]; cbn [rbind];
         unfold new; rewrite ?Hnn; reflexivity
       | cbn [rbind]; rewrite ?Hnn; reflexivity ]).
Qed.

Lemma X15_constructor_succeeds_iff_witness :
  is_ok (__init__ (ext_ok 5) (kw_method (Some "init") (Some "uid.json"))) = true.
Proof.
  apply (proj2 (X15_constructor_succeeds_iff (ext_ok 5)
                  (kw_method (Some "init") (Some "uid.json")) (fun _ => eq_refl))).
  exists {| window_size := 5; embedding_dim := 300; attention_hidden_dim := 200 |}.
  split; [reflexivity|]. split; [reflexivity|].
  intros _. exists "uid.json", [("U1", 1); ("U2", 2)]. split; reflexivity.
Defined.

(** X16: for a [user_embed_method] other than "init" and "cat" the
    constructor looks at neither [uid_path] nor [read_json]: two calls that
    differ only there give the same result, model or exception. *)
Theorem X16_uid_path_unused_otherwise (ext ext' : externals) (kw kw' : kwargs) :
  method_is (kw_user_embed_method kw) "init" || method_is (kw_user_embed_method kw) "cat" = false ->
  super_init ext' kw' = super_init ext kw ->
  (forall l, nn_new ext' l = nn_new ext l) ->
  kw_category_num kw' = kw_category_num kw ->
  kw_num_filters kw' = kw_num_filters kw ->
  kw_use_category kw' = kw_use_category kw ->
  kw_use_subcategory kw' = kw_use_subcategory kw ->
  kw_user_embed_method kw' = kw_user_embed_method kw ->
  kw_user_num kw' = kw_user_num kw ->
  __init__ ext' kw' = __init__ ext kw.
Proof.
  intros Hm Hsuper Hnn H1 H2 H3 H4 H5 H6.
  unfold __init__, build_user_embedding, new.
  rewrite Hsuper, H1, H2, H3, H4, H5, H6, Hm.
  destruct (super_init ext kw) as [b|e]; [|reflexivity]. cbn [rbind].
  destruct (kernel_padding (window_size b)) as [p|e]; [|reflexivity]. cbn [rbind].
  now rewrite !Hnn.
Qed.

Lemma X16_uid_path_unused_otherwise_witness :
  __init__ (ext_ok 3) (kw_method (Some "gru") (Some "no_such_file.json"))
  = __init__ (ext_ok 3) (kw_method (Some "gru") None).
Proof.
  apply (X16_uid_path_unused_otherwise (ext_ok 3) (ext_ok 3)
           (kw_method (Some "gru") None) (kw_method (Some "gru") (Some "no_such_file.json")));
    intros; reflexivity.
Defined.

End LSTURModelFacts.

(* ================================================================== *)
(** ** More on the validation pass                                      *)
(* ================================================================== *)

Module ValidationFacts.
Import Trainer Runs TrainerFacts Evaluate.

Lemma bind_frame {X A B} (f : world -> X) (c : M A) (k : A -> M B) (w : world) :
  (forall a, preserves f (k a)) -> f (fst (bind c k w)) = f (fst (c w)).
Proof.
  intros Hk. unfold bind. destruct (c w) as [w1 [a|e]]; simpl; [apply Hk | reflexivity].
Qed.

(** The weight file is written by [save_weight_file] only, the calls grow by
    [record_call] and [save_weight_file] only, the step is set by [set_step]
    only. *)
Lemma file_set_training m : preserves weight_file (set_training m).
Proof. intros w. reflexivity. Qed.
Lemma file_set_step s : preserves weight_file (set_step s).
Proof. intros w. reflexivity. Qed.
Lemma file_record_call c : preserves weight_file (record_call c).
Proof. intros w. reflexivity. Qed.
Lemma step_set_training m : preserves step (set_training m).
Proof. intros w. reflexivity. Qed.
Lemma step_record_call c : preserves step (record_call c).
Proof. intros w. reflexivity. Qed.
Lemma step_save_weight_file d : preserves step (save_weight_file d).
Proof. intros w. reflexivity. Qed.
Lemma calls_set_training m : preserves calls (set_training m).
Proof. intros w. reflexivity. Qed.
Lemma calls_set_step s : preserves calls (set_step s).
Proof. intros w. reflexivity. Qed.

#[local] Hint Resolve preserves_ret preserves_lift preserves_bind
  preserves_try_except preserves_if preserves_load
  file_set_training file_set_step file_record_call
  step_set_training step_record_call step_save_weight_file
  calls_set_training calls_set_step : frame.

Lemma step_save_weights wd : preserves step (save_weights wd).
Proof.
  unfold save_weights. apply preserves_bind; auto with frame.
  intros [old|]; auto with frame.
Qed.

#[local] Hint Resolve step_save_weights : frame.

Lemma step_valid_epoch self ext : preserves step (_valid_epoch self ext).
Proof.
  unfold _valid_epoch, valid_epoch_body, build_news_embeds.
  auto 30 with frame.
Qed.

Lemma file_build_news_embeds self ext :
  preserves weight_file (build_news_embeds self ext).
Proof. unfold build_news_embeds. auto 10 with frame. Qed.

Lemma calls_build_news_embeds self ext w :
  calls (fst (build_news_embeds self ext w))
  = calls w ++ (if eligible self then [GetNewsEmbeds] else []).
Proof.
  unfold build_news_embeds, try_except, bind, record_call, lift, ret.
  destruct (eligible self); simpl; [|now rewrite app_nil_r].
  destruct (get_news_embeds ext) as [e|x]; simpl; [reflexivity|].
  now destruct (isinstance x (py_or KeyError RuntimeError)).
Qed.

(** What follows the cache build when no weights are written. *)
Lemma after_build_preserves {X} (f : world -> X) self ext (embeds : option news_embeds) :
  return_weight self && is_main_process self = false ->
  preserves f
    (bind (lift (valid_loop self ext 0 (valid_loader ext embeds) locals0)) (fun loc =>
     bind (lift (gather_dict ext (result_dict loc))) (fun gathered =>
     bind (if evaluate_topic self
           then bind (lift (topic_evaluation ext))
                  (fun t => ret (dict_update (average ext gathered) t))
           else ret (average ext gathered)) (fun eval_result =>
     bind (if return_weight self && is_main_process self
           then save_weights (weight_dict loc) else ret tt) (fun _ =>
     bind (lift (del_batch_dict loc)) (fun _ => ret eval_result)))))).
Proof. intros ->. auto 30 with frame. Qed.

(** X1: a validation pass that does not capture weights (no [return_weight],
    or not the main process) never calls [torch.save] and leaves the weight
    file as it was, whether it returns or raises; it ends in evaluation mode
    with the step counter as it was. *)
Theorem X1_no_capture_no_write (self : trainer) (ext : externals)
    (w w' : world) (r : result row) :
  return_weight self && is_main_process self = false ->
  _valid_epoch self ext w = (w', r) ->
  weight_file w' = weight_file w /\
  (exists added, calls w' = calls w ++ added /\ ~ In TorchSave added) /\
  step w' = step w /\
  training w' = false.
Proof.
  intros Hoff H.
  assert (Hw' : w' = fst (_valid_epoch self ext w)) by now rewrite H.
  subst w'. clear H.
  split; [|split; [|split]].
  - unfold _valid_epoch, valid_epoch_body.
    change (bind (set_training false) ?k w) with (k tt (fst (set_training false w))).
    cbv beta. rewrite bind_frame by (intros a; now apply after_build_preserves).
    now rewrite file_build_news_embeds.
  - exists (if eligible self then [GetNewsEmbeds] else []). split.
    + unfold _valid_epoch, valid_epoch_body.
      change (bind (set_training false) ?k w) with (k tt (fst (set_training false w))).
      cbv beta. rewrite bind_frame by (intros a; now apply after_build_preserves).
      now rewrite calls_build_news_embeds.
    + destruct (eligible self); simpl; [intros [H | []]; discriminate | tauto].
  - apply step_valid_epoch.
  - apply valid_epoch_leaves_eval_mode.
Qed.

Lemma X1_no_capture_no_write_witness :
  let run := _valid_epoch (trainer_of no_config 10) (ext_ok 0 (dy 0 0) 1 0)
               (world_with prior_dump) in
  weight_file (fst run) = Some prior_dump /\
  (exists added, calls (fst run) = [] ++ added /\ ~ In TorchSave added) /\
  step (fst run) = 0 /\
  training (fst run) = false.
Proof.
  apply (X1_no_capture_no_write (trainer_of no_config 10) (ext_ok 0 (dy 0 0) 1 0)
           (world_with prior_dump) _ _ eq_refl (surjective_pairing _)).
Defined.

(** ** The cache of news embeddings in the pass *)

Lemma valid_epoch_body_after_build self ext :
  valid_epoch_body self ext = bind (build_news_embeds self ext) (after_build self ext).
Proof. reflexivity. Qed.

(** The [try] statement, run. *)
Lemma build_news_embeds_run self ext w :
  build_news_embeds self ext w
  = if eligible self then
      match get_news_embeds ext with
      | Ok e => (fst (record_call GetNewsEmbeds w), Ok (Some e))
      | Raise x =>
          if isinstance x KeyError
          then (fst (record_call GetNewsEmbeds w), Ok None)
          else (fst (record_call GetNewsEmbeds w), Raise x)
      end
    else (w, Ok None).
Proof.
  unfold build_news_embeds, try_except, bind, record_call, lift, ret.
  destruct (eligible self); [|reflexivity].
  destruct (get_news_embeds ext) as [e|x]; simpl; [reflexivity|].
  change (py_or KeyError RuntimeError) with KeyError.
  now destruct (isinstance x KeyError).
Qed.

Lemma calls_save_weights wd w :
  calls (fst (save_weights wd w)) = calls w \/
  calls (fst (save_weights wd w)) = calls w ++ [TorchSave].
Proof.
  unfold save_weights, bind, load_weight_file, save_weight_file, lift, ret.
  destruct (weight_file w) as [old|]; simpl; [|now right].
  destruct (extend_old (dict_keys wd) wd old); simpl; [now right | now left].
Qed.

(** What follows the [try] statement calls no [get_news_embeds]. *)
Lemma calls_after_build self ext embeds w :
  exists others,
    calls (fst (after_build self ext embeds w)) = calls w ++ others /\
    ~ In GetNewsEmbeds others.
Proof.
  assert (Hsame : forall w1 : world, calls w1 = calls w ->
            exists others, calls w1 = calls w ++ others /\ ~ In GetNewsEmbeds others).
  { intros w1 H. exists []. rewrite app_nil_r. auto. }
  unfold after_build. unfold bind at 1. unfold lift at 1.
  destruct (valid_loop self ext 0 (valid_loader ext embeds) locals0) as [loc|e];
    [|now apply Hsame].
  unfold bind at 1. unfold lift at 1.
  destruct (gather_dict ext (result_dict loc)) as [gathered|e]; [|now apply Hsame].
  unfold bind at 1.
  assert (Htopic : forall eval_result : row,
            exists others,
              calls (fst (bind (if return_weight self && is_main_process self
                                then save_weights (weight_dict loc) else ret tt)
                            (fun _ => bind (lift (del_batch_dict loc))
                                        (fun _ => ret eval_result)) w))
              = calls w ++ others /\ ~ In GetNewsEmbeds others).
  { intros eval_result. unfold bind at 1.
    destruct (return_weight self && is_main_process self).
    - pose proof (calls_save_weights (weight_dict loc) w) as Hs.
      destruct (save_weights (weight_dict loc) w) as [w2 [[]|e]]; simpl in Hs.
      + unfold bind, lift, ret. destruct (del_batch_dict loc); simpl;
          (destruct Hs as [-> | ->];
           [ exists []; rewrite app_nil_r; auto
           | exists [TorchSave]; split; [reflexivity|];
             intros [H | []]; discriminate ]).
      + simpl. destruct Hs as [-> | ->];
          [ exists []; rewrite app_nil_r; auto
          | exists [TorchSave]; split; [reflexivity|];
            intros [H | []]; discriminate ].
    - unfold ret at 1. unfold bind, lift, ret.
      destruct (del_batch_dict loc); now apply Hsame. }
  destruct (evaluate_topic self).
  - unfold bind at 1. unfold lift at 1.
    destruct (topic_evaluation ext) as [t|e]; [|now apply Hsame].
    unfold ret at 1. apply Htopic.
  - unfold ret at 1. apply Htopic.
Qed.

(** What follows the [try] statement is the loop over the batches of the
    loader made for [embeds]. *)
Lemma after_build_loop self ext embeds w w' r :
  after_build self ext embeds w = (w', r) ->
  (forall row, r = Ok row ->
     exists loc gathered,
       valid_loop self ext 0 (valid_loader ext embeds) locals0 = Ok loc /\
       gather_dict ext (result_dict loc) = Ok gathered /\
       (evaluate_topic self = false -> row = average ext gathered)) /\
  (forall e, valid_loop self ext 0 (valid_loader ext embeds) locals0 = Raise e ->
             r = Raise e).
Proof.
  unfold after_build. intros H. split.
  - intros row ->.
    apply bind_ok_inv in H. destruct H as [w1 [loc [Hloop H]]].
    apply lift_ok_inv in Hloop. destruct Hloop as [-> Hloop].
    apply bind_ok_inv in H. destruct H as [w2 [gathered [Hg H]]].
    apply lift_ok_inv in Hg. destruct Hg as [-> Hg].
    apply bind_ok_inv in H. destruct H as [w3 [eval_result [Ht H]]].
    apply bind_ok_inv in H. destruct H as [w4 [[] [_ H]]].
    apply bind_ok_inv in H. destruct H as [w5 [[] [_ H]]].
    unfold ret in H. injection H as _ <-.
    exists loc, gathered. repeat split; try assumption.
    intros Hoff. rewrite Hoff in Ht. unfold ret in Ht. now injection Ht as _ <-.
  - intros e He. unfold bind at 1 in H. unfold lift at 1 in H. rewrite He in H.
    now injection H as _ <-.
Qed.

(** C6: in [_valid_epoch] the cache of news embeddings is built (that is,
    [get_news_embeds] is called) exactly when [valid_method] is
    "fast_evaluation", attention weights are not requested, the entropy loss
    is not in use and the topic variant is not "variational_topic";
    [news_embeds] is a cache exactly when moreover the build returned it, and
    [None] in every other case; and the pass is the loop over the loader made
    for that [news_embeds]: a result returned is the average over the rows of
    that loop, and an exception of that loop is the exception of the pass. *)
Theorem C6_fast_evaluation_eligibility (self : trainer) (ext : externals)
    (w w' : world) (r : result row) :
  _valid_epoch self ext w = (w', r) ->
  let cond := valid_method self = "fast_evaluation" /\
              return_weight self = false /\
              with_entropy self = false /\
              topic_variant self <> "variational_topic" in
  let news_embeds :=
    if eligible self
    then match get_news_embeds ext with Ok e => Some e | Raise _ => None end
    else None in
  (cond <-> exists others, calls w' = calls w ++ GetNewsEmbeds :: others) /\
  (~ cond -> news_embeds = None) /\
  (forall e, news_embeds = Some e <-> cond /\ get_news_embeds ext = Ok e) /\
  (forall row, r = Ok row ->
     exists loc gathered,
       valid_loop self ext 0 (valid_loader ext news_embeds) locals0 = Ok loc /\
       gather_dict ext (result_dict loc) = Ok gathered /\
       (evaluate_topic self = false -> row = average ext gathered)) /\
  (forall e,
     valid_loop self ext 0 (valid_loader ext news_embeds) locals0 = Raise e ->
     (eligible self = true ->
      forall x, get_news_embeds ext = Raise x -> isinstance x KeyError = true) ->
     r = Raise e).
Proof.
  intros H cond news_embeds.
  unfold _valid_epoch in H. unfold bind at 1 in H. unfold set_training at 1 in H.
  rewrite valid_epoch_body_after_build in H.
  set (w0 := {| training := false; step := step w; weight_file := weight_file w;
                calls := calls w |}) in H.
  unfold bind in H. rewrite build_news_embeds_run in H.
  assert (Hcond : cond <-> eligible self = true) by (symmetry; apply eligible_spec).
  split; [|split; [|split]].
  - (* the call *)
    destruct (eligible self) eqn:He.
    + split; [intros _ | intros _; now apply Hcond].
      assert (Hafter : forall embeds,
                after_build self ext embeds (fst (record_call GetNewsEmbeds w0)) = (w', r) ->
                exists others, calls w' = calls w ++ GetNewsEmbeds :: others).
      { intros embeds Ha.
        destruct (calls_after_build self ext embeds (fst (record_call GetNewsEmbeds w0)))
          as [others [Hc _]].
        rewrite Ha in Hc. simpl in Hc. exists others. now rewrite Hc, <- app_assoc. }
      destruct (get_news_embeds ext) as [e|x]; [now apply (Hafter (Some e))|].
      destruct (isinstance x KeyError); [now apply (Hafter None)|].
      injection H as <- _. exists []. reflexivity.
    + split; [intros Hc; apply Hcond in Hc; discriminate|].
      intros [others Hc]. exfalso.
      destruct (calls_after_build self ext None w0) as [others' [Hc' Hnot]].
      rewrite H in Hc'. simpl in Hc'. rewrite Hc' in Hc.
      apply app_inv_head in Hc. subst others'. apply Hnot. now left.
  - intros Hn. subst news_embeds.
    destruct (eligible self); [exfalso; apply Hn, Hcond; reflexivity | reflexivity].
  - intros e. subst news_embeds. rewrite Hcond.
    destruct (eligible self).
    + destruct (get_news_embeds ext) as [e0|x]; split.
      * intros He. injection He as ->. auto.
      * intros [_ He]. now injection He as ->.
      * discriminate.
      * intros [_ He]. discriminate.
    + split; [discriminate | intros [He _]; discriminate].
  - subst news_embeds. destruct (eligible self).
    + destruct (get_news_embeds ext) as [e0|x].
      * destruct (after_build_loop _ _ _ _ _ _ H) as [Hok Hraise].
        split; [exact Hok | intros e He _; now apply Hraise].
      * destruct (isinstance x KeyError) eqn:Hx.
        -- destruct (after_build_loop _ _ _ _ _ _ H) as [Hok Hraise].
           split; [exact Hok | intros e He _; now apply Hraise].
        -- injection H as _ <-. split; [discriminate|].
           intros e _ Hkey. rewrite (Hkey eq_refl x eq_refl) in Hx. discriminate.
    + destruct (after_build_loop _ _ _ _ _ _ H) as [Hok Hraise].
      split; [exact Hok | intros e He _; now apply Hraise].
Qed.

Lemma C6_fast_evaluation_eligibility_witness :
  let self := trainer_of no_config 10 in
  let ext := ext_ok 0 (dy 0 0) 1 10 in
  let run := _valid_epoch self ext world0 in
  (exists others, calls (fst run) = calls world0 ++ GetNewsEmbeds :: others) /\
  is_ok (snd run) = true /\
  forall row, snd run = Ok row ->
    exists loc gathered,
      valid_loop self ext 0 (valid_loader ext (Some [[dy 1 1]])) locals0 = Ok loc /\
      gather_dict ext (result_dict loc) = Ok gathered /\
      (evaluate_topic self = false -> row = average ext gathered).
Proof.
  intros self ext run.
  destruct (C6_fast_evaluation_eligibility self ext world0 _ _ (surjective_pairing _))
    as [Hcall [_ [_ [Hok _]]]].
  split; [|split].
  - apply Hcall. repeat split; try reflexivity. discriminate.
  - reflexivity.
  - exact Hok.
Defined.

(** ** The weight file of a capturing pass *)

Lemma extend_old_missing_key (keys : list string) (old : weight_dump) (key : string) :
  In key keys -> ~ In key (dict_keys old) ->
  forall wd, extend_old keys wd old = Raise KeyError.
Proof.
  intros Hin Hmiss. induction keys as [|k rest IH]; intros wd; simpl.
  - contradiction.
  - unfold dict_getitem.
    destruct (dict_get String.eqb k old) as [o|] eqn:Ho; simpl; [|reflexivity].
    destruct Hin as [-> | Hin].
    + apply (dict_get_none_notin _ _ _ String.eqb_eq) in Hmiss. congruence.
    + now apply IH.
Qed.

(** A capturing pass up to line 255, run forwards. *)
Lemma capturing_pass_run self ext w loc :
  return_weight self = true ->
  is_main_process self = true ->
  valid_loop self ext 0 (valid_loader ext None) locals0 = Ok loc ->
  let w1 := fst (set_training false w) in
  _valid_epoch self ext w
  = match gather_dict ext (result_dict loc) with
    | Raise e => (w1, Raise e)
    | Ok gathered =>
        match (if evaluate_topic self
               then rbind (topic_evaluation ext)
                      (fun t => Ok (dict_update (average ext gathered) t))
               else Ok (average ext gathered)) with
        | Raise e => (w1, Raise e)
        | Ok eval_result =>
            match save_weights (weight_dict loc) w1 with
            | (w2, Raise e) => (w2, Raise e)
            | (w2, Ok _) =>
                (w2, rbind (del_batch_dict loc) (fun _ => Ok eval_result))
            end
        end
    end.
Proof.
  intros Hrw Hmain Hloop w1. subst w1.
  unfold _valid_epoch, valid_epoch_body, build_news_embeds, try_except.
  rewrite (return_weight_not_eligible _ Hrw), Hrw, Hmain.
  unfold bind at 1. unfold set_training at 1.
  unfold bind at 1. unfold ret at 1.
  unfold bind at 1. unfold lift at 1. rewrite Hloop.
  unfold bind at 1. unfold lift at 1. simpl fst.
  destruct (gather_dict ext (result_dict loc)) as [gathered|e]; [|reflexivity].
  unfold bind at 1.
  destruct (evaluate_topic self).
  - unfold bind at 1. unfold lift at 1.
    destruct (topic_evaluation ext) as [t|e]; simpl; [|reflexivity].
    unfold bind at 1.
    destruct (save_weights (weight_dict loc) _) as [w2 [[]|e]]; [|reflexivity].
    unfold bind, lift, ret. now destruct (del_batch_dict loc).
  - unfold ret at 1. simpl.
    unfold bind at 1.
    destruct (save_weights (weight_dict loc) _) as [w2 [[]|e]]; [|reflexivity].
    unfold bind, lift, ret. now destruct (del_batch_dict loc).
Qed.

Lemma capturing_pass_reaches_save self ext w w' r loc :
  return_weight self = true ->
  is_main_process self = true ->
  valid_loop self ext 0 (valid_loader ext None) locals0 = Ok loc ->
  gathers self ext loc ->
  _valid_epoch self ext w = (w', r) ->
  exists eval_result,
    (w', r) = match save_weights (weight_dict loc) (fst (set_training false w)) with
              | (w2, Raise e) => (w2, Raise e)
              | (w2, Ok _) =>
                  (w2, rbind (del_batch_dict loc) (fun _ => Ok eval_result))
              end.
Proof.
  intros Hrw Hmain Hloop [Hg Ht] H.
  rewrite (capturing_pass_run _ _ _ _ Hrw Hmain Hloop) in H. cbv zeta in H.
  destruct (gather_dict ext (result_dict loc)) as [gathered|e]; [|discriminate].
  destruct (evaluate_topic self).
  - specialize (Ht eq_refl).
    destruct (topic_evaluation ext) as [t|e]; [|discriminate]. simpl in H.
    eexists. symmetry. exact H.
  - eexists. symmetry. exact H.
Qed.

(** X2: the first capturing pass (no file on disk yet) writes exactly the
    captured dict, one [torch.save], once the gathering has passed. *)
Theorem X2_first_dump_is_the_capture (self : trainer) (ext : externals)
    (w w' : world) (r : result row) (loc : locals) :
  return_weight self = true ->
  is_main_process self = true ->
  weight_file w = None ->
  valid_loop self ext 0 (valid_loader ext None) locals0 = Ok loc ->
  gathers self ext loc ->
  _valid_epoch self ext w = (w', r) ->
  weight_file w' = Some (weight_dict loc) /\
  calls w' = calls w ++ [TorchSave].
Proof.
  intros Hrw Hmain Hfile Hloop Hg H.
  destruct (capturing_pass_reaches_save _ _ _ _ _ _ Hrw Hmain Hloop Hg H)
    as [eval_result Hrun].
  unfold save_weights, bind, load_weight_file, save_weight_file, ret in Hrun.
  simpl in Hrun. rewrite Hfile in Hrun. simpl in Hrun.
  injection Hrun as -> _. simpl. auto.
Qed.

Lemma X2_first_dump_is_the_capture_witness :
  weight_file after_first_pass
  = match valid_loop capturing (ext_ok 0 (dy 0 0) 1 0) 0 (valid_batches 0 1) locals0 with
    | Ok loc => Some (weight_dict loc)
    | Raise _ => None
    end /\
  calls after_first_pass = [TorchSave].
Proof.
  destruct (valid_loop capturing (ext_ok 0 (dy 0 0) 1 0) 0 (valid_batches 0 1) locals0)
    as [loc|e] eqn:Hloop; [|vm_compute in Hloop; discriminate Hloop].
  apply (X2_first_dump_is_the_capture capturing (ext_ok 0 (dy 0 0) 1 0)
           world0 after_first_pass
           (snd (_valid_epoch capturing (ext_ok 0 (dy 0 0) 1 0) world0)) loc
           eq_refl eq_refl eq_refl Hloop).
  - split; [reflexivity | discriminate].
  - apply surjective_pairing.
Defined.

(** X3: when the prior dump on disk lacks a field that this pass captured,
    the merge raises [KeyError]: the pass does not return its metrics, and
    the file on disk stays as it was (nothing is saved). *)
Theorem X3_prior_dump_missing_field (self : trainer) (ext : externals)
    (w w' : world) (r : result row) (loc : locals) (prior : weight_dump)
    (key : string) :
  return_weight self = true ->
  is_main_process self = true ->
  weight_file w = Some prior ->
  valid_loop self ext 0 (valid_loader ext None) locals0 = Ok loc ->
  gathers self ext loc ->
  In key (dict_keys (weight_dict loc)) ->
  ~ In key (dict_keys prior) ->
  _valid_epoch self ext w = (w', r) ->
  r = Raise KeyError /\
  weight_file w' = Some prior /\
  calls w' = calls w.
Proof.
  intros Hrw Hmain Hfile Hloop Hg Hin Hmiss H.
  destruct (capturing_pass_reaches_save _ _ _ _ _ _ Hrw Hmain Hloop Hg H)
    as [eval_result Hrun].
  unfold save_weights, bind, load_weight_file, lift in Hrun.
  simpl in Hrun. rewrite Hfile in Hrun.
  rewrite (extend_old_missing_key _ _ _ Hin Hmiss) in Hrun.
  injection Hrun as -> ->. simpl. auto.
Qed.

(** X4: with weight capture on and an empty validation loader, the pass
    overwrites the dump on disk with an empty dict and only then fails at
    [del batch_dict]: the prior dump is lost. *)
Theorem X4_empty_loader_erases_dump (self : trainer) (ext : externals)
    (w w' : world) (r : result row) (prior : option weight_dump) :
  return_weight self = true ->
  is_main_process self = true ->
  weight_file w = prior ->
  valid_loader ext None = [] ->
  gathers self ext locals0 ->
  _valid_epoch self ext w = (w', r) ->
  r = Raise UnboundLocalError /\
  weight_file w' = Some [] /\
  calls w' = calls w ++ [TorchSave].
Proof.
  intros Hrw Hmain Hfile Hempty Hg H.
  assert (Hloop : valid_loop self ext 0 (valid_loader ext None) locals0 = Ok locals0)
    by now rewrite Hempty.
  destruct (capturing_pass_reaches_save _ _ _ _ _ _ Hrw Hmain Hloop Hg H)
    as [eval_result Hrun].
  unfold save_weights, bind, load_weight_file, save_weight_file, lift, ret in Hrun.
  simpl in Hrun.
  destruct (weight_file w); simpl in Hrun; injection Hrun as -> ->; simpl; auto.
Qed.

Lemma X3_prior_dump_missing_field_witness :
  let run := _valid_epoch capturing (ext_ok 0 (dy 0 0) 1 0) (world_with label_only) in
  snd run = Raise KeyError /\
  weight_file (fst run) = Some label_only /\
  calls (fst run) = [].
Proof.
  apply (X3_prior_dump_missing_field capturing (ext_ok 0 (dy 0 0) 1 0)
           (world_with label_only) _ _ (captured_locals 1) label_only
           "impression_index" eq_refl eq_refl eq_refl eq_refl).
  - split; [reflexivity | discriminate].
  - vm_compute. auto.
  - simpl. intros [H | []]. discriminate H.
  - apply surjective_pairing.
Defined.

Lemma X4_empty_loader_erases_dump_witness :
  let run := _valid_epoch capturing (ext_ok 0 (dy 0 0) 0 0) (world_with prior_dump) in
  snd run = Raise UnboundLocalError /\
  weight_file (fst run) = Some [] /\
  calls (fst run) = [TorchSave].
Proof.
  apply (X4_empty_loader_erases_dump capturing (ext_ok 0 (dy 0 0) 0 0)
           (world_with prior_dump) _ _ (Some prior_dump)
           eq_refl eq_refl eq_refl eq_refl).
  - split; [reflexivity | discriminate].
  - apply surjective_pairing.
Defined.

(** ** What a batch must look like to be validated *)

Lemma getitem_ok_lt {A} (l : list A) (i : nat) (a : A) :
  getitem l i = Ok a -> (i < List.length l)%nat.
Proof.
  unfold getitem. destruct (nth_error l i) eqn:Hn; [|discriminate].
  intros _. apply nth_error_Some. congruence.
Qed.

Lemma impressions_each self ext b out pred (idx : list nat) :
  forall st st',
  impressions self ext b out pred idx st = Ok st' ->
  forall i, In i idx -> exists sti sti', impression self ext b out pred i sti = Ok sti'.
Proof.
  induction idx as [|j idx IH]; intros st st' H i Hin; simpl in *.
  - contradiction.
  - rbind_inv H as st1 H1. destruct Hin as [<- | Hin]; eauto.
Qed.

Lemma impression_ok_lookups self ext b out pred i st st' :
  impression self ext b out pred i st = Ok st' ->
  (i < List.length (impression_index b))%nat /\
  (metric_funcs ext <> [] \/ return_weight self = true ->
   (i < List.length (candidate_length b))%nat /\
   (i < List.length pred)%nat) /\
  (return_weight self = true ->
   (i < List.length (candidate_index b))%nat /\
   (i < List.length (history_index b))%nat /\
   (i < List.length (history_length b))%nat).
Proof.
  intros H. unfold impression in H.
  rbind_inv H as index Hidx. rbind_inv H as r Hr. cbv zeta in H.
  split; [eapply getitem_ok_lt; eassumption|].
  assert (Hsaved : return_weight self = true ->
            (i < List.length (candidate_length b))%nat /\
            (i < List.length pred)%nat /\
            (i < List.length (candidate_index b))%nat /\
            (i < List.length (history_index b))%nat /\
            (i < List.length (history_length b))%nat).
  { intros Hrw. rewrite Hrw in H. rbind_inv H as items Hitems.
    unfold saved_items in Hitems.
    rbind_inv Hitems as lab Hl. rbind_inv Hitems as c1 Hc1.
    rbind_inv Hitems as cand Hcand. rbind_inv Hitems as c2 Hc2.
    rbind_inv Hitems as hist Hhist. rbind_inv Hitems as h Hh.
    rbind_inv Hitems as p Hp.
    repeat split; eapply getitem_ok_lt; eassumption. }
  split.
  - intros [Hms | Hrw]; [|now destruct (Hsaved Hrw) as (? & ? & _)].
    destruct (metric_funcs ext) as [|m ms]; [congruence|].
    simpl in Hr.
    rbind_inv Hr as lab Hl. rbind_inv Hr as c Hc. rbind_inv Hr as p Hp.
    split; eapply getitem_ok_lt; eassumption.
  - intros Hrw. now destruct (Hsaved Hrw) as (_ & _ & ? & ? & ?).
Qed.

(** X5: a batch is validated only if the model returns a "pred" output and
    every field the loop reads has a row for each of the [len(label)]
    impressions: the impression indices always, the candidate lengths and
    the scores as soon as a metric is configured or weights are captured,
    the candidate and history fields when weights are captured.  A shorter
    field ends the pass with an exception. *)
Theorem X5_validated_batch_is_aligned (self : trainer) (ext : externals)
    (b : batch) (st st' : result_table * weight_dump) :
  valid_batch self ext b st = Ok st' ->
  exists out pred,
    forward ext b = Ok out /\
    dict_get String.eqb "pred" out = Some pred /\
    let n := List.length (label b) in
    (n <= List.length (impression_index b))%nat /\
    (metric_funcs ext <> [] \/ return_weight self = true ->
     (n <= List.length (candidate_length b))%nat /\ (n <= List.length pred)%nat) /\
    (return_weight self = true ->
     (n <= List.length (candidate_index b))%nat /\
     (n <= List.length (history_index b))%nat /\
     (n <= List.length (history_length b))%nat).
Proof.
  intros H. unfold valid_batch in H.
  rbind_inv H as out Hout. rbind_inv H as pred Hpred.
  exists out, pred. split; [exact Hout|]. split.
  { unfold dict_getitem in Hpred.
    destruct (dict_get String.eqb "pred" out); [congruence | discriminate]. }
  intros n. subst n.
  destruct (List.length (label b)) as [|n] eqn:Hn.
  { repeat split; lia. }
  assert (Hlast : In n (seq 0 (S n))) by (apply in_seq; lia).
  destruct (impressions_each _ _ _ _ _ _ _ _ H n Hlast) as [sti [sti' Hi]].
  destruct (impression_ok_lookups _ _ _ _ _ _ _ _ Hi) as [Hidx [Hcan Hcap]].
  split; [lia|]. split.
  - intros Hc. destruct (Hcan Hc). lia.
  - intros Hrw. destruct (Hcap Hrw) as (? & ? & ?). lia.
Qed.

Lemma X5_validated_batch_is_aligned_witness :
  exists out pred,
    forward (ext_ok 7 (dy 9 0) 1 0) (batch2 7 11 12) = Ok out /\
    dict_get String.eqb "pred" out = Some pred /\
    let n := List.length (label (batch2 7 11 12)) in
    (n <= List.length (impression_index (batch2 7 11 12)))%nat /\
    (metric_funcs (ext_ok 7 (dy 9 0) 1 0) <> [] \/ return_weight capturing = true ->
     (n <= List.length (candidate_length (batch2 7 11 12)))%nat /\
     (n <= List.length pred)%nat) /\
    (return_weight capturing = true ->
     (n <= List.length (candidate_index (batch2 7 11 12)))%nat /\
     (n <= List.length (history_index (batch2 7 11 12)))%nat /\
     (n <= List.length (history_length (batch2 7 11 12)))%nat).
Proof.
  apply (X5_validated_batch_is_aligned capturing (ext_ok 7 (dy 9 0) 1 0)
           (batch2 7 11 12) ([], [])
           (match valid_batch capturing (ext_ok 7 (dy 9 0) 1 0) (batch2 7 11 12) ([], [])
            with Ok s => s | Raise _ => ([], []) end)).
  reflexivity.
Defined.

(** X6: when the model's output has no "pred" entry, the [KeyError] of line
    201 ends the pass: it is raised after the [try] block of lines 164-182,
    so it is not turned into slow evaluation, whatever the cache build did
    short of raising something else than a [KeyError]. *)
Theorem X6_missing_pred_is_fatal (self : trainer) (ext : externals)
    (w : world) (b : batch) (out : out_dict) :
  (forall embeds, hd_error (valid_loader ext embeds) = Some b) ->
  forward ext b = Ok out ->
  dict_get String.eqb "pred" out = None ->
  (forall e, get_news_embeds ext = Raise e -> isinstance e KeyError = true) ->
  snd (_valid_epoch self ext w) = Raise KeyError.
Proof.
  intros Hhd Hout Hpred Hbuild.
  assert (Hloop : forall embeds,
             valid_loop self ext 0 (valid_loader ext embeds) locals0 = Raise KeyError).
  { intros embeds. specialize (Hhd embeds).
    destruct (valid_loader ext embeds) as [|b' rest]; [discriminate|].
    injection Hhd as ->. simpl. unfold valid_batch, dict_getitem.
    rewrite Hout. simpl. now rewrite Hpred. }
  unfold _valid_epoch, valid_epoch_body, build_news_embeds, try_except, bind,
    set_training, record_call, lift, ret.
  destruct (eligible self); simpl.
  - destruct (get_news_embeds ext) as [e|x] eqn:Hg; simpl.
    + now rewrite Hloop.
    + change (py_or KeyError RuntimeError) with KeyError.
      rewrite (Hbuild x eq_refl). simpl. now rewrite Hloop.
  - now rewrite Hloop.
Qed.

Lemma X6_missing_pred_is_fatal_witness :
  snd (_valid_epoch (trainer_of no_config 10) ext_no_pred world0) = Raise KeyError.
Proof.
  apply (X6_missing_pred_is_fatal (trainer_of no_config 10) ext_no_pred world0
           (batch2 0 0 1) [("candidate_weight", [[dy 1 1]; [dy 1 1]])]
           (fun _ => eq_refl) eq_refl eq_refl).
  intros e H. injection H as <-. reflexivity.
Defined.

(** ** The rows of the result table *)

Lemma in_keys_dict_set {V} (k k' : Z) (v : V) (d : dict Z V) :
  In k (dict_keys (dict_set Z.eqb k' v d)) <-> k = k' \/ In k (dict_keys d).
Proof.
  rewrite dict_keys_set.
  destruct (dict_get Z.eqb k' d) as [v0|] eqn:Hg.
  - split; [tauto|]. intros [-> | H]; [|exact H].
    destruct (in_dec Z.eq_dec k' (dict_keys d)) as [Hin|Hnot]; [exact Hin|].
    apply (dict_get_none_notin _ _ _ Z.eqb_eq) in Hnot. congruence.
  - rewrite in_app_iff. simpl. intuition.
Qed.

Lemma nodup_keys_dict_set {V} (k : Z) (v : V) (d : dict Z V) :
  NoDup (dict_keys d) -> NoDup (dict_keys (dict_set Z.eqb k v d)).
Proof.
  intros Hnd. rewrite dict_keys_set.
  destruct (dict_get Z.eqb k d) as [v0|] eqn:Hg; [exact Hnd|].
  apply (dict_get_none_notin _ _ _ Z.eqb_eq) in Hg.
  apply NoDup_app; [exact Hnd | repeat constructor; simpl; tauto |].
  intros a Ha [<- | []]. contradiction.
Qed.

Lemma impression_result self ext b out pred i st st' :
  impression self ext b out pred i st = Ok st' ->
  exists index r,
    nth_error (impression_index b) i = Some index /\
    fst st' = dict_set Z.eqb index r (fst st).
Proof.
  intros H. unfold impression in H.
  rbind_inv H as index Hidx. rbind_inv H as r Hr. cbv zeta in H.
  exists index, r. split.
  { unfold getitem in Hidx.
    destruct (nth_error (impression_index b) i); [congruence | discriminate]. }
  destruct (return_weight self).
  - rbind_inv H as items Hitems. rbind_inv H as wd Hwd. now injection H as <-.
  - now injection H as <-.
Qed.

Lemma impressions_keys self ext b out pred (idx : list nat) :
  forall st st',
  impressions self ext b out pred idx st = Ok st' ->
  (NoDup (dict_keys (fst st)) -> NoDup (dict_keys (fst st'))) /\
  (forall k, In k (dict_keys (fst st')) <->
     In k (dict_keys (fst st)) \/
     exists i, In i idx /\ nth_error (impression_index b) i = Some k).
Proof.
  induction idx as [|i idx IH]; intros st st' H; simpl in H.
  - injection H as <-. split; [auto|]. intros k. split; [auto|].
    intros [Hk | [i [[] _]]]. exact Hk.
  - rbind_inv H as st1 H1.
    destruct (impression_result _ _ _ _ _ _ _ _ H1) as [index [r [Hidx Hfst]]].
    destruct (IH _ _ H) as [Hnd Hkeys]. split.
    + intros Hnd0. apply Hnd. rewrite Hfst. now apply nodup_keys_dict_set.
    + intros k. rewrite Hkeys, Hfst, in_keys_dict_set. split.
      * intros [[-> | Hk] | [j [Hj Hn]]].
        -- right. exists i. split; [now left | exact Hidx].
        -- now left.
        -- right. exists j. split; [now right | exact Hn].
      * intros [Hk | [j [[<- | Hj] Hn]]].
        -- left. now right.
        -- left. left. congruence.
        -- right. eauto.
Qed.

Lemma in_firstn_nth {A} (n : nat) :
  forall (l : list A) (a : A),
  In a (firstn n l) <-> exists i, (i < n)%nat /\ nth_error l i = Some a.
Proof.
  induction n as [|n IH]; intros l a.
  - simpl. split; [tauto|]. intros [i [Hi _]]. lia.
  - destruct l as [|x l]; simpl.
    + split; [tauto|]. intros [i [_ Hi]]. destruct i; discriminate Hi.
    + rewrite IH. split.
      * intros [-> | [i [Hi Hn]]].
        -- exists 0%nat. split; [lia | reflexivity].
        -- exists (S i). split; [lia | exact Hn].
      * intros [[|i] [Hi Hn]].
        -- left. simpl in Hn. congruence.
        -- right. exists i. split; [lia | exact Hn].
Qed.

Lemma valid_batch_keys self ext b st st' :
  valid_batch self ext b st = Ok st' ->
  (NoDup (dict_keys (fst st)) -> NoDup (dict_keys (fst st'))) /\
  (forall k, In k (dict_keys (fst st')) <->
     In k (dict_keys (fst st)) \/ In k (indices_of b)).
Proof.
  intros H. unfold valid_batch in H.
  rbind_inv H as out Hout. rbind_inv H as pred Hpred.
  destruct (impressions_keys _ _ _ _ _ _ _ _ H) as [Hnd Hkeys].
  split; [exact Hnd|]. intros k. rewrite Hkeys. unfold indices_of.
  rewrite in_firstn_nth. split; intros [Hk | [i [Hi Hn]]]; auto; right; exists i.
  - apply in_seq in Hi. split; [lia | exact Hn].
  - split; [apply in_seq; lia | exact Hn].
Qed.

(** X7: the result table of the loop has exactly one row for every distinct
    impression index of the batches the loop goes through (all of them, or
    with weight capture the first [saved_weight_num + 1]): no impression of
    those batches is left out, no other key appears, and an index that
    occurs twice keeps a single row. *)
Theorem X7_rows_are_the_impressions_reached (self : trainer) (ext : externals)
    (batches : list batch) (loc' : locals) :
  valid_loop self ext 0 batches locals0 = Ok loc' ->
  NoDup (dict_keys (result_dict loc')) /\
  (forall k, In k (dict_keys (result_dict loc')) <->
     exists b, In b (reached self 0 batches) /\ In k (indices_of b)).
Proof.
  assert (Hgen : forall batches vi loc loc',
    valid_loop self ext vi batches loc = Ok loc' ->
    (NoDup (dict_keys (result_dict loc)) -> NoDup (dict_keys (result_dict loc'))) /\
    (forall k, In k (dict_keys (result_dict loc')) <->
       In k (dict_keys (result_dict loc)) \/
       exists b, In b (reached self vi batches) /\ In k (indices_of b))).
  { clear batches loc'.
    induction batches as [|b rest IH]; intros vi loc loc' H; simpl in H.
    - injection H as <-. split; [auto|]. intros k. split; [auto|].
      intros [Hk | [b [Hb _]]]; [exact Hk|].
      unfold reached in Hb. destruct (return_weight self);
        rewrite ?firstn_nil in Hb; contradiction.
    - rbind_inv H as st Hb.
      destruct (valid_batch_keys _ _ _ _ _ Hb) as [Hnd1 Hkeys1].
      simpl in Hnd1, Hkeys1.
      assert (Hreach :
        reached self vi (b :: rest)
        = b :: (if (saved_weight_num self <=? vi) && return_weight self
                then [] else reached self (vi + 1) rest)).
      { unfold reached. destruct (return_weight self); [|now rewrite andb_false_r].
        rewrite andb_true_r, Nat.add_1_r, firstn_cons.
        destruct (saved_weight_num self <=? vi) eqn:Hcap.
        - apply Z.leb_le in Hcap.
          now replace (Z.to_nat (saved_weight_num self - vi)) with 0%nat by lia.
        - apply Z.leb_gt in Hcap.
          now replace (Z.to_nat (saved_weight_num self - vi))
            with (Z.to_nat (saved_weight_num self - (vi + 1)) + 1)%nat by lia. }
      rewrite Hreach.
      destruct ((saved_weight_num self <=? vi) && return_weight self).
      + injection H as <-. simpl. split; [exact Hnd1|].
        intros k. rewrite Hkeys1. split.
        * intros [Hk | Hk]; [now left | right; exists b; auto].
        * intros [Hk | [b' [[<- | []] Hk]]]; auto.
      + destruct (IH _ _ _ H) as [Hnd2 Hkeys2]. simpl in Hnd2, Hkeys2.
        split; [auto|]. intros k. rewrite Hkeys2, Hkeys1. split.
        * intros [[Hk | Hk] | [b' [Hb' Hk]]].
          -- now left.
          -- right. exists b. simpl. auto.
          -- right. exists b'. simpl. auto.
        * intros [Hk | [b' [[<- | Hb'] Hk]]]; auto.
          right. eauto. }
  intros H. destruct (Hgen _ _ _ _ H) as [Hnd Hkeys]. split.
  - apply Hnd. constructor.
  - intros k. rewrite Hkeys. simpl. tauto.
Qed.

Lemma X7_rows_are_the_impressions_reached_witness :
  dict_keys (result_dict (captured_locals 2)) = [0; 1; 2; 3] /\
  (NoDup (dict_keys (result_dict (captured_locals 2))) /\
   (forall k, In k (dict_keys (result_dict (captured_locals 2))) <->
      exists b, In b (reached capturing 0 (valid_batches 0 2)) /\
                In k (indices_of b))).
Proof.
  split; [reflexivity|].
  apply (X7_rows_are_the_impressions_reached capturing (ext_ok 0 (dy 0 0) 2 0)
           (valid_batches 0 2) (captured_locals 2)).
  reflexivity.
Defined.

(** ** The shape of the captured dump *)

Lemma dd_append_keys (k : string) (x : saved) (wd : weight_dump) :
  dict_keys (dd_append k x wd) = add_key (dict_keys wd) k.
Proof.
  unfold dd_append, add_key.
  destruct (dict_get String.eqb k wd) as [l|] eqn:Hg; rewrite dict_keys_set, Hg.
  - destruct (in_dec string_dec k (dict_keys wd)) as [Hin|Hnot]; [reflexivity|].
    apply (dict_get_none_notin _ _ _ String.eqb_eq) in Hnot. congruence.
  - apply (dict_get_none_notin _ _ _ String.eqb_eq) in Hg.
    destruct (in_dec string_dec k (dict_keys wd)); [contradiction | reflexivity].
Qed.

Lemma append_items_keys (items : list (string * saved)) :
  forall wd, dict_keys (append_items items wd)
             = fold_left add_key (map fst items) (dict_keys wd).
Proof.
  induction items as [|[name x] items IH]; intros wd; [reflexivity|].
  unfold append_items. simpl.
  fold (append_items items (dd_append name x wd)).
  now rewrite IH, dd_append_keys.
Qed.

Lemma capture_weights_keys (outs : out_dict) (b : batch) (i : nat) :
  forall wd wd', capture_weights outs b i wd = Ok wd' ->
  dict_keys wd' = fold_left add_key (weight_names outs) (dict_keys wd).
Proof.
  induction outs as [|[name weight] outs IH]; intros wd wd' H; simpl in H.
  - now injection H as <-.
  - unfold weight_names. simpl. fold (weight_names outs).
    destruct (contains "weight" name).
    + rbind_inv H as len _. rbind_inv H as wi _.
      rewrite (IH _ _ H), dd_append_keys. reflexivity.
    + now apply IH.
Qed.

Lemma fold_add_key_fresh (l : list string) :
  forall ks, NoDup (ks ++ l) -> fold_left add_key l ks = ks ++ l.
Proof.
  induction l as [|k l IH]; intros ks Hnd; simpl.
  - now rewrite app_nil_r.
  - assert (Hk : ~ In k ks).
    { apply NoDup_remove_2 in Hnd. rewrite in_app_iff in Hnd. tauto. }
    unfold add_key at 2. destruct (in_dec string_dec k ks); [contradiction|].
    rewrite IH; rewrite <- app_assoc; [reflexivity | exact Hnd].
Qed.

Lemma fold_add_key_present (l : list string) :
  forall ks, incl l ks -> fold_left add_key l ks = ks.
Proof.
  induction l as [|k l IH]; intros ks Hincl; simpl; [reflexivity|].
  unfold add_key at 2.
  destruct (in_dec string_dec k ks) as [Hin|Hnot].
  - apply IH. intros a Ha. apply Hincl. now right.
  - exfalso. apply Hnot, Hincl. now left.
Qed.

Lemma dump_fields_nodup (out : out_dict) :
  NoDup (dict_keys out) -> NoDup (saved_fields ++ weight_names out).
Proof.
  intros Hnd. apply NoDup_app.
  - exact saved_fields_nodup.
  - unfold weight_names. now apply NoDup_filter.
  - intros k Hs Hw. unfold weight_names in Hw. apply filter_In in Hw.
    destruct Hw as [_ Hw].
    apply (count_occ_In string_dec) in Hs.
    rewrite (contains_weight_not_saved _ Hw) in Hs. lia.
Qed.

Lemma count_in_dump_fields (out : out_dict) (k : string) :
  NoDup (dict_keys out) ->
  In k (saved_fields ++ weight_names out) ->
  count_occ string_dec (saved_fields ++ weight_names out) k = 1%nat.
Proof.
  intros Hnd Hin. apply dump_fields_nodup in Hnd.
  pose proof (proj1 (NoDup_count_occ string_dec _) Hnd k) as Hle.
  apply (count_occ_In string_dec) in Hin. lia.
Qed.

Lemma impression_capture self ext b out pred i st st' (k : string) :
  return_weight self = true ->
  impression self ext b out pred i st = Ok st' ->
  dict_keys (snd st')
  = fold_left add_key (saved_fields ++ weight_names out) (dict_keys (snd st)) /\
  List.length (entries k (snd st'))
  = (List.length (entries k (snd st))
     + count_occ string_dec (saved_fields ++ weight_names out) k)%nat.
Proof.
  intros Hrw H. unfold impression in H. rewrite Hrw in H.
  rbind_inv H as index _. rbind_inv H as r _. cbv zeta in H.
  rbind_inv H as items Hitems. rbind_inv H as wd Hwd.
  injection H as <-. cbn [snd].
  pose proof (saved_items_fields _ _ _ _ _ _ Hitems) as Hfields. split.
  - rewrite (capture_weights_keys _ _ _ _ _ Hwd), append_items_keys, Hfields.
    now rewrite fold_left_app.
  - rewrite (length_entries_capture_weights k _ _ _ _ _ Hwd).
    rewrite length_entries_append_items, Hfields, count_occ_app. lia.
Qed.

Lemma impressions_capture self ext b out pred (k : string) (idx : list nat) :
  return_weight self = true ->
  NoDup (dict_keys out) ->
  forall st st',
  impressions self ext b out pred idx st = Ok st' ->
  (dict_keys (snd st) = [] \/
   dict_keys (snd st) = saved_fields ++ weight_names out) ->
  dict_keys (snd st')
  = (if (List.length idx =? 0)%nat then dict_keys (snd st)
     else saved_fields ++ weight_names out) /\
  List.length (entries k (snd st'))
  = (List.length (entries k (snd st))
     + List.length idx
       * count_occ string_dec (saved_fields ++ weight_names out) k)%nat.
Proof.
  intros Hrw Hnd. induction idx as [|i idx IH]; intros st st' H Hkeys; simpl in H.
  - injection H as <-. simpl. split; [reflexivity | lia].
  - rbind_inv H as st1 H1.
    destruct (impression_capture _ _ _ _ _ _ _ _ k Hrw H1) as [Hk1 Hn1].
    assert (Hkeys1 : dict_keys (snd st1) = saved_fields ++ weight_names out).
    { rewrite Hk1. destruct Hkeys as [-> | ->].
      - apply (fold_add_key_fresh _ []). simpl app at 1. now apply dump_fields_nodup.
      - apply fold_add_key_present. apply incl_refl. }
    destruct (IH _ _ H (or_intror Hkeys1)) as [Hk2 Hn2]. split.
    + rewrite Hk2, Hkeys1. cbn [List.length Nat.eqb].
      now destruct (List.length idx =? 0)%nat.
    + rewrite Hn2, Hn1. cbn [List.length]. lia.
Qed.

Lemma reached_cons self vi b rest :
  reached self vi (b :: rest)
  = b :: (if (saved_weight_num self <=? vi) && return_weight self
          then [] else reached self (vi + 1) rest).
Proof.
  unfold reached. destruct (return_weight self); [|now rewrite andb_false_r].
  rewrite andb_true_r, Nat.add_1_r, firstn_cons.
  destruct (saved_weight_num self <=? vi) eqn:Hcap.
  - apply Z.leb_le in Hcap.
    now replace (Z.to_nat (saved_weight_num self - vi)) with 0%nat by lia.
  - apply Z.leb_gt in Hcap.
    now replace (Z.to_nat (saved_weight_num self - vi))
      with (Z.to_nat (saved_weight_num self - (vi + 1)) + 1)%nat by lia.
Qed.

(** X8: when the model names the same attention outputs on every batch, the
    captured dump is rectangular: its fields are the six fields of
    [saved_items] followed by the outputs whose name contains "weight", in
    the model's order, and every field holds exactly one entry per
    impression of the batches the loop went through. *)
Theorem X8_dump_is_rectangular (self : trainer) (ext : externals)
    (batches : list batch) (loc : locals) (names : list string) (k : string) :
  return_weight self = true ->
  (forall b out, forward ext b = Ok out ->
                 NoDup (dict_keys out) /\ weight_names out = names) ->
  valid_loop self ext 0 batches locals0 = Ok loc ->
  let n := impressions_in (reached self 0 batches) in
  dict_keys (weight_dict loc)
  = (if (n =? 0)%nat then [] else saved_fields ++ names) /\
  (In k (saved_fields ++ names) -> List.length (entries k (weight_dict loc)) = n) /\
  (~ In k (saved_fields ++ names) -> entries k (weight_dict loc) = []).
Proof.
  intros Hrw Hout Hloop.
  set (F := saved_fields ++ names).
  set (c := count_occ string_dec F k).
  assert (Hgen : forall batches vi loc loc',
    valid_loop self ext vi batches loc = Ok loc' ->
    (dict_keys (weight_dict loc) = [] \/ dict_keys (weight_dict loc) = F) ->
    dict_keys (weight_dict loc')
    = (if (impressions_in (reached self vi batches) =? 0)%nat
       then dict_keys (weight_dict loc) else F) /\
    List.length (entries k (weight_dict loc'))
    = (List.length (entries k (weight_dict loc))
       + impressions_in (reached self vi batches) * c)%nat /\
    (impressions_in (reached self vi batches) <> 0%nat -> NoDup F)).
  { clear batches loc Hloop.
    induction batches as [|b rest IH]; intros vi loc loc' H Hkeys; simpl in H.
    - injection H as <-.
      assert (Hr : reached self vi [] = [])
        by (unfold reached; rewrite Hrw; apply firstn_nil).
      rewrite Hr. unfold impressions_in. simpl.
      split; [reflexivity | split; [lia | congruence]].
    - rbind_inv H as st Hb. unfold valid_batch in Hb.
      rbind_inv Hb as out Hf. rbind_inv Hb as pred Hp.
      destruct (Hout _ _ Hf) as [Hnd Hnames].
      assert (HF : NoDup F)
        by (unfold F; rewrite <- Hnames; now apply dump_fields_nodup).
      assert (Hkeys0 : dict_keys (snd (result_dict loc, weight_dict loc)) = [] \/
                       dict_keys (snd (result_dict loc, weight_dict loc))
                       = saved_fields ++ weight_names out)
        by (cbn [snd]; now rewrite Hnames).
      destruct (impressions_capture _ _ _ _ _ k _ Hrw Hnd _ _ Hb Hkeys0)
        as [Hk1 Hn1].
      cbn [snd] in Hk1, Hn1. rewrite Hnames, length_seq in Hk1, Hn1.
      fold F in Hk1, Hn1. fold c in Hn1.
      rewrite reached_cons.
      change (impressions_in (b :: ?l))
        with (List.length (label b) + impressions_in l)%nat.
      assert (Hkeys1 : dict_keys (snd st) = [] \/ dict_keys (snd st) = F).
      { rewrite Hk1. destruct (List.length (label b) =? 0)%nat; auto. }
      destruct ((saved_weight_num self <=? vi) && return_weight self).
      + injection H as <-. cbn [weight_dict]. unfold impressions_in at 1 2 3.
        cbn [map list_sum]. rewrite !Nat.add_0_r.
        split; [exact Hk1 | split; [exact Hn1 | auto]].
      + destruct (IH _ _ _ H Hkeys1) as [Hk2 [Hn2 _]].
        cbn [weight_dict] in Hk2, Hn2.
        split; [|split; [|auto]].
        * rewrite Hk2, Hk1.
          destruct (List.length (label b)) as [|m]; [reflexivity|].
          cbn [Nat.add Nat.eqb].
          now destruct (impressions_in (reached self (vi + 1) rest) =? 0)%nat.
        * rewrite Hn2, Hn1. lia. }
  destruct (Hgen _ _ _ _ Hloop (or_introl eq_refl)) as [Hk [Hn HF]].
  cbn [weight_dict locals0 entries dict_get List.length] in Hk, Hn.
  intros n. subst n. split; [|split].
  - rewrite Hk. now destruct (impressions_in (reached self 0 batches) =? 0)%nat.
  - intros Hin. rewrite Hn.
    destruct (impressions_in (reached self 0 batches)) as [|m] eqn:Hm; [reflexivity|].
    assert (Hc : c = 1%nat).
    { unfold c. specialize (HF ltac:(discriminate)).
      pose proof (proj1 (NoDup_count_occ string_dec _) HF k) as Hle.
      apply (count_occ_In string_dec) in Hin. unfold F in *. lia. }
    rewrite Hc. lia.
  - intros Hnot. apply length_zero_iff_nil. rewrite Hn.
    unfold c. rewrite (proj1 (count_occ_not_In string_dec F k) Hnot). lia.
Qed.

Lemma X8_dump_is_rectangular_witness :
  let loc := captured_locals 2 in
  let names := ["candidate_weight"; "history_weight"] in
  impressions_in (reached capturing 0 (valid_batches 0 2)) = 4%nat /\
  (dict_keys (weight_dict loc)
   = (if (impressions_in (reached capturing 0 (valid_batches 0 2)) =? 0)%nat
      then [] else saved_fields ++ names) /\
   (In "history_weight" (saved_fields ++ names) ->
    List.length (entries "history_weight" (weight_dict loc))
    = impressions_in (reached capturing 0 (valid_batches 0 2))) /\
   (~ In "history_weight" (saved_fields ++ names) ->
    entries "history_weight" (weight_dict loc) = [])).
Proof.
  split; [reflexivity|].
  apply (X8_dump_is_rectangular capturing (ext_ok 0 (dy 0 0) 2 0)
           (valid_batches 0 2) (captured_locals 2)
           ["candidate_weight"; "history_weight"] "history_weight" eq_refl).
  - intros b out H. injection H as <-. split; [apply out2_keys_nodup | reflexivity].
  - reflexivity.
Defined.

(** ** The rows of the impressions *)









End ValidationFacts.

(* ================================================================== *)
(** ** More on the training epoch                                       *)
(* ================================================================== *)

Module EpochFacts.
Import Trainer Runs TrainerFacts Evaluate.

(** The batch indices [b] of [0 .. n-1] with [k] dividing [b + 1] are
    [n / k] many. *)
Lemma count_interval_hits (k : Z) (n : nat) :
  0 < k ->
  Z.of_nat (List.length
    (filter (fun b => (b + 1) mod k =? 0) (map Z.of_nat (seq 0 n))))
  = Z.of_nat n / k.
Proof.
  intros Hk. induction n as [|n IH].
  - simpl. now rewrite Z.div_0_l by lia.
  - replace (Z.of_nat (S n)) with (Z.of_nat n + 1) by lia.
    rewrite seq_S, map_app, filter_app, length_app, Nat2Z.inj_add, IH.
    change (0 + n)%nat with n. cbn [map filter].
    set (m := Z.of_nat n) in *.
    assert (Hm : 0 <= m) by (unfold m; lia).
    pose proof (Z.div_mod m k ltac:(lia)) as Hdm.
    pose proof (Z.mod_pos_bound m k Hk) as Hb.
    destruct (Z.ltb_spec (m mod k + 1) k) as [Hlt | Hge].
    + assert (Hq : (m + 1) / k = m / k)
        by (symmetry; apply Z.div_unique with (r := m mod k + 1); lia).
      assert (Hr : (m + 1) mod k = m mod k + 1)
        by (symmetry; apply Z.mod_unique with (q := m / k); lia).
      rewrite Hq, Hr.
      replace (m mod k + 1 =? 0) with false by (symmetry; apply Z.eqb_neq; lia).
      cbn [List.length]. lia.
    + assert (Hq : (m + 1) / k = m / k + 1)
        by (symmetry; apply Z.div_unique with (r := 0); lia).
      assert (Hr : (m + 1) mod k = 0)
        by (symmetry; apply Z.mod_unique with (q := m / k + 1); lia).
      rewrite Hq, Hr. cbn [Z.eqb List.length]. lia.
Qed.

(** X9: an epoch of [n] batches that completes has run [n / k] interleaved
    validations, [k > 0] being [ceil(len_epoch * valid_interval)], all with
    monitoring, and then the final one; with [k > n] (a [valid_interval]
    above 1) only the final validation runs. *)
Theorem X9_validations_per_epoch (self : trainer) (ext : externals)
    (epoch k : Z) (w w' : world) (lg : log) :
  rbind (int_mul_float (len_epoch self) (valid_interval self)) math_ceil = Ok k ->
  0 < k ->
  _train_epoch self ext epoch w = (w', Ok lg) ->
  let n := Z.of_nat (List.length (train_loader ext)) in
  (exists interleaved,
     vals w' = vals w ++ interleaved ++ [(epoch, len_epoch self, false)] /\
     Z.of_nat (List.length interleaved) = n / k /\
     Forall (fun v => snd v = true) interleaved) /\
  (n < k -> vals w' = vals w ++ [(epoch, len_epoch self, false)]).
Proof.
  intros Hk Hpos H n.
  pose proof (vals_train_epoch _ _ _ _ _ _ _ Hk H) as Hv.
  set (hits := filter (fun b => (b + 1) mod k =? 0)
                 (map Z.of_nat (seq 0 (List.length (train_loader ext))))) in Hv.
  assert (Hcount : Z.of_nat (List.length hits) = n / k)
    by (apply count_interval_hits; exact Hpos).
  split.
  - exists (map (fun b => (epoch, b, true)) hits). split; [exact Hv|]. split.
    + now rewrite length_map.
    + apply Forall_forall. intros v Hin. apply in_map_iff in Hin.
      destruct Hin as [b [<- _]]. reflexivity.
  - intros Hlt. rewrite Z.div_small in Hcount by (unfold n; lia).
    destruct hits; [exact Hv | simpl in Hcount; lia].
Qed.

Lemma X9_validations_per_epoch_witness :
  let run := _train_epoch (trainer_of half_config 10) (ext_ok 0 (dy 0 0) 1 10) 1 world0 in
  let n := Z.of_nat (List.length (train_loader (ext_ok 0 (dy 0 0) 1 10))) in
  n / 5 = 2 /\
  ((exists interleaved,
      vals (fst run) = vals world0 ++ interleaved ++ [(1, 10, false)] /\
      Z.of_nat (List.length interleaved) = n / 5 /\
      Forall (fun v => snd v = true) interleaved) /\
   (n < 5 -> vals (fst run) = vals world0 ++ [(1, 10, false)])).
Proof.
  split; [reflexivity|].
  eapply (X9_validations_per_epoch (trainer_of half_config 10)
            (ext_ok 0 (dy 0 0) 1 10) 1 5 world0 _ _ eq_refl eq_refl
            (surjective_pairing _)).
Defined.

(** X10: a zero divisor ends the epoch on its first batch with a
    [ZeroDivisionError], after the optimizer step of that batch and before
    any validation: either [log_step] is 0 (line 116), or
    [ceil(len_epoch * valid_interval)] is 0 (line 134), as it is for
    [valid_interval = 0.0].  The model is left in training mode and the
    learning-rate scheduler is not stepped. *)
Theorem X10_zero_divisor_aborts_epoch (self : trainer) (ext : externals)
    (epoch : Z) (w w' : world) (r : result log) (b : batch) (rest : list batch) :
  train_loader ext = b :: rest ->
  train_step ext epoch 0 b = Ok tt ->
  log_step self = 0 \/
  (rbind (int_mul_float (len_epoch self) (valid_interval self)) math_ceil = Ok 0 /\
   (log_kl_div self = true -> topic_results ext = Ok tt)) ->
  _train_epoch self ext epoch w = (w', r) ->
  r = Raise ZeroDivisionError /\
  calls w' = calls w /\
  training w' = true /\
  step w' = (epoch - 1) * len_epoch self + 0.
Proof.
  intros Hloader Hstep Hzero.
  unfold _train_epoch. rewrite Hloader. cbn [train_loop].
  unfold train_batch, bind, set_training, set_step, lift, ret. rewrite Hstep.
  destruct Hzero as [Hlog | [Hk Htopic]].
  - rewrite Hlog. cbn [py_mod Z.eqb]. intros H. injection H as <- <-. auto.
  - unfold py_mod at 1. destruct (log_step self =? 0).
    { intros H. injection H as <- <-. auto. }
    assert (Hhit : interval_hit self 0 = Raise ZeroDivisionError).
    { unfold interval_hit.
      destruct (int_mul_float (len_epoch self) (valid_interval self)) as [x|e];
        simpl in Hk; [|discriminate].
      simpl. rewrite Hk. reflexivity. }
    change (0 mod log_step self) with 0. cbn [Z.eqb].
    destruct (log_kl_div self).
    + rewrite (Htopic eq_refl). rewrite Hhit.
      intros H. injection H as <- <-. auto.
    + rewrite Hhit. intros H. injection H as <- <-. auto.
Qed.

Lemma X10_zero_divisor_aborts_epoch_witness :
  let run := _train_epoch (trainer_of zero_interval_config 10)
               (ext_ok 0 (dy 0 0) 1 10) 3 world0 in
  snd run = Raise ZeroDivisionError /\
  calls (fst run) = [] /\
  training (fst run) = true /\
  step (fst run) = (3 - 1) * 10 + 0.
Proof.
  apply (X10_zero_divisor_aborts_epoch (trainer_of zero_interval_config 10)
           (ext_ok 0 (dy 0 0) 1 10) 3 world0 _ _
           (batch2 0 0 1) (repeat (batch2 0 0 1) 9) eq_refl eq_refl).
  - right. split; [reflexivity | discriminate].
  - apply surjective_pairing.
Defined.

(** ** The log and the state of a completed epoch *)

Lemma nodup_keys_set_str {V} (k : string) (v : V) (d : dict string V) :
  NoDup (dict_keys d) -> NoDup (dict_keys (dict_set String.eqb k v d)).
Proof.
  intros Hnd. rewrite dict_keys_set.
  destruct (dict_get String.eqb k d) as [v0|] eqn:Hg; [exact Hnd|].
  apply (dict_get_none_notin _ _ _ String.eqb_eq) in Hg.
  apply NoDup_app; [exact Hnd | repeat constructor; simpl; tauto |].
  intros a Ha [<- | []]. contradiction.
Qed.

Lemma dict_update_nodup {V} (e : dict string V) :
  forall d, NoDup (dict_keys d) -> NoDup (dict_keys (dict_update d e)).
Proof.
  induction e as [|[k v] e IH]; intros d Hnd; [exact Hnd|].
  unfold dict_update. simpl. apply IH. now apply nodup_keys_set_str.
Qed.

Lemma dict_get_update_notin {V} (k : string) (e : dict string V) :
  forall d, ~ In k (dict_keys e) ->
  dict_get String.eqb k (dict_update d e) = dict_get String.eqb k d.
Proof.
  induction e as [|[k1 v1] e IH]; intros d Hnot; [reflexivity|].
  unfold dict_update. simpl. fold (dict_update (dict_set String.eqb k1 v1 d) e).
  simpl in Hnot. rewrite IH by tauto.
  rewrite (dict_get_set _ _ _ String.eqb_eq).
  destruct (String.eqb k k1) eqn:Hk; [|reflexivity].
  apply String.eqb_eq in Hk. subst. tauto.
Qed.

Lemma dict_get_update_in {V} (k : string) (v : V) (e : dict string V) :
  forall d, NoDup (dict_keys e) ->
  dict_get String.eqb k e = Some v ->
  dict_get String.eqb k (dict_update d e) = Some v.
Proof.
  induction e as [|[k1 v1] e IH]; intros d Hnd Hg; [discriminate|].
  unfold dict_update. simpl. fold (dict_update (dict_set String.eqb k1 v1 d) e).
  simpl in Hg, Hnd. inversion Hnd as [|? ? Hnot Hnd']; subst.
  destruct (String.eqb k k1) eqn:Hk.
  - apply String.eqb_eq in Hk. subst k1. injection Hg as ->.
    rewrite dict_get_update_notin by exact Hnot.
    apply dict_get_set_same. exact String.eqb_eq.
  - now apply IH.
Qed.

(** The log of [_validation]: the key "epoch/step" holds the epoch and the
    batch index, and no key occurs twice. *)
Lemma validation_log self ext epoch batch_idx do_monitor w w' lg :
  _validation self ext epoch batch_idx do_monitor w = (w', Ok lg) ->
  dict_get String.eqb "epoch/step" lg = Some (LogStep epoch batch_idx) /\
  NoDup (dict_keys lg).
Proof.
  unfold _validation. intros H.
  apply bind_ok_inv in H. destruct H as [w1 [[] [_ H]]]. cbv zeta in H.
  apply bind_ok_inv in H. destruct H as [w2 [val_log [_ H]]].
  apply bind_ok_inv in H. destruct H as [w3 [[] [_ H]]].
  apply bind_ok_inv in H. destruct H as [w4 [[] [_ H]]].
  unfold ret in H. injection H as _ <-. split.
  - rewrite dict_get_update_notin; [reflexivity|].
    unfold dict_keys. rewrite map_map. intros Hin. apply in_map_iff in Hin.
    destruct Hin as [kv [Heq _]]. discriminate Heq.
  - apply dict_update_nodup. repeat constructor. simpl. tauto.
Qed.

Lemma step_validation self ext epoch batch_idx do_monitor :
  preserves step (_validation self ext epoch batch_idx do_monitor).
Proof.
  unfold _validation.
  apply preserves_bind; [apply ValidationFacts.step_record_call|]. intros _.
  apply preserves_bind; [apply ValidationFacts.step_valid_epoch|]. intros val_log.
  apply preserves_bind.
  - destruct do_monitor.
    + apply preserves_bind; [apply ValidationFacts.step_record_call|].
      intros _. apply preserves_lift.
    + apply preserves_ret.
  - intros _. apply preserves_bind; [apply ValidationFacts.step_set_training|].
    intros _. apply preserves_ret.
Qed.

Lemma step_train_batch self ext epoch batch_idx b w w' :
  train_batch self ext epoch batch_idx b w = (w', Ok tt) ->
  step w' = (epoch - 1) * len_epoch self + batch_idx.
Proof.
  unfold train_batch. intros H.
  apply bind_ok_inv in H. destruct H as [w1 [[] [H1 H]]].
  unfold set_step in H1. injection H1 as <-.
  match type of H with
  | ?c ?w1 = _ =>
      assert (Hp : preserves step c);
      [| now rewrite (preserves_eq step c _ _ _ Hp H)]
  end.
  apply preserves_bind; [apply preserves_lift|]. intros _.
  apply preserves_bind; [apply preserves_lift|]. intros r.
  apply preserves_bind.
  - destruct (r =? 0), (log_kl_div self); try apply preserves_ret.
    apply preserves_bind; [apply ValidationFacts.step_set_training|]. intros _.
    apply preserves_bind; [apply preserves_lift|]. intros _.
    apply ValidationFacts.step_set_training.
  - intros _. apply preserves_bind; [apply preserves_lift|]. intros [|].
    + apply preserves_bind; [apply step_validation|]. intros _. apply preserves_ret.
    + apply preserves_ret.
Qed.

Lemma step_train_loop self ext epoch (batches : list batch) :
  forall batch_idx w w',
  batches <> [] ->
  train_loop self ext epoch batch_idx batches w = (w', Ok tt) ->
  step w' = (epoch - 1) * len_epoch self
            + (batch_idx + Z.of_nat (List.length batches) - 1).
Proof.
  induction batches as [|b rest IH]; intros batch_idx w w' Hne H; [congruence|].
  simpl in H. apply bind_ok_inv in H. destruct H as [w1 [[] [H1 H]]].
  apply step_train_batch in H1.
  destruct rest as [|b' rest'].
  - simpl in H. unfold ret in H. injection H as <-. rewrite H1. simpl. lia.
  - apply IH in H; [|discriminate]. rewrite H.
    cbn [List.length]. lia.
Qed.

(** X11: an epoch that completes leaves the model in training mode, has
    counted its steps up to [(epoch - 1) * len_epoch + n - 1] for the [n > 0]
    batches of the loader, and returns a log whose "epoch/step" entry is that
    of the final validation ([epoch]/[len_epoch]), whatever the training
    metrics hold under that name. *)
Theorem X11_completed_epoch (self : trainer) (ext : externals)
    (epoch : Z) (w w' : world) (lg : log) :
  _train_epoch self ext epoch w = (w', Ok lg) ->
  training w' = true /\
  dict_get String.eqb "epoch/step" lg = Some (LogStep epoch (len_epoch self)) /\
  (train_loader ext <> [] ->
   step w' = (epoch - 1) * len_epoch self
             + (Z.of_nat (List.length (train_loader ext)) - 1)).
Proof.
  unfold _train_epoch. intros H.
  apply bind_ok_inv in H. destruct H as [w1 [[] [_ H]]].
  apply bind_ok_inv in H. destruct H as [w2 [[] [H2 H]]].
  apply bind_ok_inv in H. destruct H as [w3 [[] [H3 H]]].
  cbv zeta in H.
  apply bind_ok_inv in H. destruct H as [w4 [val_log [H4 H]]].
  unfold ret in H. injection H as <- <-.
  split; [|split].
  - now rewrite (validation_mode _ _ _ _ _ _ _ _ H4).
  - destruct (validation_log _ _ _ _ _ _ _ _ H4) as [Hget Hnd].
    now apply dict_get_update_in.
  - intros Hne.
    rewrite (preserves_eq step _ _ _ _ (step_validation _ _ _ _ _) H4).
    assert (H3' : step w3 = step w2).
    { destruct (has_lr_scheduler self).
      - apply (preserves_eq step _ _ _ _ (ValidationFacts.step_record_call _) H3).
      - unfold ret in H3. now injection H3 as <-. }
    rewrite H3', (step_train_loop _ _ _ _ _ _ _ Hne H2). lia.
Qed.

Lemma X11_completed_epoch_witness :
  let run := _train_epoch (trainer_of half_config 10) (ext_ok 0 (dy 0 0) 1 10) 2 world0 in
  training (fst run) = true /\
  step (fst run) = 19.
Proof.
  destruct (X11_completed_epoch (trainer_of half_config 10) (ext_ok 0 (dy 0 0) 1 10)
              2 world0 _ _ (surjective_pairing _)) as [Hmode [_ Hstep]].
  split; [exact Hmode|]. apply Hstep. discriminate.
Defined.

(** ** [evaluate] *)

Lemma append_inj_l (p a b : string) : (p ++ a)%string = (p ++ b)%string -> a = b.
Proof.
  induction p as [|c p IH]; simpl; intros H; [exact H|].
  injection H as H. now apply IH.
Qed.

Lemma with_prefix_fold (p : string) (log : row) :
  forall acc : row,
  NoDup (dict_keys log) ->
  (forall k, In k (dict_keys log) -> ~ In (p ++ "_" ++ k)%string (dict_keys acc)) ->
  fold_left
    (fun acc kv => dict_set String.eqb (p ++ "_" ++ fst kv)%string (snd kv) acc)
    log acc
  = acc ++ map (fun kv => ((p ++ "_" ++ fst kv)%string, snd kv)) log.
Proof.
  induction log as [|[k v] log IH]; intros acc Hnd Hfresh; simpl.
  - now rewrite app_nil_r.
  - simpl in Hnd. inversion Hnd as [|? ? Hnot Hnd']; subst.
    rewrite dict_set_fresh by (apply Hfresh; simpl; auto).
    rewrite IH; [now rewrite <- app_assoc| exact Hnd' |].
    intros k' Hin. unfold dict_keys. rewrite map_app, in_app_iff.
    intros [Hacc | [Heq | []]].
    + apply (Hfresh k'); [simpl; auto | exact Hacc].
    + cbn [fst] in Heq. apply append_inj_l in Heq. injection Heq as Heq.
      subst. contradiction.
Qed.

Lemma with_prefix_map (p : string) (log : row) :
  NoDup (dict_keys log) ->
  with_prefix p log = map (fun kv => ((p ++ "_" ++ fst kv)%string, snd kv)) log.
Proof.
  intros Hnd. unfold with_prefix. now rewrite with_prefix_fold.
Qed.

(** X12: [evaluate] leaves the model in evaluation mode, whether the pass
    returns or raises (it never calls [model.train()]); when it returns, the
    result is the log of [_valid_epoch] run on the model in evaluation mode,
    unchanged for an absent or empty prefix, and otherwise with every key [k]
    renamed to [prefix ++ "_" ++ k], values and order kept. *)
Theorem X12_evaluate_renames_the_log (self : trainer) (ext : externals)
    (prefix : option string) (w w' : world) (r : result row) :
  evaluate self ext prefix w = (w', r) ->
  training w' = false /\
  forall lg, r = Ok lg ->
  exists log,
    _valid_epoch self ext (fst (set_training false w)) = (w', Ok log) /\
    (str_truthy prefix = false -> lg = log) /\
    (forall p, prefix = Some p -> p <> ""%string -> NoDup (dict_keys log) ->
     lg = map (fun kv => ((p ++ "_" ++ fst kv)%string, snd kv)) log).
Proof.
  unfold evaluate. intros H. unfold bind at 1 in H.
  change (set_training false w) with (fst (set_training false w), Ok tt) in H.
  cbv iota beta in H. unfold bind in H.
  pose proof (valid_epoch_leaves_eval_mode self ext (fst (set_training false w))) as Hm.
  destruct (_valid_epoch self ext (fst (set_training false w))) as [w1 [log|e]] eqn:Hv.
  - unfold ret in H. injection H as <- <-. split; [exact Hm|].
    intros lg Hlg. injection Hlg as <-. exists log. split; [reflexivity|]. split.
    + now intros ->.
    + intros p -> Hp Hnd. destruct p as [|a p]; [congruence|].
      simpl. now apply with_prefix_map.
  - injection H as <- <-. split; [exact Hm|]. discriminate.
Qed.

Lemma X12_evaluate_renames_the_log_witness :
  let run := evaluate (trainer_of no_config 10) (ext_ok 0 (dy 0 0) 2 0) (Some "val"%string) world0 in
  training (fst run) = false /\
  dict_keys (match snd run with Ok lg => lg | Raise _ => [] end) = ["val_accuracy"%string].
Proof.
  destruct (X12_evaluate_renames_the_log (trainer_of no_config 10) (ext_ok 0 (dy 0 0) 2 0)
              (Some "val"%string) world0 _ _ (surjective_pairing _)) as [Hm _].
  split; [exact Hm | vm_compute; reflexivity].
Defined.

End EpochFacts.

(* ================================================================== *)
(** ** Properties of the MIND utilities                                 *)
(* ================================================================== *)

Module MindUtilsFacts.
Import MindUtils.

(** *** Outcomes and comprehensions *)

Lemma obind_done_inv {A B} (r : outcome A) (k : A -> outcome B) (b : B) :
  obind r k = Done b -> exists a, r = Done a /\ k a = Done b.
Proof. destruct r as [a|e]; simpl; intros H; [eauto | discriminate]. Qed.

Lemma comprehension_map {A B} (f : A -> outcome B) (g : A -> B) (l : list A) :
  (forall a, In a l -> f a = Done (g a)) ->
  comprehension f l = Done (map g l).
Proof.
  induction l as [|a l IH]; intros Hf; [reflexivity|].
  simpl. rewrite Hf by (left; reflexivity). simpl.
  rewrite IH by (intros; apply Hf; right; assumption). reflexivity.
Qed.

Lemma comprehension_forall2 {A B} (f : A -> outcome B) (R : A -> B -> Prop)
    (l : list A) (l' : list B) :
  (forall a b, R a b -> f a = Done b) ->
  Forall2 R l l' -> comprehension f l = Done l'.
Proof.
  intros Hf H. induction H as [|a b l l' Hab _ IH]; [reflexivity|].
  simpl. rewrite (Hf _ _ Hab). simpl. now rewrite IH.
Qed.

Lemma as_str_strings (fs : list string) :
  comprehension as_str (map JString fs) = Done fs.
Proof.
  rewrite (comprehension_map _ (fun v => match v with JString s => s | _ => "" end)).
  - rewrite map_map. now rewrite map_id.
  - intros a Hin. apply in_map_iff in Hin. destruct Hin as [s [<- _]]. reflexivity.
Qed.

(** *** Joining strings *)

Lemma concat_cons (sep x : string) (l : list string) :
  l <> [] -> String.concat sep (x :: l) = (x ++ sep ++ String.concat sep l)%string.
Proof. destruct l; [congruence | reflexivity]. Qed.

Lemma string_app_assoc (a b c : string) : ((a ++ b) ++ c = a ++ (b ++ c))%string.
Proof. induction a as [|x a IH]; simpl; [reflexivity | now rewrite IH]. Qed.

Lemma concat_app (sep : string) (l1 l2 : list string) :
  l1 <> [] -> l2 <> [] ->
  String.concat sep (l1 ++ l2)
  = (String.concat sep l1 ++ sep ++ String.concat sep l2)%string.
Proof.
  induction l1 as [|x l1 IH]; intros H1 H2; [congruence|].
  destruct l1 as [|y l1].
  - simpl app. now rewrite concat_cons.
  - change ((x :: y :: l1) ++ l2) with (x :: ((y :: l1) ++ l2)).
    rewrite concat_cons by discriminate.
    rewrite IH by (discriminate || assumption).
    rewrite (concat_cons sep x (y :: l1)) by discriminate.
    now rewrite !string_app_assoc.
Qed.

Lemma concat_flatten (sep : string) (ls : list (list string)) :
  Forall (fun l => l <> []) ls ->
  String.concat sep (map (String.concat sep) ls) = String.concat sep (List.concat ls).
Proof.
  induction 1 as [|l ls Hl Hls IH]; [reflexivity|].
  destruct ls as [|l' ls].
  - simpl. now rewrite app_nil_r.
  - cbn [map List.concat]. cbn [map List.concat] in IH.
    rewrite concat_cons by discriminate. rewrite IH.
    rewrite (concat_app sep l (l' ++ List.concat ls)); [reflexivity | assumption |].
    inversion Hls; subst. destruct l'; [congruence | discriminate].
Qed.

(** X17: for a JSON array of objects whose "SurfaceForms" are lists of
    strings, [load_entity] returns the surface forms of each entity joined by
    a blank, and these joined by a blank; when no entity has an empty list
    this is the blank-separated sequence of all surface forms in order. *)
Theorem X17_load_entity_joins_surface_forms
    (json_loads : string -> outcome json) (entity : string)
    (es : list json) (formss : list (list string)) :
  json_loads entity = Done (JArray es) ->
  Forall2 has_forms es formss ->
  load_entity json_loads entity
  = Done (String.concat " " (map (String.concat " ") formss)) /\
  (Forall (fun fs => fs <> []) formss ->
   load_entity json_loads entity = Done (String.concat " " (List.concat formss))).
Proof.
  intros Hloads Hforms.
  assert (H : load_entity json_loads entity
              = Done (String.concat " " (map (String.concat " ") formss))).
  { unfold load_entity. rewrite Hloads. cbn [obind iter].
    rewrite (comprehension_forall2 _ (fun e s => exists fs, has_forms e fs /\
                                                 s = String.concat " " fs)
               es (map (String.concat " ") formss)).
    - reflexivity.
    - intros e s [fs [[d [-> Hd]] ->]].
      unfold subscript, dict_getitem. rewrite Hd. cbn [of_result obind].
      unfold str_join. cbn [iter obind]. now rewrite as_str_strings.
    - clear Hloads. induction Hforms as [|e fs es formss He _ IH]; constructor;
        [exists fs; split; [exact He | reflexivity] | exact IH]. }
  split; [exact H|]. intros Hne. rewrite H. now rewrite concat_flatten.
Qed.

Lemma X17_load_entity_joins_surface_forms_witness :
  load_entity
    (fun _ => Done (JArray [entity_of "Joe Biden" ["Biden"; "Joe Biden"];
                            entity_of "NBA" ["NBA"]])) "[..]"
  = Done "Biden Joe Biden NBA".
Proof.
  refine (proj2 (X17_load_entity_joins_surface_forms _ "[..]" _
                   [["Biden"; "Joe Biden"]; ["NBA"]] eq_refl _) _).
  - constructor; [eexists; split; reflexivity|].
    constructor; [eexists; split; reflexivity|]. constructor.
  - repeat constructor; discriminate.
Defined.

(** X18: [get_mind_data_set] returns names exactly for the three types
    "large", "small" and "demo", and fails its assertion for every other
    string; it never falls through to [None].  The training and validation
    archives are named after the type; so is the utilities archive, except
    for "small". *)
Theorem X18_data_set_names (dataset_type : string) :
  (In dataset_type ["large"; "small"; "demo"] ->
   exists url utils,
     get_mind_data_set dataset_type
     = Done (Some (url, ("MIND" ++ dataset_type ++ "_train.zip")%string,
                   ("MIND" ++ dataset_type ++ "_dev.zip")%string, utils)) /\
     (dataset_type <> "small" ->
      utils = ("MIND" ++ dataset_type ++ "_utils.zip")%string)) /\
  (~ In dataset_type ["large"; "small"; "demo"] ->
   get_mind_data_set dataset_type = Fail (Builtin AssertionError)) /\
  get_mind_data_set dataset_type <> Done None.
Proof.
  repeat split.
  - intros [<- | [<- | [<- | []]]]; do 2 eexists; (split; [reflexivity|]);
      intros; reflexivity || congruence.
  - intros Hnot. unfold get_mind_data_set.
    destruct (existsb _ _) eqn:He; [|reflexivity].
    apply existsb_exists in He. destruct He as [x [Hin Hx]].
    apply String.eqb_eq in Hx. subst x. contradiction.
  - unfold get_mind_data_set. cbn [existsb].
    destruct (String.eqb dataset_type "large");
      destruct (String.eqb dataset_type "small");
      destruct (String.eqb dataset_type "demo"); cbn [orb]; discriminate.
Qed.

Lemma X18_data_set_names_witness :
  get_mind_data_set "tiny" = Fail (Builtin AssertionError).
Proof.
  apply (proj1 (proj2 (X18_data_set_names "tiny"))).
  cbn. intros [H | [H | [H | []]]]; discriminate.
Defined.

(** *** Steps *)

Lemma bind_done_inv {A B} (c : IO A) (k : A -> IO B) (st st' : state) (b : B) :
  bind c k st = (st', Done b) ->
  exists st1 a, c st = (st1, Done a) /\ k a st1 = (st', Done b).
Proof.
  unfold bind. destruct (c st) as [st1 [a|e]]; intros H; [eauto | discriminate].
Qed.

Lemma bind_step {A B} (c : IO A) (k : A -> IO B) (st st1 : state) (a : A) :
  c st = (st1, Done a) -> bind c k st = k a st1.
Proof. unfold bind. now intros ->. Qed.

Lemma bind_fail {A B} (c : IO A) (k : A -> IO B) (st st1 : state) (e : error) :
  c st = (st1, Fail e) -> bind c k st = (st1, Fail e).
Proof. unfold bind. now intros ->. Qed.

(** *** Paths and the disk *)

Lemma Path_eqb_eq (p q : Path) : Path_eqb p q = true <-> p = q.
Proof.
  unfold Path_eqb. destruct p as [r1 ps1], q as [r2 ps2]. cbn [root parts].
  destruct (list_eq_dec string_dec ps1 ps2) as [->|Hne].
  - rewrite andb_true_r, String.eqb_eq. split; [now intros -> | congruence].
  - rewrite andb_false_r. split; [discriminate | congruence].
Qed.

Lemma list_prefix_refl (l : list string) : list_prefix l l = true.
Proof. induction l as [|a l IH]; simpl; [reflexivity|]. now rewrite String.eqb_refl. Qed.

Lemma above_refl (p : Path) : above p p = true.
Proof. unfold above. now rewrite String.eqb_refl, list_prefix_refl. Qed.

Lemma get_in_keys (p : Path) (d : dict Path bytes) (b : bytes) :
  dict_get Path_eqb p d = Some b -> In p (dict_keys d).
Proof.
  induction d as [|[k v] d IH]; simpl; [discriminate|].
  destruct (Path_eqb p k) eqn:Hk.
  - apply Path_eqb_eq in Hk. subst. auto.
  - auto.
Qed.

Lemma file_exists (p : Path) (st : state) (b : bytes) :
  dict_get Path_eqb p (files st) = Some b -> path_exists p st = true.
Proof.
  intros H. unfold path_exists. destruct (parts p); [reflexivity|].
  apply existsb_exists. exists p. split; [|apply above_refl].
  apply in_or_app. left. exact (get_in_keys _ _ _ H).
Qed.

Lemma dir_exists (p : Path) (st : state) : In p (dirs st) -> path_exists p st = true.
Proof.
  intros H. unfold path_exists. destruct (parts p); [reflexivity|].
  apply existsb_exists. exists p. split; [|apply above_refl].
  apply in_or_app. now right.
Qed.

(** The state after a directory has been created. *)
Lemma makedirs_done (ext : externals) (d : string) (st : state) :
  dict_get Path_eqb (Path_of d) (files st) = None ->
  makedirs_check ext d = Done tt ->
  makedirs ext d st
  = ({| files := files st; dirs := dirs st ++ [Path_of d]; requested := requested st |},
     Done tt).
Proof. intros Hf Hc. unfold makedirs. now rewrite Hf, Hc. Qed.

Lemma dict_set_set (p : Path) (v v' : bytes) (d : dict Path bytes) :
  dict_set Path_eqb p v (dict_set Path_eqb p v' d) = dict_set Path_eqb p v d.
Proof.
  induction d as [|[k w] d IH]; simpl.
  - assert (H : Path_eqb p p = true) by now apply Path_eqb_eq.
    now rewrite H.
  - destruct (Path_eqb p k) eqn:Hk; simpl; rewrite Hk; [reflexivity | now rewrite IH].
Qed.

Lemma get_del_same (p : Path) (d : dict Path bytes) :
  dict_get Path_eqb p (dict_del Path_eqb p d) = None.
Proof.
  induction d as [|[k w] d IH]; simpl; [reflexivity|].
  destruct (Path_eqb p k) eqn:Hk; simpl; [exact IH | now rewrite Hk].
Qed.

Lemma dict_set_same_value (p : Path) (c : bytes) (d : dict Path bytes) :
  dict_get Path_eqb p d = Some c -> dict_set Path_eqb p c d = d.
Proof.
  induction d as [|[k w] d IH]; simpl; [discriminate|].
  destruct (Path_eqb p k) eqn:Hk.
  - intros H. injection H as ->. reflexivity.
  - intros H. now rewrite IH.
Qed.

(** The file written block by block holds the blocks in order. *)
Lemma write_blocks_spec (p : Path) (blocks : list bytes) :
  forall (st : state) (c : bytes),
  dict_get Path_eqb p (files st) = Some c ->
  write_blocks p blocks st
  = (set_files (dict_set Path_eqb p (c ++ List.concat blocks) (files st)) st, Done tt).
Proof.
  induction blocks as [|data rest IH]; intros st c Hc.
  - simpl. unfold ret, set_files. rewrite app_nil_r.
    rewrite (dict_set_same_value p c (files st) Hc). now destruct st.
  - simpl. unfold bind, file_write. rewrite Hc. cbn [get].
    rewrite (IH _ (c ++ data)).
    + unfold set_files. cbn [files dirs requested].
      now rewrite dict_set_set, <- app_assoc.
    + unfold set_files. cbn [files].
      apply (TrainerFacts.dict_get_set_same _ _ _ Path_eqb_eq).
Qed.

Lemma makedirs_with_dir (ext : externals) (d : string) (st : state) :
  can_makedirs ext d st -> makedirs ext d st = (with_dir d st, Done tt).
Proof. intros [Hf Hc]. now apply makedirs_done. Qed.

(** A call that finds the file: nothing is requested, and the size is
    checked when one is expected. *)
Lemma found_file_is_checked (ext : externals) (url : string) (filename : option string)
    (work_directory : string) (expected_bytes : option Z) (st : state) (content : bytes) :
  can_makedirs ext work_directory st ->
  dict_get Path_eqb (file_path url filename work_directory) (files st) = Some content ->
  maybe_download ext url filename work_directory expected_bytes st
  = match expected_bytes with
    | Some n =>
        if Z.of_nat (List.length content) =? n
        then (with_dir work_directory st,
              Done (os_path_join work_directory (file_name url filename)))
        else (set_files (dict_del Path_eqb (file_path url filename work_directory)
                           (files st)) (with_dir work_directory st),
              Fail OSError)
    | None => (with_dir work_directory st,
               Done (os_path_join work_directory (file_name url filename)))
    end.
Proof.
  intros Hmk Hfile. unfold maybe_download.
  rewrite (bind_step _ _ _ _ _ (makedirs_with_dir _ _ _ Hmk)).
  fold (file_name url filename). fold (file_path url filename work_directory).
  set (P := file_path url filename work_directory) in *.
  assert (Hfile1 : dict_get Path_eqb P (files (with_dir work_directory st)) = Some content)
    by exact Hfile.
  unfold bind at 1. unfold exists_ at 1.
  rewrite (file_exists _ _ _ Hfile1). cbn [negb].
  unfold bind at 1. unfold ret at 1.
  destruct expected_bytes as [n|].
  - unfold bind at 1. unfold bind at 1. unfold stat_size at 1. rewrite Hfile1.
    destruct (Z.of_nat (List.length content) =? n); cbn [negb].
    + reflexivity.
    + unfold bind, remove, raise. rewrite Hfile1. reflexivity.
  - reflexivity.
Qed.

(** X19: when the file is already in the work directory, [maybe_download]
    requests nothing and returns its path, leaving the files as they are,
    provided no size is expected or the size is the expected one. *)
Theorem X19_found_file_is_not_requested (ext : externals) (url : string)
    (filename : option string) (work_directory : string) (expected_bytes : option Z)
    (st : state) (content : bytes) :
  can_makedirs ext work_directory st ->
  dict_get Path_eqb (file_path url filename work_directory) (files st) = Some content ->
  (forall n, expected_bytes = Some n -> n = Z.of_nat (List.length content)) ->
  exists st',
    maybe_download ext url filename work_directory expected_bytes st
    = (st', Done (os_path_join work_directory (file_name url filename))) /\
    files st' = files st /\ requested st' = requested st.
Proof.
  intros Hmk Hfile Hsize. rewrite (found_file_is_checked _ _ _ _ _ _ _ Hmk Hfile).
  destruct expected_bytes as [n|].
  - rewrite (Hsize n eq_refl), Z.eqb_refl. eexists. repeat split.
  - eexists. repeat split.
Qed.

Lemma X19_found_file_is_not_requested_witness :
  exists st',
    maybe_download (ext_net None (Done [])) "http://host/a.zip" None "data" (Some 2)
      (state_with "data/a.zip" [b0; b0])
    = (st', Done "data/a.zip") /\
    files st' = [(Path_of "data/a.zip", [b0; b0])] /\ requested st' = [].
Proof.
  apply (X19_found_file_is_not_requested (ext_net None (Done [])) "http://host/a.zip"
           None "data" (Some 2) (state_with "data/a.zip" [b0; b0]) [b0; b0]).
  - split; reflexivity.
  - reflexivity.
  - intros n H. injection H as <-. reflexivity.
Defined.

(** X20: when a size is expected and the file found in the work directory
    has another size, [maybe_download] deletes that file and raises
    [IOError]; it does not request the file again. *)
Theorem X20_found_file_of_wrong_size_is_deleted (ext : externals) (url : string)
    (filename : option string) (work_directory : string) (n : Z)
    (st st' : state) (r : outcome string) (content : bytes) :
  can_makedirs ext work_directory st ->
  dict_get Path_eqb (file_path url filename work_directory) (files st) = Some content ->
  Z.of_nat (List.length content) <> n ->
  maybe_download ext url filename work_directory (Some n) st = (st', r) ->
  r = Fail OSError /\
  dict_get Path_eqb (file_path url filename work_directory) (files st') = None /\
  requested st' = requested st.
Proof.
  intros Hmk Hfile Hsize. rewrite (found_file_is_checked _ _ _ _ _ _ _ Hmk Hfile).
  apply Z.eqb_neq in Hsize. rewrite Hsize. intros H. injection H as <- <-.
  repeat split. cbn [set_files files]. apply get_del_same.
Qed.

Lemma X20_found_file_of_wrong_size_is_deleted_witness :
  let run := maybe_download (ext_net None (Done [])) "http://host/a.zip" None "data"
               (Some 3) (state_with "data/a.zip" [b0; b0]) in
  snd run = Fail OSError /\
  dict_get Path_eqb (file_path "http://host/a.zip" None "data") (files (fst run)) = None /\
  requested (fst run) = [].
Proof.
  apply (X20_found_file_of_wrong_size_is_deleted (ext_net None (Done []))
           "http://host/a.zip" None "data" 3 (state_with "data/a.zip" [b0; b0])
           _ _ [b0; b0]).
  - split; reflexivity.
  - reflexivity.
  - discriminate.
  - apply surjective_pairing.
Defined.

Lemma missing_not_file (p : Path) (st : state) :
  path_exists p st = false -> dict_get Path_eqb p (files st) = None.
Proof.
  intros H. destruct (dict_get Path_eqb p (files st)) as [b|] eqn:Hb; [|reflexivity].
  rewrite (file_exists _ _ _ Hb) in H. discriminate.
Qed.

(** A call that does not find the file and whose download starts. *)
Lemma missing_file_is_downloaded (ext : externals) (url : string)
    (filename : option string) (work_directory : string) (expected_bytes : option Z)
    (st : state) (resp : response) :
  let P := file_path url filename work_directory in
  let st2 := downloaded work_directory url P (chunks resp) st in
  can_makedirs ext work_directory st ->
  path_exists P (with_dir work_directory st) = false ->
  starts_download ext url P resp ->
  maybe_download ext url filename work_directory expected_bytes st
  = match broken resp with
    | Some e => (st2, Fail e)
    | None =>
        match expected_bytes with
        | Some n =>
            if Z.of_nat (List.length (List.concat (chunks resp))) =? n
            then (st2, Done (os_path_join work_directory (file_name url filename)))
            else (set_files (dict_del Path_eqb P (files st2)) st2, Fail OSError)
        | None => (st2, Done (os_path_join work_directory (file_name url filename)))
        end
    end.
Proof.
  intros P st2 Hmk Hmiss [Hget [[total [Hlen Hceil]] Hopen]]. unfold maybe_download.
  rewrite (bind_step _ _ _ _ _ (makedirs_with_dir _ _ _ Hmk)).
  fold (file_name url filename). fold (file_path url filename work_directory).
  fold P.
  unfold bind at 1. unfold exists_ at 1. rewrite Hmiss. cbn [negb].
  pose proof (missing_not_file _ _ Hmiss) as Hnone.
  assert (Hst2 : dict_get Path_eqb P (files st2) = Some (List.concat (chunks resp))).
  { unfold st2, downloaded. cbn [files].
    apply (TrainerFacts.dict_get_set_same _ _ _ Path_eqb_eq). }
  unfold bind at 1. unfold bind at 1. unfold request at 1. rewrite Hget.
  unfold bind at 1. unfold lift at 1. rewrite Hlen.
  unfold bind at 1. unfold lift at 1.
  destruct (obind (truediv_block_size total) _) as [num|e]; [|discriminate].
  unfold bind at 1. unfold open_wb at 1. cbn [files].
  rewrite Hnone.
  replace (path_exists P _) with false
    by (symmetry; rewrite <- Hmiss; reflexivity).
  rewrite Hopen.
  unfold bind at 1.
  rewrite (write_blocks_spec P (chunks resp) _ [])
    by (cbn [set_files files]; apply (TrainerFacts.dict_get_set_same _ _ _ Path_eqb_eq)).
  unfold set_files, with_dir. cbn [files dirs requested app]. rewrite dict_set_set.
  fold (downloaded work_directory url P (chunks resp) st). fold st2.
  destruct (broken resp) as [e|].
  - reflexivity.
  - unfold ret at 1. destruct expected_bytes as [n|].
    + unfold bind at 1. unfold bind at 1. unfold stat_size at 1. rewrite Hst2.
      destruct (Z.of_nat (List.length (List.concat (chunks resp))) =? n); cbn [negb].
      * reflexivity.
      * unfold bind, remove, raise. rewrite Hst2. reflexivity.
    + reflexivity.
Qed.

Lemma missing_is_not_the_directory (p : Path) (d : string) (st : state) :
  path_exists p (with_dir d st) = false -> Path_eqb (Path_of d) p = false.
Proof.
  intros H. destruct (Path_eqb (Path_of d) p) eqn:He; [|reflexivity].
  apply Path_eqb_eq in He. subst p.
  rewrite dir_exists in H; [discriminate|].
  unfold with_dir. cbn [dirs]. apply in_or_app. right. now left.
Qed.

Lemma can_makedirs_downloaded (ext : externals) (d url : string) (p : Path)
    (blocks : list bytes) (st : state) :
  can_makedirs ext d st ->
  path_exists p (with_dir d st) = false ->
  can_makedirs ext d (downloaded d url p blocks st).
Proof.
  intros [Hf Hc] Hmiss. split; [|exact Hc].
  unfold downloaded. cbn [files].
  rewrite (TrainerFacts.dict_get_set _ _ _ Path_eqb_eq).
  now rewrite (missing_is_not_the_directory _ _ _ Hmiss).
Qed.

(** X21: a download that breaks off while the blocks are read leaves the
    blocks received so far in the file.  The exception leaves
    [maybe_download]; a later call without an expected size finds the file,
    requests nothing and returns the path of the incomplete file. *)
Theorem X21_interrupted_download_is_kept (ext : externals) (url : string)
    (filename : option string) (work_directory : string) (expected_bytes : option Z)
    (st st' : state) (r : outcome string) (resp : response) (e : error) :
  can_makedirs ext work_directory st ->
  path_exists (file_path url filename work_directory) (with_dir work_directory st) = false ->
  starts_download ext url (file_path url filename work_directory) resp ->
  broken resp = Some e ->
  maybe_download ext url filename work_directory expected_bytes st = (st', r) ->
  r = Fail e /\
  dict_get Path_eqb (file_path url filename work_directory) (files st')
  = Some (List.concat (chunks resp)) /\
  requested st' = requested st ++ [url] /\
  exists st'',
    maybe_download ext url filename work_directory None st'
    = (st'', Done (os_path_join work_directory (file_name url filename))) /\
    files st'' = files st' /\ requested st'' = requested st'.
Proof.
  intros Hmk Hmiss Hstart Hbroken.
  rewrite (missing_file_is_downloaded _ _ _ _ _ _ _ Hmk Hmiss Hstart), Hbroken.
  intros H. injection H as <- <-.
  assert (Hfile : dict_get Path_eqb (file_path url filename work_directory)
                    (files (downloaded work_directory url
                              (file_path url filename work_directory) (chunks resp) st))
                  = Some (List.concat (chunks resp))).
  { unfold downloaded. cbn [files].
    apply (TrainerFacts.dict_get_set_same _ _ _ Path_eqb_eq). }
  repeat split; [exact Hfile|].
  rewrite (found_file_is_checked _ _ _ _ None _ _
             (can_makedirs_downloaded _ _ url _ (chunks resp) _ Hmk Hmiss) Hfile).
  eexists. repeat split.
Qed.

Lemma X21_interrupted_download_is_kept_witness :
  let ext := ext_net (Some (LibraryError "ChunkedEncodingError")) (Done []) in
  let run := maybe_download ext "http://host/a.zip" None "data" None state0 in
  snd run = Fail (LibraryError "ChunkedEncodingError") /\
  dict_get Path_eqb (file_path "http://host/a.zip" None "data") (files (fst run))
  = Some [b0; b0; b0] /\
  requested (fst run) = ["http://host/a.zip"] /\
  exists st'',
    maybe_download ext "http://host/a.zip" None "data" None (fst run)
    = (st'', Done "data/a.zip") /\
    files st'' = files (fst run) /\ requested st'' = requested (fst run).
Proof.
  apply (X21_interrupted_download_is_kept
           (ext_net (Some (LibraryError "ChunkedEncodingError")) (Done []))
           "http://host/a.zip" None "data" None state0 _ _
           {| content_length := Done 3; chunks := [[b0; b0]; [b0]];
              broken := Some (LibraryError "ChunkedEncodingError") |}
           (LibraryError "ChunkedEncodingError")).
  - split; reflexivity.
  - reflexivity.
  - split; [reflexivity|]. split; [|reflexivity].
    exists 3. split; reflexivity.
  - reflexivity.
  - apply surjective_pairing.
Defined.

Lemma is_file_set (p q : Path) (data : bytes) (d : dict Path bytes) :
  dict_get Path_eqb p d <> None ->
  dict_get Path_eqb p (dict_set Path_eqb q data d) <> None.
Proof.
  intros H. rewrite (TrainerFacts.dict_get_set _ _ _ Path_eqb_eq).
  destruct (Path_eqb p q); [discriminate | exact H].
Qed.

(** What holds when [maybe_download] returns. *)
Lemma maybe_download_done (ext : externals) (url : string)
    (filename : option string) (work_directory : string) (expected_bytes : option Z)
    (st st' : state) (p : string) :
  maybe_download ext url filename work_directory expected_bytes st = (st', Done p) ->
  p = os_path_join work_directory (file_name url filename) /\
  path_exists (Path_of p) st' = true /\
  (requested st' = requested st \/ requested st' = requested st ++ [url]) /\
  (forall n, expected_bytes = Some n -> stat_size ext (Path_of p) st' = (st', Done n)) /\
  (forall q, dict_get Path_eqb q (files st) <> None ->
             dict_get Path_eqb q (files st') <> None) /\
  ((files st' = files st /\ requested st' = requested st) \/
   (dict_get Path_eqb (file_path url filename work_directory) (files st) = None /\
    requested st' = requested st ++ [url] /\
    exists resp,
      requests_get ext url = Done resp /\
      files st' = dict_set Path_eqb (file_path url filename work_directory)
                    (List.concat (chunks resp)) (files st))).
Proof.
  unfold maybe_download. fold (file_name url filename).
  fold (file_path url filename work_directory).
  set (P := file_path url filename work_directory).
  intros H.
  apply bind_done_inv in H. destruct H as [s1 [[] [Hmk H]]].
  apply bind_done_inv in H. destruct H as [s2 [found [Hfound H]]].
  unfold exists_ in Hfound. injection Hfound as <- <-.
  apply bind_done_inv in H. destruct H as [s3 [[] [Hbranch H]]].
  apply bind_done_inv in H. destruct H as [s4 [[] [Hcheck H]]].
  unfold ret in H. injection H as <- <-.
  assert (Hreq1 : requested s1 = requested st /\ files s1 = files st).
  { unfold makedirs in Hmk.
    destruct (dict_get Path_eqb (Path_of work_directory) (files st)); [discriminate|].
    destruct (makedirs_check ext work_directory); [|discriminate].
    injection Hmk as <-. split; reflexivity. }
  destruct Hreq1 as [Hreq1 Hfiles1].
  assert (Hs3 : path_exists P s3 = true /\
                (requested s3 = requested s1 \/ requested s3 = requested s1 ++ [url]) /\
                (forall q, dict_get Path_eqb q (files s1) <> None ->
                           dict_get Path_eqb q (files s3) <> None) /\
                ((files s3 = files s1 /\ requested s3 = requested s1) \/
                 (dict_get Path_eqb P (files s1) = None /\
                  requested s3 = requested s1 ++ [url] /\
                  exists resp,
                    requests_get ext url = Done resp /\
                    files s3 = dict_set Path_eqb P (List.concat (chunks resp))
                                 (files s1)))).
  { destruct (path_exists P s1) eqn:Hex; cbn [negb] in Hbranch.
    - unfold ret in Hbranch. injection Hbranch as <-.
      split; [exact Hex|]. split; [now left|]. split; [auto|]. left. split; reflexivity.
    - apply bind_done_inv in Hbranch. destruct Hbranch as [t1 [resp [Hreq Hb]]].
      unfold request in Hreq. injection Hreq as <- Hget.
      apply bind_done_inv in Hb. destruct Hb as [t2 [total [Ht2 Hb]]].
      unfold lift in Ht2. injection Ht2 as <- _.
      apply bind_done_inv in Hb. destruct Hb as [t3 [num [Ht3 Hb]]].
      unfold lift in Ht3. injection Ht3 as <- _.
      apply bind_done_inv in Hb. destruct Hb as [t4 [[] [Hopen Hb]]].
      apply bind_done_inv in Hb. destruct Hb as [t5 [[] [Hwrite Hb]]].
      assert (Ht4 : dict_get Path_eqb P (files t4) = Some [] /\
                    requested t4 = requested s1 ++ [url] /\
                    files t4 = dict_set Path_eqb P [] (files s1)).
      { unfold open_wb in Hopen. cbn [files] in Hopen.
        destruct (dict_get Path_eqb P (files s1));
          [| destruct (path_exists P _); [discriminate|] ];
          (destruct (open_check ext P); [|discriminate]);
          injection Hopen as <-; cbn [set_files files requested];
          (split; [apply (TrainerFacts.dict_get_set_same _ _ _ Path_eqb_eq)
                  | split; reflexivity]). }
      destruct Ht4 as [Hfile4 [Hreq4 Hfiles4]].
      rewrite (write_blocks_spec _ _ _ _ Hfile4) in Hwrite. injection Hwrite as <-.
      destruct (broken resp); [discriminate|].
      unfold ret in Hb. injection Hb as <-. split; [|split; [|split]].
      + eapply file_exists. cbn [set_files files].
        apply (TrainerFacts.dict_get_set_same _ _ _ Path_eqb_eq).
      + right. exact Hreq4.
      + intros q Hq. cbn [set_files files]. apply is_file_set.
        rewrite Hfiles4. now apply is_file_set.
      + right. split; [exact (missing_not_file _ _ Hex)|]. split; [exact Hreq4|].
        exists resp. split; [exact Hget|].
        cbn [set_files files app]. rewrite Hfiles4. apply dict_set_set. }
  destruct Hs3 as [Hex3 [Hreq3 [Hkeep3 Hcontent3]]]. rewrite Hreq1 in Hreq3.
  rewrite Hfiles1 in Hkeep3. rewrite Hfiles1, Hreq1 in Hcontent3.
  assert (Hs4 : s4 = s3 /\
                forall n, expected_bytes = Some n -> stat_size ext P s3 = (s3, Done n)).
  { destruct expected_bytes as [n|].
    - apply bind_done_inv in Hcheck. destruct Hcheck as [t1 [size [Hstat Hc]]].
      assert (t1 = s3) by (unfold stat_size in Hstat;
                           destruct (dict_get Path_eqb P (files s3));
                           now injection Hstat as <-).
      subst t1. destruct (size =? n) eqn:Hsz; cbn [negb] in Hc.
      + unfold ret in Hc. injection Hc as <-. split; [reflexivity|].
        intros n' Hn'. injection Hn' as <-. apply Z.eqb_eq in Hsz. now subst.
      + apply bind_done_inv in Hc. destruct Hc as [t2 [[] [_ Hc]]]. discriminate.
    - unfold ret in Hcheck. injection Hcheck as <-. split; [reflexivity|]. discriminate. }
  destruct Hs4 as [-> Hstat]. repeat split; assumption.
Qed.

(** X22: when [maybe_download] returns, it returns the path joined from the
    work directory and the file name, that path exists, at most the one URL
    has been requested, and a size that was expected is the size that
    [os.stat] reports for the path. *)
Theorem X22_returned_path_exists (ext : externals) (url : string)
    (filename : option string) (work_directory : string) (expected_bytes : option Z)
    (st st' : state) (p : string) :
  maybe_download ext url filename work_directory expected_bytes st = (st', Done p) ->
  p = os_path_join work_directory (file_name url filename) /\
  path_exists (Path_of p) st' = true /\
  (requested st' = requested st \/ requested st' = requested st ++ [url]) /\
  (forall n, expected_bytes = Some n -> stat_size ext (Path_of p) st' = (st', Done n)).
Proof.
  intros H. destruct (maybe_download_done _ _ _ _ _ _ _ _ H) as [H1 [H2 [H3 [H4 _]]]].
  repeat split; assumption.
Qed.

Lemma X22_returned_path_exists_witness :
  let run := maybe_download (ext_net None (Done [])) "http://host/a.zip" None "data"
               (Some 3) state0 in
  snd run = Done "data/a.zip" /\
  path_exists (Path_of "data/a.zip") (fst run) = true /\
  requested (fst run) = ["http://host/a.zip"].
Proof.
  assert (Hrun : maybe_download (ext_net None (Done [])) "http://host/a.zip" None "data"
                   (Some 3) state0
                 = (downloaded "data" "http://host/a.zip" (Path_of "data/a.zip")
                      [[b0; b0]; [b0]] state0, Done "data/a.zip")) by reflexivity.
  destruct (X22_returned_path_exists _ _ _ _ _ _ _ _ Hrun) as [_ [Hex _]].
  cbv zeta. rewrite Hrun. split; [reflexivity|]. split; [exact Hex | reflexivity].
Defined.

(** *** [download_resources] *)

Lemma can_makedirs_with_dir (ext : externals) (d d' : string) (st : state) :
  can_makedirs ext d st -> can_makedirs ext d (with_dir d' st).
Proof. intros [Hf Hc]. split; assumption. Qed.

(** X23: an archive that is in the directory and that [zipfile] cannot read
    is never replaced: [download_resources] requests nothing, fails with the
    error of [zipfile] and leaves the files as they are, so that every later
    call meets the same archive. *)
Theorem X23_unreadable_archive_is_never_replaced (ext : externals)
    (download_url data_path remote_resource_name : string)
    (st st' : state) (r : outcome unit) (content : bytes) (e : error) :
  can_makedirs ext data_path st ->
  dict_get Path_eqb (Path_of (os_path_join data_path remote_resource_name)) (files st)
  = Some content ->
  zip_members ext content = Fail e ->
  download_resources ext download_url data_path remote_resource_name st = (st', r) ->
  r = Fail e /\ files st' = files st /\ requested st' = requested st /\
  can_makedirs ext data_path st'.
Proof.
  intros Hmk Hfile Hzip. unfold download_resources.
  rewrite (bind_step _ _ _ _ _ (makedirs_with_dir _ _ _ Hmk)).
  unfold bind at 1.
  rewrite (found_file_is_checked ext _ (Some remote_resource_name) data_path None
             (with_dir data_path st) content
             (can_makedirs_with_dir _ _ _ _ Hmk) Hfile).
  unfold bind at 1. unfold read_file at 1.
  replace (dict_get Path_eqb _ (files (with_dir data_path (with_dir data_path st))))
    with (Some content) by (symmetry; exact Hfile).
  unfold bind at 1. unfold lift at 1. rewrite Hzip.
  intros H. injection H as <- <-. repeat split; apply Hmk.
Qed.

Lemma X23_unreadable_archive_is_never_replaced_witness :
  let ext := ext_net None (Fail (LibraryError "BadZipFile")) in
  let run := download_resources ext "http://host/" "data" "a.zip"
               (state_with "data/a.zip" [b0]) in
  snd run = Fail (LibraryError "BadZipFile") /\
  files (fst run) = [(Path_of "data/a.zip", [b0])] /\
  requested (fst run) = [] /\
  can_makedirs ext "data" (fst run).
Proof.
  apply (X23_unreadable_archive_is_never_replaced
           (ext_net None (Fail (LibraryError "BadZipFile")))
           "http://host/" "data" "a.zip" (state_with "data/a.zip" [b0]) _ _ [b0]
           (LibraryError "BadZipFile"));
    first [apply surjective_pairing | split; reflexivity | reflexivity].
Defined.

Lemma write_file_done (ext : externals) (p : Path) (data : bytes) (st st' : state) :
  write_file ext p data st = (st', Done tt) ->
  files st' = dict_set Path_eqb p data (files st) /\
  dirs st' = dirs st /\ requested st' = requested st.
Proof.
  unfold write_file. intros H.
  apply bind_done_inv in H. destruct H as [s1 [[] [Hopen H]]].
  assert (Hs1 : s1 = set_files (dict_set Path_eqb p [] (files st)) st).
  { unfold open_wb in Hopen.
    destruct (dict_get Path_eqb p (files st));
      [| destruct (path_exists p st); [discriminate|] ];
      (destruct (open_check ext p); [|discriminate]); now injection Hopen as <-. }
  subst s1. unfold file_write in H. injection H as <-.
  cbn [set_files files dirs requested].
  rewrite (TrainerFacts.dict_get_set_same _ _ _ Path_eqb_eq). cbn [get app].
  now rewrite dict_set_set.
Qed.

Lemma get_del_other (p q : Path) (d : dict Path bytes) :
  p <> q -> dict_get Path_eqb p (dict_del Path_eqb q d) = dict_get Path_eqb p d.
Proof.
  intros Hne. induction d as [|[k w] d IH]; simpl; [reflexivity|].
  destruct (Path_eqb q k) eqn:Hq; simpl.
  - apply Path_eqb_eq in Hq. subst k.
    destruct (Path_eqb p q) eqn:Hp; [apply Path_eqb_eq in Hp; contradiction | exact IH].
  - now rewrite IH.
Qed.

(** Extraction keeps the files that are there and adds those of the
    archive; it requests nothing. *)
Lemma extractall_done (ext : externals) (target : Path) (ms : list member) :
  forall st st',
  extractall ext target ms st = (st', Done tt) ->
  requested st' = requested st /\
  (forall p, dict_get Path_eqb p (files st) <> None ->
             dict_get Path_eqb p (files st') <> None) /\
  (forall name data, In (name, Some data) ms ->
                     dict_get Path_eqb (member_path target name) (files st') <> None).
Proof.
  induction ms as [|[name [data|]] ms IH]; intros st st' H.
  - simpl in H. unfold ret in H. injection H as <-. repeat split; auto.
  - simpl in H. apply bind_done_inv in H. destruct H as [s1 [[] [Hw H]]].
    apply write_file_done in Hw. destruct Hw as [Hf [_ Hr]].
    destruct (IH _ _ H) as [Hr' [Hkeep Hnew]].
    split; [congruence|]. split.
    + intros p Hp. apply Hkeep. rewrite Hf. now apply is_file_set.
    + intros name' data' [Heq | Hin].
      * injection Heq as <- <-. apply Hkeep. rewrite Hf.
        rewrite (TrainerFacts.dict_get_set_same _ _ _ Path_eqb_eq). discriminate.
      * eapply Hnew. exact Hin.
  - simpl in H. apply bind_done_inv in H. destruct H as [s1 [[] [Hd H]]].
    unfold add_dir in Hd. injection Hd as <-.
    destruct (IH _ _ H) as [Hr' [Hkeep Hnew]].
    split; [exact Hr'|]. split.
    + intros p Hp. apply Hkeep. exact Hp.
    + intros name' data' [Heq | Hin]; [discriminate|]. eapply Hnew. exact Hin.
Qed.

(** The file that [maybe_download] returns is the one that was there, with
    nothing requested, or holds the blocks of the response to the one
    request. *)
Lemma download_or_found (ext : externals) (url : string) (filename : option string)
    (work_directory : string) (expected_bytes : option Z) (st st' : state) (p : string)
    (content : bytes) :
  maybe_download ext url filename work_directory expected_bytes st = (st', Done p) ->
  dict_get Path_eqb (file_path url filename work_directory) (files st') = Some content ->
  (dict_get Path_eqb (file_path url filename work_directory) (files st) = Some content /\
   requested st' = requested st) \/
  (dict_get Path_eqb (file_path url filename work_directory) (files st) = None /\
   requested st' = requested st ++ [url] /\
   exists resp, requests_get ext url = Done resp /\
                content = List.concat (chunks resp)).
Proof.
  intros H Hcontent.
  destruct (maybe_download_done _ _ _ _ _ _ _ _ H)
    as [_ [_ [_ [_ [_ [[Hf Hr] | [Hnone [Hr [resp [Hget Hf]]]]]]]]]].
  - left. split; [now rewrite <- Hf | exact Hr].
  - right. split; [exact Hnone|]. split; [exact Hr|]. exists resp. split; [exact Hget|].
    rewrite Hf in Hcontent.
    rewrite (TrainerFacts.dict_get_set_same _ _ _ Path_eqb_eq) in Hcontent.
    now injection Hcontent as <-.
Qed.

(** X24: when [download_resources] returns, the archive that was read at
    line 118 is the file that was in the directory or, when there was none,
    the blocks of the response to the one request; it is no longer in the
    directory, every file that [zipfile] finds in it is (unless it took the
    archive's own place), the files that were there before are still there,
    and nothing else has been requested. *)
Theorem X24_archive_is_extracted_and_removed (ext : externals)
    (download_url data_path remote_resource_name : string) (st st' : state) :
  download_resources ext download_url data_path remote_resource_name st = (st', Done tt) ->
  let archive := Path_of (os_path_join data_path remote_resource_name) in
  let url := (download_url ++ remote_resource_name)%string in
  dict_get Path_eqb archive (files st') = None /\
  (forall p, p <> archive -> dict_get Path_eqb p (files st) <> None ->
             dict_get Path_eqb p (files st') <> None) /\
  exists content ms,
    ((dict_get Path_eqb archive (files st) = Some content /\
      requested st' = requested st) \/
     (dict_get Path_eqb archive (files st) = None /\
      requested st' = requested st ++ [url] /\
      exists resp, requests_get ext url = Done resp /\
                   content = List.concat (chunks resp))) /\
    zip_members ext content = Done ms /\
    forall name data,
      In (name, Some data) ms ->
      member_path (Path_of data_path) name <> archive ->
      dict_get Path_eqb (member_path (Path_of data_path) name) (files st') <> None.
Proof.
  intros H archive url. unfold download_resources in H.
  apply bind_done_inv in H. destruct H as [s1 [[] [Hmk H]]].
  apply bind_done_inv in H. destruct H as [s2 [p [Hdl H]]].
  apply bind_done_inv in H. destruct H as [s3 [content [Hread H]]].
  apply bind_done_inv in H. destruct H as [s4 [ms [Hzip H]]].
  apply bind_done_inv in H. destruct H as [s5 [[] [Hext H]]].
  fold archive in Hread, H. fold url in Hdl.
  assert (H1 : files s1 = files st /\ requested s1 = requested st).
  { unfold makedirs in Hmk.
    destruct (dict_get Path_eqb (Path_of data_path) (files st)); [discriminate|].
    destruct (makedirs_check ext data_path); [|discriminate].
    injection Hmk as <-. split; reflexivity. }
  destruct H1 as [Hf1 Hr1].
  assert (Hsplit : maybe_download ext url (Some remote_resource_name) data_path None s1
                   = (s2, Done p)) by exact Hdl.
  destruct (maybe_download_done ext _ _ _ _ _ _ _ Hdl) as [_ [_ [_ [_ [Hf2 Hc2]]]]].
  change (file_path url (Some remote_resource_name) data_path) with archive in Hc2.
  assert (s3 = s2 /\ dict_get Path_eqb archive (files s2) = Some content).
  { unfold read_file in Hread.
    destruct (dict_get Path_eqb archive (files s2));
      [injection Hread as <- ->; auto | discriminate]. }
  destruct H0 as [-> Hcontent].
  unfold lift in Hzip. injection Hzip as <- Hzip.
  destruct (extractall_done _ _ _ _ _ Hext) as [Hr5 [Hkeep Hnew]].
  unfold remove in H.
  destruct (dict_get Path_eqb archive (files s5)) eqn:Ha; [|discriminate].
  injection H as <-. cbn [set_files files requested].
  split; [apply get_del_same|]. split.
  - intros q Hq Hfile. rewrite (get_del_other _ _ _ Hq).
    apply Hkeep, Hf2. now rewrite Hf1.
  - exists content, ms. split; [|split; [exact Hzip|]].
    + rewrite Hr5, <- Hr1, <- Hf1.
      apply (download_or_found ext url (Some remote_resource_name) data_path None
               s1 s2 p content Hsplit Hcontent).
    + intros name data Hin Hne. rewrite (get_del_other _ _ _ Hne). eapply Hnew, Hin.
Qed.

Lemma X24_archive_is_extracted_and_removed_witness :
  let run := download_resources (ext_net None (Done [("news.tsv", Some [b0])]))
               "http://host/" "data" "a.zip" state0 in
  snd run = Done tt /\
  dict_get Path_eqb (Path_of "data/a.zip") (files (fst run)) = None /\
  requested (fst run) = ["http://host/a.zip"].
Proof.
  assert (Hrun : download_resources (ext_net None (Done [("news.tsv", Some [b0])]))
                   "http://host/" "data" "a.zip" state0
                 = ({| files := [(Path_of "data/news.tsv", [b0])];
                       dirs := [Path_of "data"; Path_of "data"];
                       requested := ["http://host/a.zip"] |}, Done tt)) by reflexivity.
  destruct (X24_archive_is_extracted_and_removed _ _ _ _ _ _ Hrun) as [Hgone _].
  cbv zeta. rewrite Hrun. split; [reflexivity|]. split; [exact Hgone | reflexivity].
Defined.

(** *** [get_mind_root_path] *)

(** Lines 39-41 change nothing. *)
Lemma root_path_tail (check mind_root : Path) (st : state) :
  (extracted <- exists_ check ;;
   (if negb extracted then ret tt else ret tt) ;;;
   ret mind_root)%io st
  = (st, Done mind_root).
Proof. unfold bind, exists_, ret. now destruct (path_exists check st). Qed.

(** X25: without a "data_path" argument [get_mind_root_path] raises
    [TypeError] at line 24, where [Path] is applied to [None], so that the
    default of line 26 is never used; without a "phase" argument it raises
    [TypeError] at line 28.  In both cases nothing has been looked up,
    downloaded or written. *)
Theorem X25_missing_path_or_phase_is_a_type_error (ext : externals) (kw : kwargs)
    (st : state) :
  kw_data_path kw = None \/ kw_phase kw = None ->
  get_mind_root_path ext kw st = (st, Fail TypeError).
Proof.
  intros H. unfold get_mind_root_path, bind, lift, Path_new.
  destruct (kw_data_path kw) as [dp|]; [|reflexivity].
  destruct H as [H | H]; [discriminate|]. now rewrite H.
Qed.

Lemma X25_missing_path_or_phase_is_a_type_error_witness :
  get_mind_root_path (ext_net None (Done [])) (kw_of None (Some "small") (Some "train"))
    state0
  = (state0, Fail TypeError).
Proof.
  apply (X25_missing_path_or_phase_is_a_type_error (ext_net None (Done []))
           (kw_of None (Some "small") (Some "train")) state0).
  left. reflexivity.
Defined.

(** *** [rename_utils] *)

Lemma only_adds_files_refl (check : Path) (st : state) : only_adds_files check st st.
Proof. repeat split; auto. Qed.

Lemma only_adds_files_trans (check : Path) (s1 s2 s3 : state) :
  only_adds_files check s1 s2 -> only_adds_files check s2 s3 ->
  only_adds_files check s1 s3.
Proof.
  intros [A1 [A2 [A3 A4]]] [B1 [B2 [B3 B4]]]. repeat split; auto; congruence.
Qed.

Lemma list_prefix_app (q a b : list string) :
  list_prefix (q ++ a) (q ++ b) = list_prefix a b.
Proof.
  induction q as [|x q IH]; simpl; [reflexivity|]. now rewrite String.eqb_refl.
Qed.

(** What is written below [data_path / "utils"] is not the file of line 37,
    nor below it, as soon as [data_path] has a component. *)
Lemma mark_is_elsewhere (data_path : Path) (rest : list string) :
  parts data_path <> [] ->
  above (renamed_mark data_path)
        {| root := root data_path; parts := (parts data_path ++ ["utils"]) ++ rest |}
  = false.
Proof.
  intros Hne. unfold above, renamed_mark, truediv, parent.
  cbn [starts_with_sep Ascii.eqb Bool.eqb root parts].
  change (path_parts "utils/word_dict/MIND_41059.json")
    with ["utils"; "word_dict"; "MIND_41059.json"].
  rewrite (app_removelast_last "" Hne) at 2.
  rewrite <- !app_assoc, list_prefix_app. cbn [app list_prefix].
  destruct (String.eqb "utils" (last (parts data_path) "")); [|now rewrite andb_false_r].
  cbn [andb String.eqb Ascii.eqb Bool.eqb]. now rewrite andb_false_r.
Qed.

Lemma exists_after_write (check p : Path) (data : bytes) (st st' : state) :
  above check p = false ->
  files st' = dict_set Path_eqb p data (files st) ->
  dirs st' = dirs st ->
  path_exists check st = false -> path_exists check st' = false.
Proof.
  intros Hab Hf Hd. unfold path_exists. destruct (parts check); [discriminate|].
  rewrite Hf, Hd, (TrainerFacts.dict_keys_set _ _ Path_eqb).
  destruct (dict_get Path_eqb p (files st)); [auto|].
  rewrite !existsb_app. cbn [existsb]. rewrite Hab.
  intros H. apply orb_false_iff in H. destruct H as [-> ->]. reflexivity.
Qed.

Lemma write_file_any (ext : externals) (p : Path) (data : bytes) (st st' : state)
    (r : outcome unit) :
  write_file ext p data st = (st', r) ->
  st' = st \/
  (files st' = dict_set Path_eqb p data (files st) /\
   dirs st' = dirs st /\ requested st' = requested st).
Proof.
  destruct r as [[]|e]; intros H.
  - right. now apply (write_file_done ext).
  - left. unfold write_file, bind in H.
    destruct (open_wb ext p st) as [s1 [[]|e1]] eqn:Hopen.
    + unfold file_write in H. discriminate.
    + injection H as <- _. unfold open_wb in Hopen.
      destruct (dict_get Path_eqb p (files st));
        [| destruct (path_exists p st); [now injection Hopen as <-|] ];
        (destruct (open_check ext p); [discriminate|]); now injection Hopen as <-.
Qed.

Lemma write_only_adds (ext : externals) (check p : Path) (data : bytes)
    (st st' : state) (r : outcome unit) :
  above check p = false ->
  write_file ext p data st = (st', r) ->
  only_adds_files check st st'.
Proof.
  intros Hab H. destruct (write_file_any _ _ _ _ _ _ H) as [-> | [Hf [Hd Hr]]].
  - apply only_adds_files_refl.
  - repeat split; try assumption.
    + now apply (exists_after_write check p data).
    + intros q Hq. rewrite Hf. now apply is_file_set.
Qed.

Lemma read_file_state (p : Path) (st st' : state) (r : outcome bytes) :
  read_file p st = (st', r) -> st' = st.
Proof.
  unfold read_file. destruct (dict_get Path_eqb p (files st)); intros H;
    now injection H as <-.
Qed.

(** The path of a file that [save_tojson] or [save_tonpy] writes. *)
Lemma utils_file_parts (data_path : Path) (name : string) :
  starts_with_sep name = false ->
  truediv (truediv data_path "utils") name
  = {| root := root data_path;
       parts := (parts data_path ++ ["utils"]) ++ path_parts name |}.
Proof. intros Hc. unfold truediv at 1. now rewrite Hc. Qed.

Lemma save_tojson_only_adds (ext : externals) (data_path path : Path)
    (st st' : state) (r : outcome unit) :
  parts data_path <> [] ->
  save_tojson ext path (truediv data_path "utils") st = (st', r) ->
  only_adds_files (renamed_mark data_path) st st'.
Proof.
  intros Hne. unfold save_tojson, bind.
  destruct (read_file path st) as [s1 [f|e]] eqn:Hread;
    apply read_file_state in Hread; subst s1;
    [| intros H; injection H as <- _; apply only_adds_files_refl].
  unfold lift at 1. destruct (pickle_load ext f) as [obj|e];
    [| intros H; injection H as <- _; apply only_adds_files_refl].
  apply write_only_adds.
  cbn [String.append]. rewrite utils_file_parts by reflexivity.
  now apply mark_is_elsewhere.
Qed.

Lemma save_tonpy_only_adds (ext : externals) (data_path path : Path)
    (st st' : state) (r : outcome unit) :
  parts data_path <> [] ->
  save_tonpy ext path (truediv data_path "utils") st = (st', r) ->
  only_adds_files (renamed_mark data_path) st st'.
Proof.
  intros Hne. unfold save_tonpy, bind.
  destruct (read_file path st) as [s1 [f|e]] eqn:Hread;
    apply read_file_state in Hread; subst s1;
    [| intros H; injection H as <- _; apply only_adds_files_refl].
  unfold lift at 1. destruct (np_load ext f) as [obj|e];
    [| intros H; injection H as <- _; apply only_adds_files_refl].
  unfold lift at 1. destruct (nd_len obj) as [n|e];
    [| intros H; injection H as <- _; apply only_adds_files_refl].
  apply write_only_adds.
  cbn [String.append]. rewrite utils_file_parts by reflexivity.
  now apply mark_is_elsewhere.
Qed.

Lemma bind_only_adds {A B} (check : Path) (c : IO A) (k : A -> IO B)
    (st st' : state) (r : outcome B) :
  (forall s s' a, c s = (s', a) -> only_adds_files check s s') ->
  (forall a s s' b, k a s = (s', b) -> only_adds_files check s s') ->
  bind c k st = (st', r) -> only_adds_files check st st'.
Proof.
  intros Hc Hk. unfold bind. destruct (c st) as [s1 [a|e]] eqn:H1; intros H.
  - eapply only_adds_files_trans; [eapply Hc, H1 | eapply Hk, H].
  - injection H as <- _. eapply Hc, H1.
Qed.

Lemma for_each_only_adds (check util_path : Path)
    (jobs : list (Path * (Path -> Path -> IO unit))) :
  Forall (fun job => forall s s' a,
            snd job (fst job) util_path s = (s', a) -> only_adds_files check s s') jobs ->
  forall st st' r,
  for_each_util util_path jobs st = (st', r) -> only_adds_files check st st'.
Proof.
  induction 1 as [|[path func] jobs Hjob _ IH]; intros st st' r H.
  - simpl in H. unfold ret in H. injection H as <- _. apply only_adds_files_refl.
  - simpl in H. eapply bind_only_adds in H; [exact H | exact Hjob |].
    intros [] s s' b. apply IH.
Qed.

(** [rename_utils] removes and renames nothing, and what it writes is not
    the file that line 37 looks for. *)
Lemma rename_utils_only_adds (ext : externals) (data_path : Path)
    (st st' : state) (r : outcome unit) :
  parts data_path <> [] ->
  rename_utils ext (truediv data_path "utils") st = (st', r) ->
  only_adds_files (renamed_mark data_path) st st'.
Proof.
  intros Hne. unfold rename_utils. apply for_each_only_adds.
  cbn [combine].
  repeat (apply Forall_cons;
          [ cbn [fst snd]; intros s s' a Hs;
            first [ eapply save_tojson_only_adds; [exact Hne | exact Hs]
                  | eapply save_tonpy_only_adds; [exact Hne | exact Hs] ] | ]).
  apply Forall_nil.
Qed.

Lemma keeps_files_refl (st : state) : keeps_files st st.
Proof. repeat split; auto. Qed.

Lemma keeps_files_trans (s1 s2 s3 : state) :
  keeps_files s1 s2 -> keeps_files s2 s3 -> keeps_files s1 s3.
Proof.
  intros [A1 [A2 A3]] [B1 [B2 B3]]. repeat split; auto; congruence.
Qed.

Lemma write_keeps (ext : externals) (p : Path) (data : bytes)
    (st st' : state) (r : outcome unit) :
  write_file ext p data st = (st', r) -> keeps_files st st'.
Proof.
  intros H. destruct (write_file_any _ _ _ _ _ _ H) as [-> | [Hf [Hd Hr]]].
  - apply keeps_files_refl.
  - repeat split; try assumption.
    intros q Hq. rewrite Hf. now apply is_file_set.
Qed.

Lemma save_tojson_keeps (ext : externals) (path util_path : Path)
    (st st' : state) (r : outcome unit) :
  save_tojson ext path util_path st = (st', r) -> keeps_files st st'.
Proof.
  unfold save_tojson, bind.
  destruct (read_file path st) as [s1 [f|e]] eqn:Hread;
    apply read_file_state in Hread; subst s1;
    [| intros H; injection H as <- _; apply keeps_files_refl].
  unfold lift at 1. destruct (pickle_load ext f) as [obj|e];
    [| intros H; injection H as <- _; apply keeps_files_refl].
  apply write_keeps.
Qed.

Lemma save_tonpy_keeps (ext : externals) (path util_path : Path)
    (st st' : state) (r : outcome unit) :
  save_tonpy ext path util_path st = (st', r) -> keeps_files st st'.
Proof.
  unfold save_tonpy, bind.
  destruct (read_file path st) as [s1 [f|e]] eqn:Hread;
    apply read_file_state in Hread; subst s1;
    [| intros H; injection H as <- _; apply keeps_files_refl].
  unfold lift at 1. destruct (np_load ext f) as [obj|e];
    [| intros H; injection H as <- _; apply keeps_files_refl].
  unfold lift at 1. destruct (nd_len obj) as [n|e];
    [| intros H; injection H as <- _; apply keeps_files_refl].
  apply write_keeps.
Qed.

Lemma for_each_keeps (util_path : Path)
    (jobs : list (Path * (Path -> Path -> IO unit))) :
  Forall (fun job => forall s s' a,
            snd job (fst job) util_path s = (s', a) -> keeps_files s s') jobs ->
  forall st st' r,
  for_each_util util_path jobs st = (st', r) -> keeps_files st st'.
Proof.
  induction 1 as [|[path func] jobs Hjob _ IH]; intros st st' r H.
  - simpl in H. unfold ret in H. injection H as <- _. apply keeps_files_refl.
  - simpl in H. unfold bind in H. cbn [fst snd] in Hjob.
    destruct (func path util_path st) as [s1 [[]|e]] eqn:H1.
    + eapply keeps_files_trans; [eapply Hjob, H1 | eapply IH, H].
    + injection H as <- _. eapply Hjob, H1.
Qed.

(** [rename_utils] removes and renames nothing, makes no directory and
    requests nothing, wherever [util_path] lies. *)
Lemma rename_utils_keeps (ext : externals) (util_path : Path)
    (st st' : state) (r : outcome unit) :
  rename_utils ext util_path st = (st', r) -> keeps_files st st'.
Proof.
  unfold rename_utils. apply for_each_keeps. cbn [combine].
  repeat (apply Forall_cons;
          [ cbn [fst snd]; intros s s' a Hs;
            first [ eapply save_tojson_keeps; exact Hs
                  | eapply save_tonpy_keeps; exact Hs ] | ]).
  apply Forall_nil.
Qed.

(** X26: with "data_path" and "phase" given, [mind_root] is
    [data_path / mind_type / phase].  When it exists, nothing is requested,
    no file is removed and [mind_type] is not checked, whatever it is: the
    call is [rename_utils] when the file of line 37 is missing, returning
    [mind_root] exactly when that returns, and it changes nothing and returns
    [mind_root] when that file exists.  When [mind_root] does not exist and
    [mind_type] is none of "large", "small" and "demo", the call fails its
    assertion before anything is downloaded or written. *)
Theorem X26_data_set_is_fetched_only_when_missing (ext : externals) (kw : kwargs)
    (st : state) (data_path phase : string) :
  kw_data_path kw = Some data_path ->
  kw_phase kw = Some phase ->
  let mind_type := get (kw_mind_type kw) "demo" in
  let mind_root := truediv (truediv (Path_of data_path) mind_type) phase in
  (path_exists mind_root st = true ->
   forall st' r,
   get_mind_root_path ext kw st = (st', r) ->
   keeps_files st st' /\
   (path_exists (renamed_mark (Path_of data_path)) st = true ->
    st' = st /\ r = Done mind_root) /\
   (path_exists (renamed_mark (Path_of data_path)) st = false ->
    exists r', rename_utils ext (truediv (Path_of data_path) "utils") st = (st', r') /\
               r = match r' with Done _ => Done mind_root | Fail e => Fail e end)) /\
  (path_exists mind_root st = false ->
   ~ In mind_type ["large"; "small"; "demo"] ->
   get_mind_root_path ext kw st = (st, Fail (Builtin AssertionError))).
Proof.
  intros Hdp Hphase mind_type mind_root.
  unfold get_mind_root_path. rewrite Hdp, Hphase. cbn [Path_new truediv_opt].
  fold mind_type.
  split.
  - intros Hroot st' r.
    unfold bind at 1. unfold lift at 1. cbv zeta.
    unfold bind at 1. unfold lift at 1. fold mind_root.
    unfold bind at 1. unfold exists_ at 1.
    rewrite Hroot. cbn [negb].
    unfold bind at 1. unfold ret at 1.
    unfold bind at 1. unfold exists_ at 1.
    fold (renamed_mark (Path_of data_path)).
    destruct (path_exists (renamed_mark (Path_of data_path)) st) eqn:Hmark; cbn [negb].
    + unfold bind at 1. unfold ret at 1. rewrite root_path_tail.
      intros H. injection H as <- <-.
      split; [apply keeps_files_refl|]. split; [auto | discriminate].
    + unfold bind at 1.
      destruct (rename_utils ext (truediv (Path_of data_path) "utils") st)
        as [s1 r'] eqn:Hrename.
      pose proof (rename_utils_keeps _ _ _ _ _ Hrename) as Hkeeps.
      destruct r' as [[]|e]; intros H.
      * rewrite root_path_tail in H. injection H as <- <-.
        split; [exact Hkeeps|]. split; [discriminate|].
        intros _. exists (Done tt). split; reflexivity.
      * injection H as <- <-.
        split; [exact Hkeeps|]. split; [discriminate|].
        intros _. exists (Fail e). split; reflexivity.
  - intros Hroot Hnot.
    unfold bind at 1. unfold lift at 1. cbv zeta.
    unfold bind at 1. unfold lift at 1. fold mind_root.
    unfold bind at 1. unfold exists_ at 1.
    rewrite Hroot. cbn [negb].
    unfold bind at 1. unfold bind at 1. unfold lift at 1.
    replace (get_mind_data_set mind_type) with
      (@Fail (option (string * string * string * string)) (Builtin AssertionError)).
    + reflexivity.
    + symmetry. unfold get_mind_data_set.
      destruct (existsb _ _) eqn:He; [|reflexivity].
      apply existsb_exists in He. destruct He as [x [Hin Hx]].
      apply String.eqb_eq in Hx. subst x. contradiction.
Qed.

Lemma X26_data_set_is_fetched_only_when_missing_witness :
  (let run := get_mind_root_path (ext_net None (Done []))
                (kw_of (Some "dataset/MIND") (Some "tiny") (Some "train"))
                {| files := []; dirs := [Path_of "dataset/MIND/tiny/train"];
                   requested := [] |} in
   requested (fst run) = [] /\ dirs (fst run) = [Path_of "dataset/MIND/tiny/train"]) /\
  get_mind_root_path (ext_net None (Done []))
    (kw_of (Some "dataset/MIND") (Some "tiny") (Some "train")) state0
  = (state0, Fail (Builtin AssertionError)).
Proof.
  split.
  - destruct (proj1 (X26_data_set_is_fetched_only_when_missing (ext_net None (Done []))
                       (kw_of (Some "dataset/MIND") (Some "tiny") (Some "train"))
                       {| files := []; dirs := [Path_of "dataset/MIND/tiny/train"];
                          requested := [] |}
                       "dataset/MIND" "train" eq_refl eq_refl)
                eq_refl _ _ (surjective_pairing _)) as [[Hreq [Hdirs _]] _].
    split; [exact Hreq | exact Hdirs].
  - apply (proj2 (X26_data_set_is_fetched_only_when_missing (ext_net None (Done []))
                    (kw_of (Some "dataset/MIND") (Some "tiny") (Some "train")) state0
                    "dataset/MIND" "train" eq_refl eq_refl)).
    + reflexivity.
    + cbn. intros [H | [H | [H | []]]]; discriminate.
Defined.

(** X27: when the dataset directory exists and the file of line 37 does
    not, [get_mind_root_path] runs [rename_utils] and returns [mind_root]
    exactly when that returns.  [rename_utils] writes below
    [data_path / "utils"], while line 37 looks below [data_path.parent]: as
    soon as [data_path] has a component, and none of its components is
    "..", the file looked for is still missing afterwards, so that every call
    runs [rename_utils] again.  Nothing is removed or renamed, no directory
    is made and nothing is requested. *)
Theorem X27_rename_utils_runs_at_every_call (ext : externals) (kw : kwargs)
    (st st' : state) (r : outcome Path) (data_path phase : string) :
  kw_data_path kw = Some data_path ->
  kw_phase kw = Some phase ->
  parts (Path_of data_path) <> [] ->
  ~ In ".." (parts (Path_of data_path)) ->
  let mind_root :=
    truediv (truediv (Path_of data_path) (get (kw_mind_type kw) "demo")) phase in
  path_exists mind_root st = true ->
  path_exists (renamed_mark (Path_of data_path)) st = false ->
  get_mind_root_path ext kw st = (st', r) ->
  (exists r', rename_utils ext (truediv (Path_of data_path) "utils") st = (st', r') /\
              r = match r' with Done _ => Done mind_root | Fail e => Fail e end) /\
  path_exists (renamed_mark (Path_of data_path)) st' = false /\
  only_adds_files (renamed_mark (Path_of data_path)) st st'.
Proof.
  intros Hdp Hphase Hne Hdots mind_root Hroot Hmark.
  unfold get_mind_root_path. rewrite Hdp, Hphase. cbn [Path_new truediv_opt].
  unfold bind at 1. unfold lift at 1. cbv zeta.
  unfold bind at 1. unfold lift at 1. fold mind_root.
  unfold bind at 1. unfold exists_ at 1.
  rewrite Hroot. cbn [negb].
  unfold bind at 1. unfold ret at 1.
  unfold bind at 1. unfold exists_ at 1.
  fold (renamed_mark (Path_of data_path)). rewrite Hmark. cbn [negb].
  unfold bind at 1.
  destruct (rename_utils ext (truediv (Path_of data_path) "utils") st)
    as [s1 r'] eqn:Hrename.
  pose proof (rename_utils_only_adds _ _ _ _ _ Hne Hrename) as Hadds.
  assert (Hst : st' = s1 ->
                (exists r'0, (s1, r') = (st', r'0) /\
                             r = match r'0 with
                                 | Done _ => Done mind_root
                                 | Fail e => Fail e
                                 end) ->
                (exists r'0, (s1, r') = (st', r'0) /\
                             r = match r'0 with
                                 | Done _ => Done mind_root
                                 | Fail e => Fail e
                                 end) /\
                path_exists (renamed_mark (Path_of data_path)) st' = false /\
                only_adds_files (renamed_mark (Path_of data_path)) st st').
  { intros -> Hex. split; [exact Hex|]. split; [|exact Hadds].
    destruct Hadds as [Hkeep _]. now apply Hkeep. }
  destruct r' as [[]|e]; intros H.
  - rewrite root_path_tail in H. injection H as <- <-. apply Hst; [reflexivity|].
    exists (Done tt). split; reflexivity.
  - injection H as <- <-. apply Hst; [reflexivity|].
    exists (Fail e). split; reflexivity.
Qed.

Lemma X27_rename_utils_runs_at_every_call_witness :
  let run := get_mind_root_path (ext_net None (Done []))
               (kw_of (Some "dataset/MIND") None (Some "train")) state_utils in
  snd run = Done (Path_of "dataset/MIND/demo/train") /\
  path_exists (renamed_mark (Path_of "dataset/MIND")) (fst run) = false /\
  path_exists (Path_of "dataset/MIND/utils/word_dict/MIND_3.json") (fst run) = true.
Proof.
  cbv zeta.
  split; [reflexivity|]. split; [|reflexivity].
  refine (proj1 (proj2
            (X27_rename_utils_runs_at_every_call (ext_net None (Done []))
               (kw_of (Some "dataset/MIND") None (Some "train")) state_utils _ _
               "dataset/MIND" "train" eq_refl eq_refl _ _ eq_refl eq_refl
               (surjective_pairing _)))).
  - discriminate.
  - cbn. intros [H | [H | []]]; discriminate.
Defined.

(** *** [save_tojson] *)

Lemma length_dict_set (k : string) (v : Z) (d : dict string Z) :
  List.length (dict_set String.eqb k v d)
  = match dict_get String.eqb k d with
    | Some _ => List.length d
    | None => S (List.length d)
    end.
Proof.
  induction d as [|[k0 v0] d IH]; simpl; [reflexivity|].
  destruct (String.eqb k k0); simpl; [reflexivity|].
  rewrite IH. now destruct (dict_get String.eqb k d).
Qed.

(** X28: when [save_tojson] returns, the file it has written holds the
    pickled dictionary with "[UNK]" set to 0, every other word keeping its
    index, and the number in the file's name counts "[UNK]": it is the size
    of the pickled dictionary, plus one when "[UNK]" was not in it.  The
    pickle itself is still there. *)
Theorem X28_save_tojson_adds_unk (ext : externals) (path util_path : Path)
    (st st' : state) :
  save_tojson ext path util_path st = (st', Done tt) ->
  exists content obj,
    dict_get Path_eqb path (files st) = Some content /\
    pickle_load ext content = Done obj /\
    let written := dict_set String.eqb "[UNK]" 0 obj in
    let n := (Z.of_nat (List.length obj)
              + match dict_get String.eqb "[UNK]" obj with Some _ => 0 | None => 1 end) in
    dict_get Path_eqb
      (truediv util_path ("word_dict/MIND_" ++ str_of_int n ++ ".json")) (files st')
    = Some (json_dumps ext written) /\
    dict_get String.eqb "[UNK]" written = Some 0 /\
    (forall w, w <> "[UNK]" ->
               dict_get String.eqb w written = dict_get String.eqb w obj) /\
    dict_get Path_eqb path (files st') <> None.
Proof.
  unfold save_tojson. intros H.
  apply bind_done_inv in H. destruct H as [s1 [content [Hread H]]].
  pose proof (read_file_state _ _ _ _ Hread) as ->.
  apply bind_done_inv in H. destruct H as [s2 [obj [Hload H]]].
  unfold lift in Hload. injection Hload as <- Hload.
  apply write_file_done in H. destruct H as [Hf _].
  assert (Hpath : dict_get Path_eqb path (files st) = Some content).
  { unfold read_file in Hread. destruct (dict_get Path_eqb path (files st));
      [now injection Hread as -> | discriminate]. }
  exists content, obj. split; [exact Hpath|]. split; [exact Hload|].
  cbv zeta. split; [|split; [|split]].
  - rewrite Hf, length_dict_set.
    replace (Z.of_nat (List.length obj)
             + match dict_get String.eqb "[UNK]" obj with Some _ => 0 | None => 1 end)
      with (Z.of_nat match dict_get String.eqb "[UNK]" obj with
                     | Some _ => List.length obj
                     | None => S (List.length obj)
                     end)
      by (destruct (dict_get String.eqb "[UNK]" obj); lia).
    apply (TrainerFacts.dict_get_set_same _ _ _ Path_eqb_eq).
  - apply (TrainerFacts.dict_get_set_same _ _ _ String.eqb_eq).
  - intros w Hw. rewrite (TrainerFacts.dict_get_set _ _ _ String.eqb_eq).
    destruct (String.eqb w "[UNK]") eqn:He; [|reflexivity].
    apply String.eqb_eq in He. contradiction.
  - rewrite Hf. apply is_file_set. rewrite Hpath. discriminate.
Qed.

Lemma X28_save_tojson_adds_unk_witness :
  let run := save_tojson (ext_net None (Done [])) (Path_of "utils/word_dict.pkl")
               (Path_of "utils") (state_with "utils/word_dict.pkl" [b0]) in
  snd run = Done tt /\
  dict_get Path_eqb (Path_of "utils/word_dict/MIND_3.json") (files (fst run))
  = Some [b0; b0; b0].
Proof.
  assert (Hrun : save_tojson (ext_net None (Done [])) (Path_of "utils/word_dict.pkl")
                   (Path_of "utils") (state_with "utils/word_dict.pkl" [b0])
                 = ({| files := [(Path_of "utils/word_dict.pkl", [b0]);
                                 (Path_of "utils/word_dict/MIND_3.json", [b0; b0; b0])];
                       dirs := []; requested := [] |}, Done tt)) by reflexivity.
  destruct (X28_save_tojson_adds_unk _ _ _ _ _ Hrun) as [c [obj [_ [_ _]]]].
  cbv zeta. rewrite Hrun. split; reflexivity.
Defined.

End MindUtilsFacts.
